(** * Clowder pipeline orchestrator: scheduler, executor, failure
      propagation, completion check, multiplier and stop operation

    A shallow embedding of [server/main.py], [server/services.py],
    [agents/job_multiplier.py] and [agents/artifact_strategies.py].

    The relational store is a record of tables; a table is the list of its
    rows in scan order (the order a query without ORDER BY visits them).
    Text columns holding JSON are represented by the decoded configuration;
    [artifacts.metadata], which no modelled statement reads, is left out.
    Strings range over the ASCII alphabet.  [db._timestamp()] is the [now]
    argument of each operation. *)

From Stdlib Require Import ZArith List String Ascii Bool Lia.
From Stdlib Require Import Decimal DecimalString.
Import ListNotations.

Local Open Scope string_scope.
Local Open Scope Z_scope.

(* ------------------------------------------------------------------ *)
(** ** Python string primitives used by the sources *)

Definition nl : string := String "010"%char "".

(** [str(n)] for an integer. *)
Definition py_str_int (n : Z) : string := NilZero.string_of_int (Z.to_int n).

(** [c.isspace()] on the ASCII range: TAB..CR, FS..US and the blank. *)
Definition isspace (c : ascii) : bool :=
  let n := nat_of_ascii c in
  ((9 <=? n) && (n <=? 13) || (28 <=? n) && (n <=? 32))%nat.

Definition is_empty (s : string) : bool :=
  match s with EmptyString => true | String _ _ => false end.

Fixpoint lstrip (s : string) : string :=
  match s with
  | EmptyString => EmptyString
  | String c r => if isspace c then lstrip r else s
  end.

Fixpoint rstrip (s : string) : string :=
  match s with
  | EmptyString => EmptyString
  | String c r =>
      let r' := rstrip r in
      if isspace c && is_empty r' then EmptyString else String c r'
  end.

Definition strip (s : string) : string := rstrip (lstrip s).

(** [s.split(sep)] for a one-character separator. *)
Fixpoint split (sep : ascii) (s : string) : list string :=
  match s with
  | EmptyString => [EmptyString]
  | String c r =>
      let l := split sep r in
      if Ascii.eqb c sep then EmptyString :: l
      else match l with
           | h :: t => String c h :: t
           | [] => [String c EmptyString]
           end
  end.

(** The successive results of [readline()] on a stream holding [s]: each
    line keeps its terminating newline; the last one may lack it. *)
Fixpoint readlines (s : string) : list string :=
  match s with
  | EmptyString => []
  | String c r =>
      let l := readlines r in
      if Ascii.eqb c "010"%char then String c EmptyString :: l
      else match l with
           | h :: t => String c h :: t
           | [] => [String c EmptyString]
           end
  end.

(** [s.replace(old, new)] for a non-empty [old]: every non-overlapping
    occurrence, left to right.  [skip] counts the characters of a match that
    are still to be passed over. *)
Fixpoint replace_from (skip : nat) (old new s : string) : string :=
  match s with
  | EmptyString => EmptyString
  | String c r =>
      match skip with
      | S k => replace_from k old new r
      | O =>
          if prefix old s
          then new ++ replace_from (Nat.pred (String.length old)) old new r
          else String c (replace_from O old new r)
      end
  end.

Definition replace (old new s : string) : string := replace_from O old new s.

(** [s[:n]] *)
Definition slice_to (n : nat) (s : string) : string := substring 0 n s.

(** [sep.join(l)] *)
Definition join (sep : string) (l : list string) : string := String.concat sep l.

(** SQL [SUM(...)]: NULL over an empty set of rows. *)
Definition sql_sum (l : list Z) : option Z :=
  match l with
  | [] => None
  | _ => Some (fold_right Z.add 0 l)
  end.

Definition sql_count {A : Type} (l : list A) : Z := Z.of_nat (List.length l).

Definition opt_eqb (a : option string) (b : string) : bool :=
  match a with Some x => String.eqb x b | None => false end.

(* ------------------------------------------------------------------ *)
(** ** Data model *)

Inductive job_status := pending | running | completed | failed | skipped.

Inductive pipeline_status :=
  p_pending | p_running | p_completed | p_failed | p_cancelled.

Inductive dependency_type := success | failure | always.

Definition job_status_eq_dec (a b : job_status) : {a = b} + {a <> b}.
Proof. decide equality. Defined.

Definition pipeline_status_eq_dec (a b : pipeline_status) : {a = b} + {a <> b}.
Proof. decide equality. Defined.

Definition dependency_type_eq_dec (a b : dependency_type) : {a = b} + {a <> b}.
Proof. decide equality. Defined.

Definition is_status (a b : job_status) : bool :=
  if job_status_eq_dec a b then true else false.

Definition is_pstatus (a b : pipeline_status) : bool :=
  if pipeline_status_eq_dec a b then true else false.

Definition is_dtype (a b : dependency_type) : bool :=
  if dependency_type_eq_dec a b then true else false.

(** Decoded [retry_strategy] column: truthiness of [include_context] and the
    [context_instruction] key when present. *)
Record retry_strategy_config := {
  include_context : bool;
  context_instruction : option string
}.

(** Decoded [artifact_strategy] column, by its [type] key. *)
#[warnings="-register-all"]
Inductive artifact_strategy_config :=
| cfg_stdout_final
| cfg_git_diff
| cfg_composite (strategies : list artifact_strategy_config)
| cfg_other (type : string).

Inductive source_type_config := source_artifact | source_action.

(** Decoded [job_multiplier] column. *)
Record multiplier_config := {
  source_template_job_id : option string;
  source_type : source_type_config;
  artifact_name : option string;
  parse_strategy : option string;
  prompt_template : option string
}.

Module Pipeline.
Record row := {
  pipeline_id : string;
  template_id : option string;
  original_prompt : string;
  status : pipeline_status;
  created_at : string;
  updated_at : string;
  completed_at : option string
}.
End Pipeline.

Module Stage.
Record row := {
  stage_id : string;
  pipeline_id : string;
  stage_order : Z
}.
End Stage.

Module Job.
Record row := {
  job_id : string;
  pipeline_id : string;
  stage_id : string;
  agent_type : string;
  prompt : string;
  original_prompt : option string;
  command : option string;
  max_iterations : Z;
  timeout_seconds : Z;
  allowed_paths : string;
  artifact_strategy : option artifact_strategy_config;
  retry_strategy : option retry_strategy_config;
  template_job_id : option string;
  parent_job_id : option string;
  status : job_status;
  retry_count : option Z;
  max_retries : option Z;
  termination_reason : option string;
  job_output : option string;
  started_at : option string;
  completed_at : option string;
  created_at : string;
  updated_at : string
}.

Definition set_prompt (v : string) (j : row) : row :=
  {| job_id := job_id j; pipeline_id := pipeline_id j; stage_id := stage_id j;
     agent_type := agent_type j; prompt := v;
     original_prompt := original_prompt j; command := command j;
     max_iterations := max_iterations j; timeout_seconds := timeout_seconds j;
     allowed_paths := allowed_paths j; artifact_strategy := artifact_strategy j;
     retry_strategy := retry_strategy j; template_job_id := template_job_id j;
     parent_job_id := parent_job_id j; status := status j;
     retry_count := retry_count j; max_retries := max_retries j;
     termination_reason := termination_reason j; job_output := job_output j;
     started_at := started_at j; completed_at := completed_at j;
     created_at := created_at j; updated_at := updated_at j |}.

Definition set_status (v : job_status) (j : row) : row :=
  {| job_id := job_id j; pipeline_id := pipeline_id j; stage_id := stage_id j;
     agent_type := agent_type j; prompt := prompt j;
     original_prompt := original_prompt j; command := command j;
     max_iterations := max_iterations j; timeout_seconds := timeout_seconds j;
     allowed_paths := allowed_paths j; artifact_strategy := artifact_strategy j;
     retry_strategy := retry_strategy j; template_job_id := template_job_id j;
     parent_job_id := parent_job_id j; status := v;
     retry_count := retry_count j; max_retries := max_retries j;
     termination_reason := termination_reason j; job_output := job_output j;
     started_at := started_at j; completed_at := completed_at j;
     created_at := created_at j; updated_at := updated_at j |}.

Definition set_retry_count (v : option Z) (j : row) : row :=
  {| job_id := job_id j; pipeline_id := pipeline_id j; stage_id := stage_id j;
     agent_type := agent_type j; prompt := prompt j;
     original_prompt := original_prompt j; command := command j;
     max_iterations := max_iterations j; timeout_seconds := timeout_seconds j;
     allowed_paths := allowed_paths j; artifact_strategy := artifact_strategy j;
     retry_strategy := retry_strategy j; template_job_id := template_job_id j;
     parent_job_id := parent_job_id j; status := status j;
     retry_count := v; max_retries := max_retries j;
     termination_reason := termination_reason j; job_output := job_output j;
     started_at := started_at j; completed_at := completed_at j;
     created_at := created_at j; updated_at := updated_at j |}.

Definition set_termination_reason (v : option string) (j : row) : row :=
  {| job_id := job_id j; pipeline_id := pipeline_id j; stage_id := stage_id j;
     agent_type := agent_type j; prompt := prompt j;
     original_prompt := original_prompt j; command := command j;
     max_iterations := max_iterations j; timeout_seconds := timeout_seconds j;
     allowed_paths := allowed_paths j; artifact_strategy := artifact_strategy j;
     retry_strategy := retry_strategy j; template_job_id := template_job_id j;
     parent_job_id := parent_job_id j; status := status j;
     retry_count := retry_count j; max_retries := max_retries j;
     termination_reason := v; job_output := job_output j;
     started_at := started_at j; completed_at := completed_at j;
     created_at := created_at j; updated_at := updated_at j |}.

Definition set_job_output (v : option string) (j : row) : row :=
  {| job_id := job_id j; pipeline_id := pipeline_id j; stage_id := stage_id j;
     agent_type := agent_type j; prompt := prompt j;
     original_prompt := original_prompt j; command := command j;
     max_iterations := max_iterations j; timeout_seconds := timeout_seconds j;
     allowed_paths := allowed_paths j; artifact_strategy := artifact_strategy j;
     retry_strategy := retry_strategy j; template_job_id := template_job_id j;
     parent_job_id := parent_job_id j; status := status j;
     retry_count := retry_count j; max_retries := max_retries j;
     termination_reason := termination_reason j; job_output := v;
     started_at := started_at j; completed_at := completed_at j;
     created_at := created_at j; updated_at := updated_at j |}.

Definition set_started_at (v : option string) (j : row) : row :=
  {| job_id := job_id j; pipeline_id := pipeline_id j; stage_id := stage_id j;
     agent_type := agent_type j; prompt := prompt j;
     original_prompt := original_prompt j; command := command j;
     max_iterations := max_iterations j; timeout_seconds := timeout_seconds j;
     allowed_paths := allowed_paths j; artifact_strategy := artifact_strategy j;
     retry_strategy := retry_strategy j; template_job_id := template_job_id j;
     parent_job_id := parent_job_id j; status := status j;
     retry_count := retry_count j; max_retries := max_retries j;
     termination_reason := termination_reason j; job_output := job_output j;
     started_at := v; completed_at := completed_at j;
     created_at := created_at j; updated_at := updated_at j |}.

Definition set_completed_at (v : option string) (j : row) : row :=
  {| job_id := job_id j; pipeline_id := pipeline_id j; stage_id := stage_id j;
     agent_type := agent_type j; prompt := prompt j;
     original_prompt := original_prompt j; command := command j;
     max_iterations := max_iterations j; timeout_seconds := timeout_seconds j;
     allowed_paths := allowed_paths j; artifact_strategy := artifact_strategy j;
     retry_strategy := retry_strategy j; template_job_id := template_job_id j;
     parent_job_id := parent_job_id j; status := status j;
     retry_count := retry_count j; max_retries := max_retries j;
     termination_reason := termination_reason j; job_output := job_output j;
     started_at := started_at j; completed_at := v;
     created_at := created_at j; updated_at := updated_at j |}.

Definition set_updated_at (v : string) (j : row) : row :=
  {| job_id := job_id j; pipeline_id := pipeline_id j; stage_id := stage_id j;
     agent_type := agent_type j; prompt := prompt j;
     original_prompt := original_prompt j; command := command j;
     max_iterations := max_iterations j; timeout_seconds := timeout_seconds j;
     allowed_paths := allowed_paths j; artifact_strategy := artifact_strategy j;
     retry_strategy := retry_strategy j; template_job_id := template_job_id j;
     parent_job_id := parent_job_id j; status := status j;
     retry_count := retry_count j; max_retries := max_retries j;
     termination_reason := termination_reason j; job_output := job_output j;
     started_at := started_at j; completed_at := completed_at j;
     created_at := created_at j; updated_at := v |}.
End Job.

Module JobDependency.
Record row := {
  job_id : string;
  depends_on_job_id : string;
  dependency_type : dependency_type
}.
End JobDependency.

Module Artifact.
Record row := {
  artifact_id : string;
  job_id : string;
  type : string;
  name : string;
  description : string;
  file_path : option string;
  content : option string;
  size_bytes : Z;
  created_at : string
}.
End Artifact.

(** One entry of the [actions] list of a decoded [llm_response]: its [tool]
    key and [json.dumps(args.tasks)] (the text [[]] when absent). *)
Record action := {
  tool : option string;
  tasks_dump : string
}.

Module ActionHistory.
Record row := {
  job_id : string;
  iteration : Z;
  llm_response : list action
}.
End ActionHistory.

Module TemplateStage.
Record row := {
  template_stage_id : string;
  template_id : string;
  stage_order : Z
}.
End TemplateStage.

Module TemplateJob.
Record row := {
  template_job_id : string;
  template_stage_id : string;
  agent_type : string;
  command_template : option string;
  max_iterations : Z;
  timeout_seconds : Z;
  artifact_strategy : option artifact_strategy_config;
  retry_strategy : option retry_strategy_config;
  job_multiplier : option multiplier_config
}.
End TemplateJob.

Record Store := {
  pipelines : list Pipeline.row;
  stages : list Stage.row;
  jobs : list Job.row;
  job_dependencies : list JobDependency.row;
  artifacts : list Artifact.row;
  action_history : list ActionHistory.row;
  template_stages : list TemplateStage.row;
  template_jobs : list TemplateJob.row
}.

Definition with_pipelines (ps : list Pipeline.row) (db : Store) : Store :=
  {| pipelines := ps; stages := stages db; jobs := jobs db;
     job_dependencies := job_dependencies db; artifacts := artifacts db;
     action_history := action_history db;
     template_stages := template_stages db; template_jobs := template_jobs db |}.

Definition with_jobs (js : list Job.row) (db : Store) : Store :=
  {| pipelines := pipelines db; stages := stages db; jobs := js;
     job_dependencies := job_dependencies db; artifacts := artifacts db;
     action_history := action_history db;
     template_stages := template_stages db; template_jobs := template_jobs db |}.

Definition with_job_dependencies (ds : list JobDependency.row) (db : Store)
  : Store :=
  {| pipelines := pipelines db; stages := stages db; jobs := jobs db;
     job_dependencies := ds; artifacts := artifacts db;
     action_history := action_history db;
     template_stages := template_stages db; template_jobs := template_jobs db |}.

Definition with_artifacts (ars : list Artifact.row) (db : Store) : Store :=
  {| pipelines := pipelines db; stages := stages db; jobs := jobs db;
     job_dependencies := job_dependencies db; artifacts := ars;
     action_history := action_history db;
     template_stages := template_stages db; template_jobs := template_jobs db |}.

(** [UPDATE jobs SET ... WHERE <cond>] *)
Definition update_jobs (cond : Job.row -> bool) (f : Job.row -> Job.row)
  (db : Store) : Store :=
  with_jobs (map (fun j => if cond j then f j else j) (jobs db)) db.

(** [UPDATE pipelines SET ... WHERE <cond>] *)
Definition update_pipelines (cond : Pipeline.row -> bool)
  (f : Pipeline.row -> Pipeline.row) (db : Store) : Store :=
  with_pipelines (map (fun p => if cond p then f p else p) (pipelines db)) db.

Definition has_job_id (job_id : string) (j : Job.row) : bool :=
  String.eqb (Job.job_id j) job_id.

Definition has_pipeline_id (pipeline_id : string) (p : Pipeline.row) : bool :=
  String.eqb (Pipeline.pipeline_id p) pipeline_id.

(** [SELECT ... FROM jobs WHERE job_id = ?] with [fetchone()]. *)
Definition select_job (db : Store) (job_id : string) : option Job.row :=
  find (has_job_id job_id) (jobs db).

Definition select_pipeline (db : Store) (pipeline_id : string)
  : option Pipeline.row :=
  find (has_pipeline_id pipeline_id) (pipelines db).

(* ------------------------------------------------------------------ *)
(** ** Failure propagation ([propagate_job_failure], server/main.py) *)

(** The rows of
    [SELECT jd.job_id, jd.dependency_type FROM job_dependencies jd
     JOIN jobs j ON jd.job_id = j.job_id
     WHERE jd.depends_on_job_id = ? AND j.status = 'pending']. *)
Definition dependent_jobs (db : Store) (failed_job_id : string)
  : list (string * dependency_type) :=
  flat_map
    (fun jd =>
       if String.eqb (JobDependency.depends_on_job_id jd) failed_job_id
       then map (fun _ => (JobDependency.job_id jd,
                           JobDependency.dependency_type jd))
                (filter (fun j => has_job_id (JobDependency.job_id jd) j
                                  && is_status (Job.status j) pending)
                        (jobs db))
       else [])
    (job_dependencies db).

Definition mark_skipped (now reason : string) (j : Job.row) : Job.row :=
  Job.set_termination_reason (Some reason)
    (Job.set_updated_at now
       (Job.set_completed_at (Some now) (Job.set_status skipped j))).

Definition skip_dependency_failed (now : string) (dep_job_id : string)
  (db : Store) : Store :=
  update_jobs (has_job_id dep_job_id) (mark_skipped now "dependency_failed") db.

(** One activation of [propagate_job_failure] with the recursion depth
    bounded by [fuel]; [None] when the bound is reached.  The rows are
    fetched once, before the loop, and the loop runs over that list while
    the store changes underneath. *)
Fixpoint propagate_fuel (fuel : nat) (now : string) (db : Store)
  (failed_job_id : string) : option Store :=
  match fuel with
  | O => None
  | S fuel' =>
      fold_left
        (fun acc dep =>
           match acc with
           | None => None
           | Some db1 =>
               match snd dep with
               | success =>
                   propagate_fuel fuel' now
                     (skip_dependency_failed now (fst dep) db1) (fst dep)
               | _ => Some db1
               end
           end)
        (dependent_jobs db failed_job_id) (Some db)
  end.

Definition count_pending (db : Store) : nat :=
  List.length (filter (fun j => is_status (Job.status j) pending) (jobs db)).

(** [propagate_job_failure]: every activation below the first starts after a
    pending job has been skipped, so a depth of one more than the number of
    pending rows is never reached (lemma [propagate_fuel_total]). *)
Definition propagate_job_failure (now : string) (db : Store)
  (failed_job_id : string) : Store :=
  match propagate_fuel (S (count_pending db)) now db failed_job_id with
  | Some db' => db'
  | None => db
  end.

(* ------------------------------------------------------------------ *)
(** ** Pipeline completion and deadlock ([check_pipeline_completion]) *)

Definition is_terminal (s : job_status) : bool :=
  is_status s completed || is_status s failed || is_status s skipped.

Definition in_pipeline (pipeline_id : string) (j : Job.row) : bool :=
  String.eqb (Job.pipeline_id j) pipeline_id.

Definition case_when (b : bool) : Z := if b then 1 else 0.

(** [FROM job_dependencies jd JOIN jobs dep
     ON jd.depends_on_job_id = dep.job_id WHERE jd.job_id = ?] *)
Definition dependency_rows (db : Store) (job_id : string)
  : list (JobDependency.row * Job.row) :=
  flat_map
    (fun jd =>
       if String.eqb (JobDependency.job_id jd) job_id
       then map (fun dep => (jd, dep))
                (filter (has_job_id (JobDependency.depends_on_job_id jd))
                        (jobs db))
       else [])
    (job_dependencies db).

(** The disjunction inside the deadlock query's [NOT EXISTS]. *)
Definition could_allow (t : dependency_type) (s : job_status) : bool :=
  (is_status s running || is_status s pending)
  || (is_dtype t success && is_status s completed)
  || (is_dtype t failure && is_status s failed)
  || is_dtype t always.

Definition deadlocked_row (db : Store) (pipeline_id : string) (j : Job.row)
  : bool :=
  in_pipeline pipeline_id j
  && is_status (Job.status j) pending
  && negb (existsb
             (fun r => could_allow (JobDependency.dependency_type (fst r))
                                   (Job.status (snd r)))
             (dependency_rows db (Job.job_id j)))
  && existsb (fun jd => String.eqb (JobDependency.job_id jd) (Job.job_id j))
             (job_dependencies db).

Definition set_pipeline_done (s : pipeline_status) (now : string)
  (p : Pipeline.row) : Pipeline.row :=
  {| Pipeline.pipeline_id := Pipeline.pipeline_id p;
     Pipeline.template_id := Pipeline.template_id p;
     Pipeline.original_prompt := Pipeline.original_prompt p;
     Pipeline.status := s;
     Pipeline.created_at := Pipeline.created_at p;
     Pipeline.updated_at := now;
     Pipeline.completed_at := Some now |}.

Definition set_pipeline_status (s : pipeline_status) (now : string)
  (p : Pipeline.row) : Pipeline.row :=
  {| Pipeline.pipeline_id := Pipeline.pipeline_id p;
     Pipeline.template_id := Pipeline.template_id p;
     Pipeline.original_prompt := Pipeline.original_prompt p;
     Pipeline.status := s;
     Pipeline.created_at := Pipeline.created_at p;
     Pipeline.updated_at := now;
     Pipeline.completed_at := Pipeline.completed_at p |}.

(** [check_pipeline_completion].  [None] stands for the [TypeError] raised
    when an aggregate that is NULL (no job rows) is compared with [> 0]. *)
Definition check_pipeline_completion (now : string) (db : Store)
  (pipeline_id : string) : option Store :=
  let rows := filter (in_pipeline pipeline_id) (jobs db) in
  let total := sql_count rows in
  let done := sql_sum (map (fun j => case_when (is_terminal (Job.status j))) rows) in
  let n_failed :=
    sql_sum (map (fun j => case_when (is_status (Job.status j) failed)) rows) in
  let n_pending :=
    sql_sum (map (fun j => case_when (is_status (Job.status j) pending)) rows) in
  if match done with Some d => total =? d | None => false end then
    match n_failed with
    | None => None
    | Some f =>
        let status := if f >? 0 then p_failed else p_completed in
        Some (update_pipelines (has_pipeline_id pipeline_id)
                (set_pipeline_done status now) db)
    end
  else
    match n_pending with
    | None => None
    | Some p =>
        if p >? 0 then
          let deadlocked :=
            sql_count (filter (deadlocked_row db pipeline_id) (jobs db)) in
          if deadlocked >? 0 then
            Some (update_jobs
                    (fun j => in_pipeline pipeline_id j
                              && is_status (Job.status j) pending)
                    (mark_skipped now "pipeline_deadlocked")
                    (update_pipelines (has_pipeline_id pipeline_id)
                       (set_pipeline_done p_failed now) db))
          else Some db
        else Some db
    end.

(* ------------------------------------------------------------------ *)
(** ** Stop ([PipelineService.stop_pipeline], services.py, and the
       endpoint [stop_pipeline], main.py) *)

Record stop_response := {
  resp_pipeline_id : string;
  resp_name : string;
  resp_status : string
}.

Definition service_stop_pipeline (now : string) (db : Store)
  (pipeline_id : string) : Store * stop_response :=
  let pipeline := select_pipeline db pipeline_id in
  let db' := update_pipelines (has_pipeline_id pipeline_id)
               (set_pipeline_status p_cancelled now) db in
  let name := match pipeline with
              | Some p => slice_to 50 (Pipeline.original_prompt p)
              | None => "Unknown"
              end in
  (db', {| resp_pipeline_id := pipeline_id; resp_name := name;
           resp_status := "cancelled" |}).

(** The HTTP handler: calls the service, logs, returns the result. *)
Definition stop_pipeline (now : string) (db : Store) (pipeline_id : string)
  : Store * stop_response :=
  service_stop_pipeline now db pipeline_id.

(* ------------------------------------------------------------------ *)
(** ** Scheduler ([orchestration_loop], one iteration) *)

(** The ready-job query: a pending job for which no joined dependency row
    has [dep.status NOT IN ('completed')]; [LIMIT 1] with [fetchone()]. *)
Definition ready_cond (db : Store) (j : Job.row) : bool :=
  is_status (Job.status j) pending
  && negb (existsb (fun r => negb (is_status (Job.status (snd r)) completed))
                   (dependency_rows db (Job.job_id j))).

Definition ready_job (db : Store) : option Job.row :=
  find (ready_cond db) (jobs db).

Definition pipeline_ids_with (s : pipeline_status) (db : Store) : list string :=
  map Pipeline.pipeline_id
      (filter (fun p => is_pstatus (Pipeline.status p) s) (pipelines db)).

Definition start_pending_pipelines (now : string) (db : Store) : Store :=
  fold_left
    (fun d pipeline_id =>
       update_pipelines (has_pipeline_id pipeline_id)
         (set_pipeline_status p_running now) d)
    (pipeline_ids_with p_pending db) db.

(** The loop over running pipelines; an exception leaves the iteration
    (it is caught and logged by the enclosing handler). *)
Fixpoint check_running_pipelines (now : string) (ids : list string)
  (db : Store) : Store :=
  match ids with
  | [] => db
  | pipeline_id :: rest =>
      match check_pipeline_completion now db pipeline_id with
      | Some db' => check_running_pipelines now rest db'
      | None => db
      end
  end.

Record scheduler := {
  sched_db : Store;
  running_jobs : list string
}.

(** One iteration of the loop body.  The third component is the job whose
    executor task was created in this iteration, if any; the task itself
    starts at the next suspension point, after the iteration. *)
Definition orchestration_tick (now : string) (s : scheduler)
  : scheduler * option string :=
  let db1 := start_pending_pipelines now (sched_db s) in
  let spawned :=
    match running_jobs s with
    | [] => option_map Job.job_id (ready_job db1)
    | _ :: _ => None
    end in
  let running' :=
    match spawned with
    | Some job_id => job_id :: running_jobs s
    | None => running_jobs s
    end in
  let db2 := check_running_pipelines now (pipeline_ids_with p_running db1) db1 in
  ({| sched_db := db2; running_jobs := running' |}, spawned).

(* ------------------------------------------------------------------ *)
(** ** The executor's environment *)

(** A decoded JSON text as [parse_artifact_content] observes it: whether it
    is a list, and the [str()] of the items or of the whole value. *)
Inductive json_value :=
| json_list (items : list string)
| json_other (repr : string).

(** What a shell subprocess yields: the merged stdout+stderr stream and the
    exit code, or an exception raised while spawning or reading. *)
Inductive proc_outcome :=
| exited (stdout : string) (returncode : Z)
| raised (e : string).

(** A changed or untracked file that exists under the job directory. *)
Record git_file := {
  relative_path : string;
  absolute_path : string;
  st_size : Z
}.

Record Env := {
  now : string;
  (** the successive values of [uuid.uuid4()] *)
  uuid4 : nat -> string;
  (** [create_subprocess_shell(cmd)] run to completion *)
  shell : string -> proc_outcome;
  (** the files [git diff] and [git ls-files] report, in iteration order *)
  git_changes : list git_file;
  (** [json.loads]; [None] is [JSONDecodeError] *)
  json_loads : string -> option json_value;
  (** column defaults of the jobs table (the schema file is not part of the
      sources) *)
  default_retry_count : option Z;
  default_max_retries : option Z
}.

Definition dq : string := String "034"%char "".

(* ------------------------------------------------------------------ *)
(** ** Artifact strategies (agents/artifact_strategies.py) *)

Definition insert_artifact (a : Artifact.row) (db : Store) : Store :=
  with_artifacts (artifacts db ++ [a]) db.

(** [StdoutFinalStrategy.collect_artifacts]; [k] is the number of uuids
    drawn so far. *)
Definition stdout_final_collect (env : Env) (job_id final_output : string)
  (st : Store * nat) : Store * nat :=
  if is_empty final_output then st
  else
    (insert_artifact
       {| Artifact.artifact_id := uuid4 env (snd st);
          Artifact.job_id := job_id;
          Artifact.type := "model_output";
          Artifact.name := "final_output.txt";
          Artifact.description := "Final model output before job completion";
          Artifact.file_path := None;
          Artifact.content := Some final_output;
          Artifact.size_bytes := Z.of_nat (String.length final_output);
          Artifact.created_at := now env |}
       (fst st),
     S (snd st)).

(** [GitDiffStrategy.collect_artifacts] *)
Definition git_diff_collect (env : Env) (job_id : string) (st : Store * nat)
  : Store * nat :=
  fold_left
    (fun acc f =>
       (insert_artifact
          {| Artifact.artifact_id := uuid4 env (snd acc);
             Artifact.job_id := job_id;
             Artifact.type := "file";
             Artifact.name := relative_path f;
             Artifact.description := "File modified/created by job";
             Artifact.file_path := Some (absolute_path f);
             Artifact.content := None;
             Artifact.size_bytes := st_size f;
             Artifact.created_at := now env |}
          (fst acc),
        S (snd acc)))
    (git_changes env) st.

(** [get_strategy(config).collect_artifacts(...)] *)
Fixpoint collect_artifacts (cfg : artifact_strategy_config) (env : Env)
  (job_id final_output : string) (st : Store * nat) : Store * nat :=
  match cfg with
  | cfg_stdout_final => stdout_final_collect env job_id final_output st
  | cfg_git_diff => git_diff_collect env job_id st
  | cfg_composite l =>
      fold_left (fun acc c => collect_artifacts c env job_id final_output acc)
                l st
  | cfg_other _ => stdout_final_collect env job_id final_output st
  end.

(* ------------------------------------------------------------------ *)
(** ** Multiplier (agents/job_multiplier.py) *)

Definition parse_artifact_content (env : Env) (content parse_strategy : string)
  : list string :=
  if is_empty content then []
  else if String.eqb parse_strategy "json_array" then
    match json_loads env (strip content) with
    | Some (json_list items) => items
    | Some (json_other repr) => [repr]
    | None => [content]
    end
  else if String.eqb parse_strategy "line_delimited" then
    filter (fun s => negb (is_empty s)) (map strip (split "010"%char content))
  else if String.eqb parse_strategy "comma_separated" then
    filter (fun s => negb (is_empty s)) (map strip (split ","%char content))
  else [content].

(** First row maximal for [key], in scan order
    ([ORDER BY key DESC LIMIT 1]). *)
Fixpoint select_max {A : Type} (gt : A -> A -> bool) (l : list A) : option A :=
  match l with
  | [] => None
  | x :: r =>
      match select_max gt r with
      | Some y => if gt y x then Some y else Some x
      | None => Some x
      end
  end.

Definition get {A : Type} (o : option A) (default : A) : A :=
  match o with Some x => x | None => default end.

Definition truthy (o : option string) : option string :=
  match o with
  | Some s => if is_empty s then None else Some s
  | None => None
  end.

(** The items source of [spawn_multiplied_jobs]: the [tasks] of the finish
    action in the latest action log, or the content of the latest artifact
    with the configured name; [None] where the source returns early. *)
Definition tasks_content (db : Store) (source_job_id : string)
  (cfg : multiplier_config) : option string :=
  match source_type cfg with
  | source_action =>
      match select_max
              (fun a b => ActionHistory.iteration a >? ActionHistory.iteration b)
              (filter (fun a => String.eqb (ActionHistory.job_id a) source_job_id)
                      (action_history db)) with
      | None => None
      | Some action_log =>
          match find (fun a => opt_eqb (tool a) "finish")
                     (ActionHistory.llm_response action_log) with
          | Some a => truthy (Some (tasks_dump a))
          | None => None
          end
      end
  | source_artifact =>
      let artifact_name := get (artifact_name cfg) "final_output.txt" in
      match select_max
              (fun a b => String.ltb (Artifact.created_at b) (Artifact.created_at a))
              (filter (fun a => String.eqb (Artifact.job_id a) source_job_id
                                && String.eqb (Artifact.name a) artifact_name)
                      (artifacts db)) with
      | None => None
      | Some a => truthy (Artifact.content a)
      end
  end.

Definition item_prompt (prompt_template item original_prompt : string)
  (idx : nat) : string :=
  replace "{{index}}" (py_str_int (Z.of_nat idx))
    (replace "{{original_prompt}}" original_prompt
       (replace "{{item}}" item prompt_template)).

Definition item_command (template_job : TemplateJob.row)
  (job_id prompt : string) : option string :=
  match truthy (TemplateJob.command_template template_job) with
  | Some t =>
      Some (replace "{{agent_type}}" (TemplateJob.agent_type template_job)
              (replace "{{prompt}}" prompt (replace "{{job_id}}" job_id t)))
  | None => None
  end.

(** The row written by the [INSERT INTO jobs] of the multiplier. *)
Definition multiplied_job (env : Env) (template_job : TemplateJob.row)
  (job_id pipeline_id stage_id prompt workspace_path source_job_id : string)
  : Job.row :=
  {| Job.job_id := job_id;
     Job.pipeline_id := pipeline_id;
     Job.stage_id := stage_id;
     Job.agent_type := TemplateJob.agent_type template_job;
     Job.prompt := prompt;
     Job.original_prompt := Some prompt;
     Job.command := item_command template_job job_id prompt;
     Job.max_iterations := TemplateJob.max_iterations template_job;
     Job.timeout_seconds := TemplateJob.timeout_seconds template_job;
     Job.allowed_paths := "[" ++ dq ++ workspace_path ++ dq ++ "]";
     Job.artifact_strategy := TemplateJob.artifact_strategy template_job;
     Job.retry_strategy := TemplateJob.retry_strategy template_job;
     Job.template_job_id := Some (TemplateJob.template_job_id template_job);
     Job.parent_job_id := Some source_job_id;
     Job.status := pending;
     Job.retry_count := default_retry_count env;
     Job.max_retries := default_max_retries env;
     Job.termination_reason := None;
     Job.job_output := None;
     Job.started_at := None;
     Job.completed_at := None;
     Job.created_at := now env;
     Job.updated_at := now env |}.

Definition insert_job (j : Job.row) (db : Store) : Store :=
  with_jobs (jobs db ++ [j]) db.

Definition insert_job_dependency (d : JobDependency.row) (db : Store) : Store :=
  with_job_dependencies (job_dependencies db ++ [d]) db.

(** The loop [for idx, item in enumerate(items)]. *)
Fixpoint spawn_items (env : Env) (template_job : TemplateJob.row)
  (prompt_template pipeline_id stage_id original_prompt workspace_path
   source_job_id : string)
  (idx : nat) (items : list string) (st : Store * nat)
  : (Store * nat) * list string :=
  match items with
  | [] => (st, [])
  | item :: rest =>
      let job_id := uuid4 env (snd st) in
      let prompt := item_prompt prompt_template item original_prompt idx in
      let db1 :=
        insert_job (multiplied_job env template_job job_id pipeline_id stage_id
                      prompt workspace_path source_job_id) (fst st) in
      let db2 :=
        insert_job_dependency
          {| JobDependency.job_id := job_id;
             JobDependency.depends_on_job_id := source_job_id;
             JobDependency.dependency_type := success |} db1 in
      let r := spawn_items env template_job prompt_template pipeline_id
                 stage_id original_prompt workspace_path source_job_id
                 (S idx) rest (db2, S (snd st)) in
      (fst r, job_id :: snd r)
  end.

Definition spawn_multiplied_jobs (env : Env) (st : Store * nat)
  (source_job_id : string) (template_job : TemplateJob.row)
  (cfg : multiplier_config)
  (pipeline_id stage_id original_prompt workspace_path : string)
  : (Store * nat) * list string :=
  match tasks_content (fst st) source_job_id cfg with
  | None => (st, [])
  | Some content =>
      let items :=
        parse_artifact_content env content
          (get (parse_strategy cfg) "json_array") in
      match items with
      | [] => (st, [])
      | _ :: _ =>
          spawn_items env template_job
            (get (prompt_template cfg) "{{item}}")
            pipeline_id stage_id original_prompt workspace_path source_job_id
            O items st
      end
  end.

(** [SELECT tj.*, ts.stage_order FROM template_jobs tj JOIN template_stages ts
     ON tj.template_stage_id = ts.template_stage_id
     WHERE ts.template_id = ? AND tj.job_multiplier IS NOT NULL] *)
Definition multiplier_template_jobs (db : Store) (template_id : string)
  : list (TemplateJob.row * Z) :=
  flat_map
    (fun tj =>
       match TemplateJob.job_multiplier tj with
       | None => []
       | Some _ =>
           map (fun ts => (tj, TemplateStage.stage_order ts))
               (filter (fun ts =>
                          String.eqb (TemplateJob.template_stage_id tj)
                                     (TemplateStage.template_stage_id ts)
                          && String.eqb (TemplateStage.template_id ts) template_id)
                       (template_stages db))
       end)
    (template_jobs db).

(** [SELECT COUNT( * ) FROM jobs WHERE parent_job_id = ? AND template_job_id = ?] *)
Definition already_spawned (db : Store) (parent_job_id template_job_id : string)
  : Z :=
  sql_count (filter (fun j => opt_eqb (Job.parent_job_id j) parent_job_id
                              && opt_eqb (Job.template_job_id j) template_job_id)
                    (jobs db)).

(** The body of the loop over the template jobs that carry a multiplier. *)
Definition multiplier_step (env : Env)
  (completed_job_id completed_template_job_id pipeline_id original_prompt : string)
  (acc : (Store * nat) * Z) (row : TemplateJob.row * Z) : (Store * nat) * Z :=
  let template_job := fst row in
  match TemplateJob.job_multiplier template_job with
  | None => acc
  | Some cfg =>
      match truthy (source_template_job_id cfg) with
      | None => acc
      | Some src =>
          if negb (String.eqb src completed_template_job_id) then acc
          else if already_spawned (fst (fst acc)) completed_job_id
                    (TemplateJob.template_job_id template_job) >? 0 then acc
          else
            match find (fun s => String.eqb (Stage.pipeline_id s) pipeline_id
                                 && (Stage.stage_order s =? snd row))
                       (stages (fst (fst acc))) with
            | None => acc
            | Some stage =>
                let r := spawn_multiplied_jobs env (fst acc) completed_job_id
                           template_job cfg pipeline_id (Stage.stage_id stage)
                           original_prompt "./" in
                (fst r, snd acc + Z.of_nat (List.length (snd r)))
            end
      end
  end.

Definition check_and_spawn_multiplied_jobs (env : Env) (st : Store * nat)
  (completed_job_id : string) : (Store * nat) * Z :=
  let db := fst st in
  match select_job db completed_job_id with
  | None => (st, 0)
  | Some completed_job =>
      let pipeline_id := Job.pipeline_id completed_job in
      let pipeline := select_pipeline db pipeline_id in
      let original_prompt :=
        match pipeline with
        | Some p => Pipeline.original_prompt p
        | None => ""
        end in
      match match pipeline with
            | Some p => truthy (Pipeline.template_id p)
            | None => None
            end with
      | None => (st, 0)
      | Some template_id =>
          match truthy (Job.template_job_id completed_job) with
          | None => (st, 0)
          | Some completed_template_job_id =>
              fold_left
                (multiplier_step env completed_job_id completed_template_job_id
                   pipeline_id original_prompt)
                (multiplier_template_jobs db template_id) (st, 0)
          end
      end
  end.

(* ------------------------------------------------------------------ *)
(** ** Executor ([run_job], server/main.py) *)

(** [job['retry_count'] if job and job['retry_count'] else 0] *)
Definition effective_retry_count (job : option Job.row) : Z :=
  match job with
  | Some j => get (Job.retry_count j) 0
  | None => 0
  end.

(** [job['max_retries'] if job and job['max_retries'] is not None else 100] *)
Definition effective_max_retries (job : option Job.row) : Z :=
  match job with
  | Some j => get (Job.max_retries j) 100
  | None => 100
  end.

Definition default_context_instruction : string :=
  "IMPORTANT: This is a retry. Previous attempt output is below. Continue from where you left off."
  ++ nl ++ nl.

Definition augmented_prompt (context_instruction previous_output
  original_prompt : string) : string :=
  context_instruction ++ "=== PREVIOUS ATTEMPT OUTPUT ===" ++ nl
  ++ previous_output ++ nl ++ nl ++ "=== ORIGINAL TASK ===" ++ nl
  ++ original_prompt.

(** The retry-with-context step at the head of [run_job]. *)
Definition retry_with_context (job : option Job.row) (job_id : string)
  (db : Store) : Store :=
  match job with
  | None => db
  | Some j =>
      match Job.retry_strategy j with
      | None => db
      | Some retry_strategy_config =>
          if (effective_retry_count job >? 0)
             && include_context retry_strategy_config then
            match truthy (Job.job_output j) with
            | None => db
            | Some previous_output =>
                let instruction :=
                  get (context_instruction retry_strategy_config)
                      default_context_instruction in
                let original_prompt :=
                  get (truthy (Job.original_prompt j)) (Job.prompt j) in
                update_jobs (has_job_id job_id)
                  (Job.set_prompt
                     (augmented_prompt instruction previous_output
                        original_prompt))
                  db
            end
          else db
      end
  end.

Definition mark_running (now : string) (j : Job.row) : Job.row :=
  Job.set_updated_at now
    (Job.set_started_at (Some now) (Job.set_status running j)).

Definition mark_retry (now : string) (retry_count : Z) (j : Job.row) : Job.row :=
  Job.set_updated_at now
    (Job.set_retry_count (Some retry_count) (Job.set_status pending j)).

Definition mark_finished (now : string) (status : job_status)
  (reason log_output : string) (j : Job.row) : Job.row :=
  Job.set_job_output (Some log_output)
    (Job.set_termination_reason (Some reason)
       (Job.set_updated_at now
          (Job.set_completed_at (Some now) (Job.set_status status j)))).

Definition mark_errored (now e : string) (j : Job.row) : Job.row :=
  Job.set_termination_reason (Some e)
    (Job.set_updated_at now (Job.set_status failed j)).

Definition job_command (job : option Job.row) (job_id : string) : string :=
  match job with
  | Some j => get (truthy (Job.command j)) ("python agents/harness.py " ++ job_id)
  | None => "python agents/harness.py " ++ job_id
  end.

(** The captured log: every line read is right-stripped, the lines are
    joined by newlines. *)
Definition log_output (stdout : string) : string :=
  join nl (map rstrip (readlines stdout)).

Definition failure_reason (returncode retry_count : Z) : string :=
  "exit_code_" ++ py_str_int returncode ++ "_after_"
  ++ py_str_int (retry_count + 1) ++ "_attempts".

(** What follows the final status write: artifact collection and the
    multiplier for a completed job, propagation for a failed one. *)
Definition after_finish (env : Env) (status : job_status)
  (artifact_strategy_config : option artifact_strategy_config)
  (job_id log : string) (st : Store * nat) : Store * nat :=
  let st1 :=
    match status, artifact_strategy_config with
    | completed, Some cfg => collect_artifacts cfg env job_id log st
    | _, _ => st
    end in
  let st2 :=
    match status with
    | completed => fst (check_and_spawn_multiplied_jobs env st1 job_id)
    | _ => st1
    end in
  match status with
  | failed => (propagate_job_failure (now env) (fst st2) job_id, snd st2)
  | _ => st2
  end.

(** [run_job] up to the spawn of the subprocess: the prompt rewrite, then
    the status write that makes the job [running]. *)
Definition start_job (env : Env) (db : Store) (job_id : string) : Store :=
  update_jobs (has_job_id job_id) (mark_running (now env))
    (retry_with_context (select_job db job_id) job_id db).

(** [run_job] on the store; the second component counts the uuids drawn. *)
Definition run_job (env : Env) (st : Store * nat) (job_id : string)
  : Store * nat :=
  let db := fst st in
  let job := select_job db job_id in
  let retry_count := effective_retry_count job in
  let max_retries := effective_max_retries job in
  let artifact_strategy_config :=
    match job with Some j => Job.artifact_strategy j | None => None end in
  let db2 := start_job env db job_id in
  match shell env (job_command job job_id) with
  | raised e =>
      let db3 := update_jobs (has_job_id job_id) (mark_errored (now env) e) db2 in
      (propagate_job_failure (now env) db3 job_id, snd st)
  | exited stdout returncode =>
      let log := log_output stdout in
      if returncode =? 0 then
        after_finish env completed artifact_strategy_config job_id log
          (update_jobs (has_job_id job_id)
             (mark_finished (now env) completed "success" log) db2, snd st)
      else if retry_count <? max_retries then
        (update_jobs (has_job_id job_id)
           (mark_retry (now env) (retry_count + 1)) db2, snd st)
      else
        after_finish env failed artifact_strategy_config job_id log
          (update_jobs (has_job_id job_id)
             (mark_finished (now env) failed
                (failure_reason returncode retry_count) log) db2, snd st)
  end.

(** The executor task as the scheduler sees it: [run_job], then the
    [finally] clause removing the job from [running_jobs]. *)
Definition run_job_task (env : Env) (s : scheduler) (k : nat) (job_id : string)
  : scheduler * nat :=
  let r := run_job env (sched_db s, k) job_id in
  ({| sched_db := fst r;
      running_jobs :=
        filter (fun x => negb (String.eqb x job_id)) (running_jobs s) |},
   snd r).


(* ------------------------------------------------------------------ *)
(** ** The specification's vocabulary *)

(** Type-specific precondition of an edge (specification, section 4.6). *)
Definition spec_precondition (t : dependency_type) (s : job_status) : bool :=
  match t with
  | success => is_status s completed
  | failure => is_status s failed
  | always => is_status s completed || is_status s failed
  end.

(** Readiness as the specification words it: pending, and the precondition
    of every incoming edge holds. *)
Definition spec_ready (db : Store) (j : Job.row) : bool :=
  is_status (Job.status j) pending
  && forallb (fun r => spec_precondition (JobDependency.dependency_type (fst r))
                                         (Job.status (snd r)))
             (dependency_rows db (Job.job_id j)).

(** Potential satisfiability as the specification words it (section 4.7). *)
Definition spec_potentially_satisfiable (t : dependency_type) (s : job_status)
  : bool :=
  is_status s pending || is_status s running || spec_precondition t s.

(** Deadlock as the specification words it. *)
Definition spec_deadlocked (db : Store) (j : Job.row) : bool :=
  is_status (Job.status j) pending
  && existsb (fun jd => String.eqb (JobDependency.job_id jd) (Job.job_id j))
             (job_dependencies db)
  && negb (existsb
             (fun r => spec_potentially_satisfiable
                         (JobDependency.dependency_type (fst r))
                         (Job.status (snd r)))
             (dependency_rows db (Job.job_id j))).

(** Potential satisfiability as the deadlock query has it: an [always] edge
    counts whatever the status of its source. *)
Definition potentially_satisfiable (t : dependency_type) (s : job_status)
  : Prop :=
  s = pending \/ s = running \/ t = always
  \/ (t = success /\ s = completed) \/ (t = failure /\ s = failed).

Definition pipeline_status_of (db : Store) (pipeline_id : string)
  : option pipeline_status :=
  option_map Pipeline.status (select_pipeline db pipeline_id).

Definition jobs_of (db : Store) (pipeline_id : string) : list Job.row :=
  filter (in_pipeline pipeline_id) (jobs db).

Definition all_jobs_terminal (db : Store) (pipeline_id : string) : bool :=
  forallb (fun j => is_terminal (Job.status j)) (jobs_of db pipeline_id).

Definition some_job_failed (db : Store) (pipeline_id : string) : bool :=
  existsb (fun j => is_status (Job.status j) failed) (jobs_of db pipeline_id).

Definition some_job_deadlocked (db : Store) (pipeline_id : string) : bool :=
  existsb (deadlocked_row db pipeline_id) (jobs db).

Definition is_terminal_pipeline (s : pipeline_status) : bool :=
  is_pstatus s p_completed || is_pstatus s p_failed.

(** Invariant I2 of the specification, for one pipeline row: terminal iff
    all its jobs are terminal, and then failed iff some job is failed. *)
Definition spec_I2 (db : Store) (p : Pipeline.row) : bool :=
  Bool.eqb (is_terminal_pipeline (Pipeline.status p))
           (all_jobs_terminal db (Pipeline.pipeline_id p))
  && (negb (is_terminal_pipeline (Pipeline.status p))
      || Bool.eqb (is_pstatus (Pipeline.status p) p_failed)
                  (some_job_failed db (Pipeline.pipeline_id p))).

(* ------------------------------------------------------------------ *)
(** ** Stores and environments of the worked scenarios *)

Definition t0 : string := "2025-01-01T00:00:00+00:00".
Definition t1 : string := "2025-01-01T00:00:05+00:00".

Definition a_job (job_id pipeline_id : string) (s : job_status) : Job.row :=
  {| Job.job_id := job_id; Job.pipeline_id := pipeline_id;
     Job.stage_id := "stage-1"; Job.agent_type := "mock";
     Job.prompt := "test"; Job.original_prompt := Some "test";
     Job.command := Some "echo test";
     Job.max_iterations := 50; Job.timeout_seconds := 300;
     Job.allowed_paths := "[./]";
     Job.artifact_strategy := None; Job.retry_strategy := None;
     Job.template_job_id := None; Job.parent_job_id := None;
     Job.status := s; Job.retry_count := Some 0; Job.max_retries := Some 2;
     Job.termination_reason := None; Job.job_output := None;
     Job.started_at := None; Job.completed_at := None;
     Job.created_at := t0; Job.updated_at := t0 |}.

Definition a_pipeline (pipeline_id : string) (template_id : option string)
  (s : pipeline_status) : Pipeline.row :=
  {| Pipeline.pipeline_id := pipeline_id; Pipeline.template_id := template_id;
     Pipeline.original_prompt := "Test pipeline"; Pipeline.status := s;
     Pipeline.created_at := t0; Pipeline.updated_at := t0;
     Pipeline.completed_at := None |}.

Definition an_edge (job_id depends_on : string) (t : dependency_type)
  : JobDependency.row :=
  {| JobDependency.job_id := job_id;
     JobDependency.depends_on_job_id := depends_on;
     JobDependency.dependency_type := t |}.

Definition a_store (ps : list Pipeline.row) (js : list Job.row)
  (ds : list JobDependency.row) : Store :=
  {| pipelines := ps;
     stages := [{| Stage.stage_id := "stage-1"; Stage.pipeline_id := "P";
                   Stage.stage_order := 1 |}];
     jobs := js; job_dependencies := ds; artifacts := [];
     action_history := []; template_stages := []; template_jobs := [] |}.

(** Job [a] has failed for good; [b] is to run on [a]'s failure. *)
Definition store_failure_edge : Store :=
  a_store [a_pipeline "P" None p_running]
          [a_job "a" "P" failed; a_job "b" "P" pending]
          [an_edge "b" "a" failure].

(** A running pipeline with one pending job that has no dependency. *)
Definition store_one_pending : Store :=
  a_store [a_pipeline "P" None p_running] [a_job "j" "P" pending] [].

(** Job [a] has completed; [c] waits for [a]'s failure. *)
Definition store_unsatisfiable_failure_edge : Store :=
  a_store [a_pipeline "P" None p_running]
          [a_job "a" "P" completed; a_job "c" "P" pending]
          [an_edge "c" "a" failure].

(** Job [u] was skipped; [v] has an always-edge on it. *)
Definition store_always_on_skipped : Store :=
  a_store [a_pipeline "P" None p_running]
          [a_job "u" "P" skipped; a_job "v" "P" pending]
          [an_edge "v" "u" always].

(* ------------------------------------------------------------------ *)
(** ** How failure propagation may change the jobs table *)

(** Some row with this id is pending. *)
Definition pending_id (db : Store) (job_id : string) : bool :=
  existsb (fun j => has_job_id job_id j && is_status (Job.status j) pending)
          (jobs db).

(** A row after propagation, against the same row before: same id, and
    either untouched or skipped because a row with its id was pending in
    [db0]. *)
Definition row_step (db0 : Store) (a b : Job.row) : Prop :=
  Job.job_id b = Job.job_id a
  /\ (b = a \/ (Job.status b = skipped /\ pending_id db0 (Job.job_id a) = true)).

Definition evolves (db0 db' : Store) : Prop :=
  job_dependencies db' = job_dependencies db0
  /\ Forall2 (row_step db0) (jobs db0) (jobs db').

Definition pending_rows (l : list Job.row) : nat :=
  List.length (filter (fun j => is_status (Job.status j) pending) l).

(** The loop of one activation, given as a fold over the fetched rows. *)
Definition propagate_loop (fuel' : nat) (now : string)
  (rows : list (string * dependency_type)) (acc : option Store) : option Store :=
  fold_left
    (fun acc dep =>
       match acc with
       | None => None
       | Some db1 =>
           match snd dep with
           | success =>
               propagate_fuel fuel' now
                 (skip_dependency_failed now (fst dep) db1) (fst dep)
           | _ => Some db1
           end
       end)
    rows acc.


(* ------------------------------------------------------------------ *)
(** ** A decoder for the scenarios *)

Inductive scan_state :=
| at_open | at_item_or_close | at_item | in_string | after_item | at_end.

Definition is_json_ws (c : ascii) : bool :=
  Ascii.eqb c " "%char || Ascii.eqb c "009"%char
  || Ascii.eqb c "010"%char || Ascii.eqb c "013"%char.

(** Arrays of string literals without escape sequences.  On these texts,
    and on texts whose first character starts no JSON value, the answer is
    that of [json.loads]; escape sequences, numbers, objects and nested
    arrays are outside the fragment and are not used by the scenarios. *)
Fixpoint scan_array (state : scan_state) (acc : list string) (cur : string)
  (s : string) : option (list string) :=
  match s with
  | EmptyString =>
      match state with at_end => Some (List.rev acc) | _ => None end
  | String c r =>
      match state with
      | at_open =>
          if Ascii.eqb c "["%char then scan_array at_item_or_close acc cur r
          else None
      | at_item_or_close =>
          if is_json_ws c then scan_array at_item_or_close acc cur r
          else if Ascii.eqb c "]"%char then scan_array at_end acc cur r
          else if Ascii.eqb c "034"%char
               then scan_array in_string acc EmptyString r
          else None
      | at_item =>
          if is_json_ws c then scan_array at_item acc cur r
          else if Ascii.eqb c "034"%char
               then scan_array in_string acc EmptyString r
          else None
      | in_string =>
          if Ascii.eqb c "034"%char then scan_array after_item (cur :: acc) cur r
          else if Ascii.eqb c "\"%char || (nat_of_ascii c <? 32)%nat then None
          else scan_array in_string acc (cur ++ String c EmptyString) r
      | after_item =>
          if is_json_ws c then scan_array after_item acc cur r
          else if Ascii.eqb c ","%char then scan_array at_item acc cur r
          else if Ascii.eqb c "]"%char then scan_array at_end acc cur r
          else None
      | at_end => None
      end
  end.

Definition json_loads_string_array (s : string) : option json_value :=
  option_map json_list (scan_array at_open [] EmptyString s).

Definition scenario_env (outcome : string -> proc_outcome) : Env :=
  {| now := t1;
     uuid4 := fun n => "job-" ++ py_str_int (Z.of_nat n);
     shell := outcome;
     git_changes := [];
     json_loads := json_loads_string_array;
     default_retry_count := Some 0;
     default_max_retries := Some 3 |}.

(** A planner job [p] that completed, and a template job [tj-w] declaring a
    multiplier on the planner's template job; the planner's final output is
    [planner_output]. *)
Definition planner_job : Job.row :=
  {| Job.job_id := "p"; Job.pipeline_id := "P";
     Job.stage_id := "stage-1"; Job.agent_type := "planner";
     Job.prompt := "plan X"; Job.original_prompt := Some "plan X";
     Job.command := Some "echo plan";
     Job.max_iterations := 50; Job.timeout_seconds := 300;
     Job.allowed_paths := "[./]";
     Job.artifact_strategy := Some cfg_stdout_final; Job.retry_strategy := None;
     Job.template_job_id := Some "tj-p"; Job.parent_job_id := None;
     Job.status := completed; Job.retry_count := Some 0;
     Job.max_retries := Some 2;
     Job.termination_reason := Some "success"; Job.job_output := None;
     Job.started_at := Some t0; Job.completed_at := Some t0;
     Job.created_at := t0; Job.updated_at := t0 |}.

Definition worker_template (template_job_id : string)
  (m : option multiplier_config) : TemplateJob.row :=
  {| TemplateJob.template_job_id := template_job_id;
     TemplateJob.template_stage_id := "ts-2";
     TemplateJob.agent_type := "worker";
     TemplateJob.command_template := None;
     TemplateJob.max_iterations := 50;
     TemplateJob.timeout_seconds := 300;
     TemplateJob.artifact_strategy := None;
     TemplateJob.retry_strategy := None;
     TemplateJob.job_multiplier := m |}.

Definition worker_multiplier : multiplier_config :=
  {| source_template_job_id := Some "tj-p";
     source_type := source_artifact;
     artifact_name := None;
     parse_strategy := Some "json_array";
     prompt_template := Some "do {{item}}" |}.

Definition store_planner (planner_output : string) : Store :=
  {| pipelines := [a_pipeline "P" (Some "tpl") p_running];
     stages := [{| Stage.stage_id := "stage-1"; Stage.pipeline_id := "P";
                   Stage.stage_order := 1 |};
                {| Stage.stage_id := "stage-2"; Stage.pipeline_id := "P";
                   Stage.stage_order := 2 |}];
     jobs := [planner_job];
     job_dependencies := [];
     artifacts := [{| Artifact.artifact_id := "art-1"; Artifact.job_id := "p";
                      Artifact.type := "model_output";
                      Artifact.name := "final_output.txt";
                      Artifact.description := "Final model output before job completion";
                      Artifact.file_path := None;
                      Artifact.content := Some planner_output;
                      Artifact.size_bytes := Z.of_nat (String.length planner_output);
                      Artifact.created_at := t0 |}];
     action_history := [];
     template_stages :=
       [{| TemplateStage.template_stage_id := "ts-1";
           TemplateStage.template_id := "tpl";
           TemplateStage.stage_order := 1 |};
        {| TemplateStage.template_stage_id := "ts-2";
           TemplateStage.template_id := "tpl";
           TemplateStage.stage_order := 2 |}];
     template_jobs := [worker_template "tj-w" (Some worker_multiplier)] |}.

Definition three_tasks : string :=
  "[" ++ dq ++ "t1" ++ dq ++ "," ++ dq ++ "t2" ++ dq ++ ","
  ++ dq ++ "t3" ++ dq ++ "]".

Definition quiet_shell (cmd : string) : proc_outcome := exited "" 0.

(** A job with the retry strategy of the retry-with-context scenario. *)
Definition resume_strategy : retry_strategy_config :=
  {| include_context := true; context_instruction := Some ("RESUME:" ++ nl) |}.

Definition resume_job (retry_count : Z) (job_output : option string) : Job.row :=
  {| Job.job_id := "r"; Job.pipeline_id := "P";
     Job.stage_id := "stage-1"; Job.agent_type := "mock";
     Job.prompt := "do the task"; Job.original_prompt := Some "do the task";
     Job.command := Some "run-step";
     Job.max_iterations := 50; Job.timeout_seconds := 300;
     Job.allowed_paths := "[./]";
     Job.artifact_strategy := None;
     Job.retry_strategy := Some resume_strategy;
     Job.template_job_id := None; Job.parent_job_id := None;
     Job.status := pending; Job.retry_count := Some retry_count;
     Job.max_retries := Some 2;
     Job.termination_reason := None; Job.job_output := job_output;
     Job.started_at := None; Job.completed_at := None;
     Job.created_at := t0; Job.updated_at := t0 |}.

Definition store_resume (retry_count : Z) (job_output : option string) : Store :=
  a_store [a_pipeline "P" None p_running] [resume_job retry_count job_output] [].

(** The subprocess prints [step1] and exits with code 1. *)
Definition failing_shell (cmd : string) : proc_outcome :=
  exited ("step1" ++ nl) 1.

(** The output of the capture test of the suite: two lines, each ended by
    a newline. *)
Definition two_lines : string :=
  "Job output line 1" ++ nl ++ "Job output line 2" ++ nl.

(** The subprocess prints [two_lines] and exits with code 0. *)
Definition two_line_shell (cmd : string) : proc_outcome := exited two_lines 0.

(** Every row of this pipeline carries status [cancelled]. *)
Definition stays_cancelled (db : Store) (pipeline_id : string) : Prop :=
  forall p, In p (pipelines db) -> Pipeline.pipeline_id p = pipeline_id ->
            Pipeline.status p = p_cancelled.

(* ------------------------------------------------------------------ *)
(** ** Reachability along success-edges *)

(** [success_path deps f d]: job [d] depends on job [f] through a chain of
    success-edges of [deps]. *)
Inductive success_path (deps : list JobDependency.row) (f : string)
  : string -> Prop :=
| success_edge (jd : JobDependency.row) :
    In jd deps -> JobDependency.depends_on_job_id jd = f ->
    JobDependency.dependency_type jd = success ->
    success_path deps f (JobDependency.job_id jd)
| success_step (d : string) (jd : JobDependency.row) :
    success_path deps f d ->
    In jd deps -> JobDependency.depends_on_job_id jd = d ->
    JobDependency.dependency_type jd = success ->
    success_path deps f (JobDependency.job_id jd).

(** No pending job depends on [x] through a success-edge. *)
Definition no_pending_dependent (db : Store) (x : string) : Prop :=
  forall jd, In jd (job_dependencies db) ->
             JobDependency.depends_on_job_id jd = x ->
             JobDependency.dependency_type jd = success ->
             pending_id db (JobDependency.job_id jd) = false.

(** A row after propagation against the row before: untouched, or marked
    skipped for a failed dependency, and then its id satisfies [P]. *)
Definition skipped_row (now : string) (P : string -> Prop) (a b : Job.row)
  : Prop :=
  b = a \/ (b = mark_skipped now "dependency_failed" a /\ P (Job.job_id a)).

(* ------------------------------------------------------------------ *)
(** ** Successive attempts of one job *)

(** The executor run [n] times in a row on the same job, as the scheduler
    does when it is the only ready job. *)
Fixpoint run_attempts (env : Env) (n : nat) (st : Store * nat)
  (job_id : string) : Store * nat :=
  match n with
  | O => st
  | S n' => run_attempts env n' (run_job env st job_id) job_id
  end.

(** The row of a job after one run, from the row [j1] the run started on. *)
Definition row_after_run (env : Env) (erc emr : Z) (outcome : proc_outcome)
  (j1 : Job.row) : Job.row :=
  match outcome with
  | raised e => mark_errored (now env) e (mark_running (now env) j1)
  | exited stdout returncode =>
      if returncode =? 0 then
        mark_finished (now env) completed "success" (log_output stdout)
          (mark_running (now env) j1)
      else if erc <? emr then
        mark_retry (now env) (erc + 1) (mark_running (now env) j1)
      else
        mark_finished (now env) failed (failure_reason returncode erc)
          (log_output stdout) (mark_running (now env) j1)
  end.

(** Spawning the subprocess raises, whatever the command. *)
Definition always_raises (cmd : string) : proc_outcome :=
  raised "[Errno 2] No such file or directory".

(** The chain of the orchestration tests, all jobs still pending: [job-2]
    depends on [job-1] and [job-3] on [job-2], through success-edges. *)
Definition store_chain : Store :=
  a_store [a_pipeline "P" None p_running]
          [a_job "job-1" "P" pending; a_job "job-2" "P" pending;
           a_job "job-3" "P" pending]
          [an_edge "job-2" "job-1" success; an_edge "job-3" "job-2" success].

(* ------------------------------------------------------------------ *)
(** ** How the scheduler may change the pipelines table *)

(** A pipeline row after a step against the row before: untouched, or
    rewritten with the same id and a status other than [pending], and then
    its id satisfies [active]. *)
Definition pipeline_step (active : string -> Prop) (p p' : Pipeline.row)
  : Prop :=
  p' = p
  \/ (active (Pipeline.pipeline_id p)
      /\ Pipeline.pipeline_id p' = Pipeline.pipeline_id p
      /\ Pipeline.status p' <> p_pending).

(** Some row with this id is pending or running. *)
Definition active_pipeline (db : Store) (pipeline_id : string) : Prop :=
  exists q, In q (pipelines db)
            /\ Pipeline.pipeline_id q = pipeline_id
            /\ (Pipeline.status q = p_pending \/ Pipeline.status q = p_running).

(** Two running pipelines, the first one without any job. *)
Definition store_empty_pipeline : Store :=
  a_store [a_pipeline "E" None p_running; a_pipeline "P" None p_running]
          [a_job "a" "P" completed] [].

(* ------------------------------------------------------------------ *)
(** ** Template instantiation ([TemplateManager.instantiate_template],
       agents/templates.py) and [PipelineService.create_pipeline] *)

(** The dictionary [get_template] returns, as [instantiate_template] reads
    it: the stages in [stage_order] with their jobs, and the dependency
    rows of the template. *)
Module LoadedJob.
Record t := {
  template_job_id : string;
  agent_type : string;
  prompt_template : option string;
  command_template : option string;
  max_iterations : Z;
  timeout_seconds : Z;
  artifact_strategy : option artifact_strategy_config;
  retry_strategy : option retry_strategy_config
}.
End LoadedJob.

Module LoadedStage.
Record t := {
  template_stage_id : string;
  name : string;
  stage_order : Z;
  jobs : list LoadedJob.t
}.
End LoadedStage.

Module LoadedDependency.
Record t := {
  template_job_id : string;
  depends_on_template_job_id : string;
  dependency_type : dependency_type
}.
End LoadedDependency.

Record loaded_template := {
  template_stages_of : list LoadedStage.t;
  template_dependencies_of : list LoadedDependency.t
}.

(** [x in l] for a list of strings. *)
Definition mem (x : string) (l : list string) : bool :=
  existsb (String.eqb x) l.

(** [d.get(k)] for a dictionary kept as the list of its assignments, the
    latest first. *)
Definition dict_get (d : list (string * string)) (k : string) : option string :=
  option_map snd (find (fun kv => String.eqb (fst kv) k) d).

Definition with_stages (ss : list Stage.row) (db : Store) : Store :=
  {| pipelines := pipelines db; stages := ss; jobs := jobs db;
     job_dependencies := job_dependencies db; artifacts := artifacts db;
     action_history := action_history db;
     template_stages := template_stages db; template_jobs := template_jobs db |}.

Definition template_prompt (job : LoadedJob.t) (original_prompt : string)
  : string :=
  match truthy (LoadedJob.prompt_template job) with
  | Some t => replace "{{original_prompt}}" original_prompt t
  | None => ""
  end.

Definition template_command (job : LoadedJob.t) (job_id prompt : string)
  : option string :=
  match truthy (LoadedJob.command_template job) with
  | Some t =>
      Some (replace "{{agent_type}}" (LoadedJob.agent_type job)
              (replace "{{prompt}}" prompt (replace "{{job_id}}" job_id t)))
  | None => None
  end.

(** The row written by the [INSERT INTO jobs] of the instantiation; the
    stage row keeps the columns of [Stage.row]. *)
Definition instantiated_job (env : Env) (job : LoadedJob.t)
  (job_id pipeline_id stage_id original_prompt workspace_path : string)
  : Job.row :=
  let prompt := template_prompt job original_prompt in
  {| Job.job_id := job_id;
     Job.pipeline_id := pipeline_id;
     Job.stage_id := stage_id;
     Job.agent_type := LoadedJob.agent_type job;
     Job.prompt := prompt;
     Job.original_prompt := Some prompt;
     Job.command := template_command job job_id prompt;
     Job.max_iterations := LoadedJob.max_iterations job;
     Job.timeout_seconds := LoadedJob.timeout_seconds job;
     Job.allowed_paths := "[" ++ dq ++ workspace_path ++ dq ++ "]";
     Job.artifact_strategy := LoadedJob.artifact_strategy job;
     Job.retry_strategy := LoadedJob.retry_strategy job;
     Job.template_job_id := Some (LoadedJob.template_job_id job);
     Job.parent_job_id := None;
     Job.status := pending;
     Job.retry_count := default_retry_count env;
     Job.max_retries := default_max_retries env;
     Job.termination_reason := None;
     Job.job_output := None;
     Job.started_at := None;
     Job.completed_at := None;
     Job.created_at := now env;
     Job.updated_at := now env |}.

(** The state threaded through the loops: the store, the uuids drawn, and
    [job_map]. *)
Definition inst_state : Type := (Store * nat) * list (string * string).

(** The loop over the jobs of one stage. *)
Fixpoint instantiate_jobs (env : Env)
  (pipeline_id stage_id original_prompt workspace_path : string)
  (excluded_job_ids : list string) (js : list LoadedJob.t) (acc : inst_state)
  : inst_state :=
  match js with
  | [] => acc
  | job :: rest =>
      if mem (LoadedJob.template_job_id job) excluded_job_ids then
        instantiate_jobs env pipeline_id stage_id original_prompt
          workspace_path excluded_job_ids rest acc
      else
        let job_id := uuid4 env (snd (fst acc)) in
        instantiate_jobs env pipeline_id stage_id original_prompt
          workspace_path excluded_job_ids rest
          ((insert_job
              (instantiated_job env job job_id pipeline_id stage_id
                 original_prompt workspace_path)
              (fst (fst acc)),
            S (snd (fst acc))),
           (LoadedJob.template_job_id job, job_id) :: snd acc)
  end.

(** The loop over the stages. *)
Fixpoint instantiate_stages (env : Env)
  (pipeline_id original_prompt workspace_path : string)
  (excluded_stage_ids excluded_job_ids : list string)
  (ss : list LoadedStage.t) (acc : inst_state) : inst_state :=
  match ss with
  | [] => acc
  | stage :: rest =>
      if mem (LoadedStage.template_stage_id stage) excluded_stage_ids then
        instantiate_stages env pipeline_id original_prompt workspace_path
          excluded_stage_ids excluded_job_ids rest acc
      else
        let stage_id := uuid4 env (snd (fst acc)) in
        let db1 :=
          with_stages
            (stages (fst (fst acc))
             ++ [{| Stage.stage_id := stage_id;
                    Stage.pipeline_id := pipeline_id;
                    Stage.stage_order := LoadedStage.stage_order stage |}])
            (fst (fst acc)) in
        instantiate_stages env pipeline_id original_prompt workspace_path
          excluded_stage_ids excluded_job_ids rest
          (instantiate_jobs env pipeline_id stage_id original_prompt
             workspace_path excluded_job_ids (LoadedStage.jobs stage)
             ((db1, S (snd (fst acc))), snd acc))
  end.

(** The loop over the template's dependency rows. *)
Definition instantiate_dependencies (excluded_job_ids : list string)
  (job_map : list (string * string)) (deps : list LoadedDependency.t)
  (db : Store) : Store :=
  fold_left
    (fun d dep =>
       if mem (LoadedDependency.template_job_id dep) excluded_job_ids then d
       else if mem (LoadedDependency.depends_on_template_job_id dep)
                 excluded_job_ids then d
       else
         match truthy (dict_get job_map (LoadedDependency.template_job_id dep)),
               truthy (dict_get job_map
                         (LoadedDependency.depends_on_template_job_id dep)) with
         | Some job_id, Some depends_on_job_id =>
             insert_job_dependency
               {| JobDependency.job_id := job_id;
                  JobDependency.depends_on_job_id := depends_on_job_id;
                  JobDependency.dependency_type :=
                    LoadedDependency.dependency_type dep |} d
         | _, _ => d
         end)
    deps db.

Definition new_pipeline (env : Env) (pipeline_id template_id original_prompt
  : string) : Pipeline.row :=
  {| Pipeline.pipeline_id := pipeline_id;
     Pipeline.template_id := Some template_id;
     Pipeline.original_prompt := original_prompt;
     Pipeline.status := p_pending;
     Pipeline.created_at := now env;
     Pipeline.updated_at := now env;
     Pipeline.completed_at := None |}.

(** [instantiate_template]; [template] is the result of
    [get_template(template_id)].  [None] as result stands for the
    [ValueError] of a template that is not found. *)
Definition instantiate_template (env : Env) (st : Store * nat)
  (template : option loaded_template)
  (template_id original_prompt workspace_path : string)
  (excluded_stage_ids excluded_job_ids : list string)
  : (Store * nat) * option string :=
  match template with
  | None => (st, None)
  | Some t =>
      let pipeline_id := uuid4 env (snd st) in
      let db1 :=
        with_pipelines
          (pipelines (fst st)
           ++ [new_pipeline env pipeline_id template_id original_prompt])
          (fst st) in
      let acc :=
        instantiate_stages env pipeline_id original_prompt workspace_path
          excluded_stage_ids excluded_job_ids (template_stages_of t)
          ((db1, S (snd st)), []) in
      ((instantiate_dependencies excluded_job_ids (snd acc)
          (template_dependencies_of t) (fst (fst acc)),
        snd (fst acc)),
       Some pipeline_id)
  end.

Record create_response := {
  created_pipeline_id : string;
  created_template_id : string;
  created_name : string;
  created_prompt : string;
  created_status : pipeline_status
}.

(** [PipelineService.create_pipeline]; [None] when the instantiation
    raises. *)
Definition create_pipeline (env : Env) (st : Store * nat)
  (template : option loaded_template)
  (template_id prompt workspace_path : string)
  : (Store * nat) * option create_response :=
  let r := instantiate_template env st template template_id prompt
             workspace_path [] [] in
  match snd r with
  | None => (fst r, None)
  | Some pipeline_id =>
      match select_pipeline (fst (fst r)) pipeline_id with
      | None => (fst r, None)
      | Some pipeline =>
          (fst r,
           Some {| created_pipeline_id := pipeline_id;
                   created_template_id := template_id;
                   created_name := slice_to 50 prompt;
                   created_prompt := prompt;
                   created_status := Pipeline.status pipeline |})
      end
  end.

(** The template jobs that the exclusions keep, in instantiation order. *)
Definition kept_jobs (excluded_stage_ids excluded_job_ids : list string)
  (t : loaded_template) : list LoadedJob.t :=
  flat_map
    (fun s =>
       filter (fun j => negb (mem (LoadedJob.template_job_id j) excluded_job_ids))
              (LoadedStage.jobs s))
    (filter (fun s => negb (mem (LoadedStage.template_stage_id s)
                              excluded_stage_ids))
            (template_stages_of t)).

(** What an instantiated job row owes to its template job. *)
Definition instance_of (pipeline_id original_prompt : string)
  (job : LoadedJob.t) (j : Job.row) : Prop :=
  Job.pipeline_id j = pipeline_id
  /\ Job.status j = pending
  /\ Job.prompt j = template_prompt job original_prompt
  /\ Job.original_prompt j = Some (Job.prompt j)
  /\ Job.template_job_id j = Some (LoadedJob.template_job_id job)
  /\ Job.parent_job_id j = None
  /\ Job.agent_type j = LoadedJob.agent_type job
  /\ Job.retry_strategy j = LoadedJob.retry_strategy job
  /\ Job.artifact_strategy j = LoadedJob.artifact_strategy job.

(** The two-stage template of the linear scenario: job [b] of the second
    stage runs on the success of job [a] of the first. *)
Definition linear_job (template_job_id : string) : LoadedJob.t :=
  {| LoadedJob.template_job_id := template_job_id;
     LoadedJob.agent_type := "mock";
     LoadedJob.prompt_template := Some "Do: {{original_prompt}}";
     LoadedJob.command_template := Some "echo {{job_id}}";
     LoadedJob.max_iterations := 50;
     LoadedJob.timeout_seconds := 300;
     LoadedJob.artifact_strategy := Some cfg_stdout_final;
     LoadedJob.retry_strategy := None |}.

Definition linear_template : loaded_template :=
  {| template_stages_of :=
       [{| LoadedStage.template_stage_id := "s1"; LoadedStage.name := "first";
           LoadedStage.stage_order := 1; LoadedStage.jobs := [linear_job "a"] |};
        {| LoadedStage.template_stage_id := "s2"; LoadedStage.name := "second";
           LoadedStage.stage_order := 2; LoadedStage.jobs := [linear_job "b"] |}];
     template_dependencies_of :=
       [{| LoadedDependency.template_job_id := "b";
           LoadedDependency.depends_on_template_job_id := "a";
           LoadedDependency.dependency_type := success |}] |}.

Definition empty_store : Store :=
  {| pipelines := []; stages := []; jobs := []; job_dependencies := [];
     artifacts := []; action_history := []; template_stages := [];
     template_jobs := [] |}.

(** Where an edge of an instantiation comes from. *)
Definition edge_origin (excluded_job_ids : list string)
  (job_map : list (string * string)) (deps : list LoadedDependency.t)
  (e : JobDependency.row) : Prop :=
  exists dep,
    In dep deps
    /\ mem (LoadedDependency.template_job_id dep) excluded_job_ids = false
    /\ mem (LoadedDependency.depends_on_template_job_id dep) excluded_job_ids
       = false
    /\ In (LoadedDependency.template_job_id dep, JobDependency.job_id e) job_map
    /\ In (LoadedDependency.depends_on_template_job_id dep,
           JobDependency.depends_on_job_id e) job_map
    /\ JobDependency.dependency_type e = LoadedDependency.dependency_type dep.


(* ------------------------------------------------------------------ *)
(** ** Listings ([get_running_pipelines], [get_recent_pipelines],
       [get_pipeline], services.py) *)

(** Insertion into a list ordered by [le]; an element goes before the
    first one it is not above. *)
Fixpoint insert_by {A : Type} (le : A -> A -> bool) (x : A) (l : list A)
  : list A :=
  match l with
  | [] => [x]
  | y :: r => if le x y then x :: l else y :: insert_by le x r
  end.

(** [ORDER BY]: rows with equal keys keep their scan order. *)
Definition order_by {A : Type} (le : A -> A -> bool) (l : list A) : list A :=
  fold_right (insert_by le) [] l.

(** [LIMIT n]: a negative bound is no bound. *)
Definition sql_limit {A : Type} (n : Z) (l : list A) : list A :=
  if n <? 0 then l else firstn (Z.to_nat n) l.

(** Order of a nullable text column, NULL below every text. *)
Definition null_leb (a b : option string) : bool :=
  match a, b with
  | None, _ => true
  | Some _, None => false
  | Some x, Some y => String.leb x y
  end.

Record job_view := {
  view_name : string;
  view_status : job_status;
  view_log : string;
  view_retries : Z
}.

(** One entry of [stages]: its jobs (the stage's [name] is not among the
    columns of [Stage.row]). *)
Record stage_view := {
  view_jobs : list job_view
}.

Record pipeline_view := {
  view_id : string;
  view_pipeline_name : string;
  view_description : string;
  view_pipeline_status : pipeline_status;
  view_completed_at : option string;
  view_stages : list stage_view
}.

Definition job_view_of (j : Job.row) : job_view :=
  {| view_name := Job.agent_type j;
     view_status := Job.status j;
     view_log := get (Job.job_output j) "";
     view_retries := get (Job.retry_count j) 0 |}.

(** The stages of a pipeline in [stage_order], each with the jobs whose
    [stage_id] is the stage's. *)
Definition stage_views (db : Store) (pipeline_id : string) : list stage_view :=
  map (fun s =>
         {| view_jobs :=
              map job_view_of
                  (filter (fun j => String.eqb (Job.stage_id j) (Stage.stage_id s))
                          (jobs db)) |})
      (order_by (fun a b => Stage.stage_order a <=? Stage.stage_order b)
                (filter (fun s => String.eqb (Stage.pipeline_id s) pipeline_id)
                        (stages db))).

Definition pipeline_view_of (db : Store) (p : Pipeline.row) : pipeline_view :=
  {| view_id := Pipeline.pipeline_id p;
     view_pipeline_name := slice_to 50 (Pipeline.original_prompt p);
     view_description := Pipeline.original_prompt p;
     view_pipeline_status := Pipeline.status p;
     view_completed_at := Pipeline.completed_at p;
     view_stages := stage_views db (Pipeline.pipeline_id p) |}.

(** [get_running_pipelines] (its entries carry no [completed_at] key; the
    field of the view is the column all the same). *)
Definition get_running_pipelines (db : Store) : list pipeline_view :=
  map (pipeline_view_of db)
      (filter (fun p => is_pstatus (Pipeline.status p) p_pending
                        || is_pstatus (Pipeline.status p) p_running)
              (pipelines db)).

(** [get_recent_pipelines(limit)]: latest [completed_at] first. *)
Definition get_recent_pipelines (db : Store) (limit : Z) : list pipeline_view :=
  map (pipeline_view_of db)
      (sql_limit limit
         (order_by (fun a b => null_leb (Pipeline.completed_at b)
                                        (Pipeline.completed_at a))
            (filter (fun p => is_pstatus (Pipeline.status p) p_completed
                              || is_pstatus (Pipeline.status p) p_failed
                              || is_pstatus (Pipeline.status p) p_cancelled)
                    (pipelines db)))).

(** [get_pipeline]: the pipeline row and its jobs joined to their stage,
    in [stage_order]; [None] when no pipeline has the id. *)
Definition get_pipeline (db : Store) (pipeline_id : string)
  : option (Pipeline.row * list (Job.row * Z)) :=
  match select_pipeline db pipeline_id with
  | None => None
  | Some pipeline =>
      Some (pipeline,
            order_by (fun a b => snd a <=? snd b)
              (flat_map
                 (fun j =>
                    if String.eqb (Job.pipeline_id j) pipeline_id then
                      map (fun s => (j, Stage.stage_order s))
                          (filter (fun s => String.eqb (Job.stage_id j)
                                                       (Stage.stage_id s))
                                  (stages db))
                    else [])
                 (jobs db)))
  end.

(** Each element is below its successor. *)
Fixpoint is_sorted {A : Type} (le : A -> A -> bool) (l : list A) : bool :=
  match l with
  | [] => true
  | x :: r =>
      match r with
      | [] => true
      | y :: _ => le x y && is_sorted le r
      end
  end.

(** Two finished pipelines and a running one. *)
Definition store_three_pipelines : Store :=
  a_store [set_pipeline_done p_completed t0 (a_pipeline "A" None p_running);
           a_pipeline "P" None p_running;
           set_pipeline_done p_failed t1 (a_pipeline "B" None p_running)]
          [a_job "a" "P" pending] [].

(** A job row after the completion check of [pipeline_id] against the row
    before: untouched, or a pending row of that pipeline skipped for
    deadlock. *)
Definition deadlock_step (now pipeline_id : string) (a b : Job.row) : Prop :=
  b = a
  \/ (Job.pipeline_id a = pipeline_id /\ Job.status a = pending
      /\ b = mark_skipped now "pipeline_deadlocked" a).

(** A pipeline row after the completion check of [pipeline_id] against the
    row before: untouched, or a row of that pipeline finalized. *)
Definition finalize_step (now pipeline_id : string) (p p' : Pipeline.row)
  : Prop :=
  p' = p
  \/ (Pipeline.pipeline_id p = pipeline_id
      /\ (p' = set_pipeline_done p_completed now p
          \/ p' = set_pipeline_done p_failed now p)).

(** A job row after a run of the executor for [job_id] against the row
    before: a row of the job itself, or untouched, or a success-descendant
    of the job skipped by the propagation. *)
Definition run_step (now job_id : string) (deps : list JobDependency.row)
  (a b : Job.row) : Prop :=
  Job.job_id a = job_id
  \/ b = a
  \/ (b = mark_skipped now "dependency_failed" a
      /\ success_path deps job_id (Job.job_id a)).

(** A pipeline with a stage and a job whose stage row is missing. *)
Definition store_orphan_job : Store :=
  a_store [a_pipeline "P" None p_running]
          [a_job "a" "P" completed;
           Job.set_status pending
             {| Job.job_id := "b"; Job.pipeline_id := "P";
                Job.stage_id := "stage-9"; Job.agent_type := "mock";
                Job.prompt := "test"; Job.original_prompt := Some "test";
                Job.command := None;
                Job.max_iterations := 50; Job.timeout_seconds := 300;
                Job.allowed_paths := "[./]";
                Job.artifact_strategy := None; Job.retry_strategy := None;
                Job.template_job_id := None; Job.parent_job_id := None;
                Job.status := pending; Job.retry_count := None;
                Job.max_retries := None;
                Job.termination_reason := None; Job.job_output := None;
                Job.started_at := None; Job.completed_at := None;
                Job.created_at := t0; Job.updated_at := t0 |}]
          [].

(** A job row after a scheduler iteration against the row before:
    untouched, or a pending row of a pipeline satisfying [active], skipped
    for deadlock. *)
Definition tick_step (now : string) (active : string -> Prop)
  (a b : Job.row) : Prop :=
  b = a
  \/ (active (Job.pipeline_id a) /\ Job.status a = pending
      /\ b = mark_skipped now "pipeline_deadlocked" a).
(* ------------------------------------------------------------------ *)
(** ** Worked values of the string primitives *)

Example py_str_int_values :
  py_str_int 0 = "0" /\ py_str_int 101 = "101" /\ py_str_int (-9) = "-9".
Proof. repeat split; reflexivity. Qed.

Example log_output_step1 : log_output ("step1" ++ nl) = "step1".
Proof. reflexivity. Qed.

Example log_output_two_lines :
  log_output ("a  " ++ nl ++ "b") = "a" ++ nl ++ "b".
Proof. reflexivity. Qed.

Example replace_item :
  replace "{{item}}" "t1" "do {{item}} and {{item}}" = "do t1 and t1".
Proof. reflexivity. Qed.

Example split_commas : split ","%char "a, b,,c" = ["a"; " b"; ""; "c"].
Proof. reflexivity. Qed.

Example failure_reason_3 : failure_reason 1 2 = "exit_code_1_after_3_attempts".
Proof. reflexivity. Qed.

(* ------------------------------------------------------------------ *)
(** ** Basic facts about the tables *)

Lemma is_status_true (a b : job_status) : is_status a b = true <-> a = b.
Proof.
  unfold is_status. destruct (job_status_eq_dec a b); split; congruence.
Qed.

Lemma is_status_false (a b : job_status) : is_status a b = false <-> a <> b.
Proof.
  unfold is_status. destruct (job_status_eq_dec a b); split; congruence.
Qed.

Lemma is_pstatus_true (a b : pipeline_status) : is_pstatus a b = true <-> a = b.
Proof.
  unfold is_pstatus. destruct (pipeline_status_eq_dec a b); split; congruence.
Qed.

Lemma is_dtype_true (a b : dependency_type) : is_dtype a b = true <-> a = b.
Proof.
  unfold is_dtype. destruct (dependency_type_eq_dec a b); split; congruence.
Qed.

Lemma map_update_none {A : Type} (cond : A -> bool) (f : A -> A) (l : list A) :
  find cond l = None -> map (fun x => if cond x then f x else x) l = l.
Proof.
  induction l as [|x l IH]; simpl; [reflexivity|].
  destruct (cond x); [discriminate|]. intros H. now rewrite IH.
Qed.

Lemma find_map_update {A : Type} (cond : A -> bool) (f : A -> A) (l : list A) :
  (forall x, cond (f x) = cond x) ->
  find cond (map (fun x => if cond x then f x else x) l)
  = option_map f (find cond l).
Proof.
  intros Hc. induction l as [|x l IH]; simpl; [reflexivity|].
  destruct (cond x) eqn:E.
  - now rewrite Hc, E.
  - now rewrite E.
Qed.

Lemma with_pipelines_same (db : Store) : with_pipelines (pipelines db) db = db.
Proof. now destruct db. Qed.

Lemma with_jobs_same (db : Store) : with_jobs (jobs db) db = db.
Proof. now destruct db. Qed.

Lemma select_job_update (db : Store) (job_id : string) (f : Job.row -> Job.row) :
  (forall j, Job.job_id (f j) = Job.job_id j) ->
  select_job (update_jobs (has_job_id job_id) f db) job_id
  = option_map f (select_job db job_id).
Proof.
  intros Hf. unfold select_job, update_jobs. simpl.
  apply find_map_update. intros x. unfold has_job_id. now rewrite Hf.
Qed.

Lemma select_pipeline_update (db : Store) (pipeline_id : string)
  (f : Pipeline.row -> Pipeline.row) :
  (forall p, Pipeline.pipeline_id (f p) = Pipeline.pipeline_id p) ->
  select_pipeline (update_pipelines (has_pipeline_id pipeline_id) f db) pipeline_id
  = option_map f (select_pipeline db pipeline_id).
Proof.
  intros Hf. unfold select_pipeline, update_pipelines. simpl.
  apply find_map_update. intros x. unfold has_pipeline_id. now rewrite Hf.
Qed.

Lemma in_update_pipelines (cond : Pipeline.row -> bool)
  (f : Pipeline.row -> Pipeline.row) (db : Store) (p' : Pipeline.row) :
  In p' (pipelines (update_pipelines cond f db)) <->
  exists p, In p (pipelines db) /\ p' = if cond p then f p else p.
Proof.
  unfold update_pipelines. simpl. rewrite in_map_iff.
  split; intros [p [H1 H2]]; exists p; split; auto.
Qed.

(* ------------------------------------------------------------------ *)
(** ** Stop *)

(** C10.  The stop operation is total: for every store and pipeline id it
    returns the response [{pipeline_id, name, status: cancelled}].  When the
    pipeline exists, whatever its prior status, the stored status becomes
    [cancelled] and the name is the first 50 characters of the original
    prompt; rows of other pipelines are untouched.  When no pipeline has
    that id the store is unchanged and the name is [Unknown]. *)
Theorem stop_pipeline_always_cancels (now : string) (db : Store)
  (pipeline_id : string) :
  let r := stop_pipeline now db pipeline_id in
  resp_pipeline_id (snd r) = pipeline_id
  /\ resp_status (snd r) = "cancelled"
  /\ (forall p, select_pipeline db pipeline_id = Some p ->
        pipeline_status_of (fst r) pipeline_id = Some p_cancelled
        /\ resp_name (snd r) = slice_to 50 (Pipeline.original_prompt p))
  /\ (forall p, In p (pipelines (fst r)) ->
        Pipeline.pipeline_id p = pipeline_id -> Pipeline.status p = p_cancelled)
  /\ (forall p, In p (pipelines db) ->
        Pipeline.pipeline_id p <> pipeline_id -> In p (pipelines (fst r)))
  /\ jobs (fst r) = jobs db
  /\ (select_pipeline db pipeline_id = None ->
        fst r = db /\ resp_name (snd r) = "Unknown").
Proof.
  unfold stop_pipeline, service_stop_pipeline. simpl.
  repeat split.
  - unfold pipeline_status_of. rewrite select_pipeline_update by reflexivity.
    now rewrite H.
  - now rewrite H.
  - intros p Hin Hid. unfold update_pipelines in Hin. simpl in Hin.
    apply in_map_iff in Hin. destruct Hin as [q [Hq _]].
    destruct (has_pipeline_id pipeline_id q) eqn:E; subst p; [reflexivity|].
    unfold has_pipeline_id in E. apply String.eqb_neq in E. contradiction.
  - intros p Hin Hid. unfold update_pipelines. simpl.
    apply in_map_iff. exists p. split; [|assumption].
    unfold has_pipeline_id. apply String.eqb_neq in Hid. now rewrite Hid.
  - unfold update_pipelines, select_pipeline in *.
    rewrite map_update_none by assumption. apply with_pipelines_same.
  - now rewrite H.
Qed.

(* ------------------------------------------------------------------ *)
(** ** Scheduler *)

Lemma ready_cond_iff (db : Store) (j : Job.row) :
  ready_cond db j = true <->
  Job.status j = pending
  /\ forall r, In r (dependency_rows db (Job.job_id j)) ->
               Job.status (snd r) = completed.
Proof.
  unfold ready_cond. rewrite andb_true_iff, is_status_true, negb_true_iff.
  split; intros [Hp Hd]; split; try assumption.
  - intros r Hr. destruct (job_status_eq_dec (Job.status (snd r)) completed)
      as [E|E]; [assumption|].
    assert (existsb (fun r => negb (is_status (Job.status (snd r)) completed))
              (dependency_rows db (Job.job_id j)) = true) as Hx.
    { apply existsb_exists. exists r. split; [assumption|].
      apply negb_true_iff. now apply is_status_false. }
    congruence.
  - apply not_true_is_false. intros Hx. apply existsb_exists in Hx.
    destruct Hx as [r [Hr Hn]]. apply negb_true_iff in Hn.
    apply is_status_false in Hn. now apply Hn, Hd.
Qed.

(** C1 (failing input).  Job [a] has failed and the pending job [b] has a
    single failure-edge on [a]: the specification's readiness holds for [b],
    the ready-job query returns nothing, the scheduler iteration dispatches
    no job, and since the deadlock query counts the edge as satisfiable the
    completion check leaves the store as it is. *)
Theorem ready_job_ignores_dependency_type :
  spec_ready store_failure_edge (a_job "b" "P" pending) = true
  /\ ready_job store_failure_edge = None
  /\ snd (orchestration_tick t1
            {| sched_db := store_failure_edge; running_jobs := [] |}) = None
  /\ check_pipeline_completion t1 store_failure_edge "P"
     = Some store_failure_edge.
Proof. repeat split; reflexivity. Qed.

(** C5 (failing input).  Pipeline [P] is running with one pending job [j]
    that has no dependency.  After the stop operation has set [P] to
    [cancelled], the next scheduler iteration still selects [j]: the
    ready-job query reads no pipeline status.  The executor task then makes
    [j] [running] and, its command exiting with code 0, [completed], while
    [P] stays [cancelled] all along. *)
Theorem cancelled_pipeline_job_dispatched :
  let db := fst (stop_pipeline t1 store_one_pending "P") in
  let tick := orchestration_tick t1 {| sched_db := db; running_jobs := [] |} in
  let env := scenario_env quiet_shell in
  pipeline_status_of db "P" = Some p_cancelled
  /\ option_map Job.status (select_job db "j") = Some pending
  /\ snd tick = Some "j"
  /\ running_jobs (fst tick) = ["j"]
  /\ pipeline_status_of (sched_db (fst tick)) "P" = Some p_cancelled
  /\ option_map Job.status
       (select_job (start_job env (sched_db (fst tick)) "j") "j")
     = Some running
  /\ option_map Job.status
       (select_job (fst (run_job env (sched_db (fst tick), O) "j")) "j")
     = Some completed
  /\ pipeline_status_of (fst (run_job env (sched_db (fst tick), O) "j")) "P"
     = Some p_cancelled.
Proof. repeat split; reflexivity. Qed.

Lemma ready_job_ext (db db' : Store) :
  jobs db' = jobs db -> job_dependencies db' = job_dependencies db ->
  ready_job db' = ready_job db.
Proof.
  intros Hj Hd. unfold ready_job, ready_cond, dependency_rows.
  now rewrite Hj, Hd.
Qed.

Lemma start_pending_pipelines_jobs (now : string) (db : Store) :
  jobs (start_pending_pipelines now db) = jobs db
  /\ job_dependencies (start_pending_pipelines now db) = job_dependencies db.
Proof.
  unfold start_pending_pipelines.
  generalize (pipeline_ids_with p_pending db). intros ids. revert db.
  induction ids as [|id ids IH]; intros db; [split; reflexivity|].
  simpl. destruct (IH (update_pipelines (has_pipeline_id id)
                         (set_pipeline_status p_running now) db)) as [H1 H2].
  split; [rewrite H1|rewrite H2]; reflexivity.
Qed.

Lemma stays_cancelled_update (db : Store) (pipeline_id id : string)
  (f : Pipeline.row -> Pipeline.row) :
  (forall q, Pipeline.pipeline_id (f q) = Pipeline.pipeline_id q) ->
  id <> pipeline_id -> stays_cancelled db pipeline_id ->
  stays_cancelled (update_pipelines (has_pipeline_id id) f db) pipeline_id.
Proof.
  intros Hf Hne Hc p Hin Hid. unfold update_pipelines in Hin. simpl in Hin.
  apply in_map_iff in Hin. destruct Hin as [q [Hq Hin]].
  destruct (has_pipeline_id id q) eqn:E.
  - unfold has_pipeline_id in E. apply String.eqb_eq in E.
    subst p. rewrite Hf in Hid. congruence.
  - subst p. now apply Hc.
Qed.

Lemma not_in_pipeline_ids_with (db : Store) (pipeline_id : string)
  (s : pipeline_status) :
  s <> p_cancelled -> stays_cancelled db pipeline_id ->
  forall id, In id (pipeline_ids_with s db) -> id <> pipeline_id.
Proof.
  intros Hs Hc id Hin Heq. unfold pipeline_ids_with in Hin.
  apply in_map_iff in Hin. destruct Hin as [p [Hp Hin]].
  apply filter_In in Hin. destruct Hin as [Hin Hst].
  apply is_pstatus_true in Hst. subst id.
  pose proof (Hc p Hin Heq) as Hx. congruence.
Qed.

Lemma start_pending_pipelines_cancelled (now : string) (db : Store)
  (pipeline_id : string) :
  stays_cancelled db pipeline_id ->
  stays_cancelled (start_pending_pipelines now db) pipeline_id.
Proof.
  intros Hc. unfold start_pending_pipelines.
  pose proof (not_in_pipeline_ids_with db pipeline_id p_pending
                ltac:(discriminate) Hc) as Hids.
  revert Hids. generalize (pipeline_ids_with p_pending db). intros ids.
  revert db Hc. induction ids as [|id ids IH]; intros db Hc Hids; [exact Hc|].
  simpl. apply IH.
  - apply stays_cancelled_update; [reflexivity| |exact Hc].
    apply Hids. now left.
  - intros id' Hin. apply Hids. now right.
Qed.

Lemma check_pipeline_completion_cancelled (now : string) (db db' : Store)
  (pipeline_id id : string) :
  id <> pipeline_id -> stays_cancelled db pipeline_id ->
  check_pipeline_completion now db id = Some db' ->
  stays_cancelled db' pipeline_id.
Proof.
  intros Hne Hc. unfold check_pipeline_completion.
  destruct (match sql_sum _ with Some d => _ | None => false end).
  - destruct (sql_sum _) as [f|]; [|discriminate].
    intros H. inversion H; subst.
    now apply stays_cancelled_update.
  - destruct (sql_sum _) as [p|]; [|discriminate].
    destruct (p >? 0); [|intros H; now inversion H; subst].
    destruct (sql_count _ >? 0); intros H; inversion H; subst; [|assumption].
    change (stays_cancelled
              (update_pipelines (has_pipeline_id id)
                 (set_pipeline_done p_failed now) db) pipeline_id).
    now apply stays_cancelled_update.
Qed.

Lemma check_running_pipelines_cancelled (now : string) (pipeline_id : string) :
  forall ids db,
    (forall id, In id ids -> id <> pipeline_id) ->
    stays_cancelled db pipeline_id ->
    stays_cancelled (check_running_pipelines now ids db) pipeline_id.
Proof.
  induction ids as [|id ids IH]; intros db Hids Hc; [exact Hc|].
  simpl. destruct (check_pipeline_completion now db id) as [db'|] eqn:E;
    [|exact Hc].
  apply IH; [intros; apply Hids; now right|].
  eapply check_pipeline_completion_cancelled; [|exact Hc|exact E].
  apply Hids. now left.
Qed.

(** A scheduler iteration leaves a cancelled pipeline cancelled. *)
Lemma orchestration_tick_cancelled (now : string) (s : scheduler)
  (pipeline_id : string) :
  stays_cancelled (sched_db s) pipeline_id ->
  stays_cancelled (sched_db (fst (orchestration_tick now s))) pipeline_id.
Proof.
  intros Hc. unfold orchestration_tick. cbn [fst sched_db].
  pose proof (start_pending_pipelines_cancelled now _ _ Hc) as Hc1.
  apply check_running_pipelines_cancelled; [|exact Hc1].
  apply not_in_pipeline_ids_with; [discriminate|exact Hc1].
Qed.

(** The selection is the same for every store: the stop operation changes
    no job row and leaves every row of the pipeline [cancelled], a scheduler
    iteration run right after it keeps the pipeline [cancelled], and the job
    that iteration selects is the one it selects on the store before the
    stop. *)
Lemma stop_keeps_ready_job (now now' : string) (db : Store)
  (pipeline_id : string) (running : list string) :
  let db' := fst (stop_pipeline now db pipeline_id) in
  let tick := orchestration_tick now'
                {| sched_db := db'; running_jobs := running |} in
  jobs db' = jobs db
  /\ stays_cancelled db' pipeline_id
  /\ stays_cancelled (sched_db (fst tick)) pipeline_id
  /\ snd tick
     = snd (orchestration_tick now'
              {| sched_db := db; running_jobs := running |}).
Proof.
  cbv zeta.
  assert (stays_cancelled (fst (stop_pipeline now db pipeline_id)) pipeline_id)
    as Hc.
  { intros p Hin Hid. unfold stop_pipeline, service_stop_pipeline in Hin.
    cbn [fst] in Hin. apply in_update_pipelines in Hin.
    destruct Hin as [q [Hq Heq]].
    destruct (has_pipeline_id pipeline_id q) eqn:E; subst p; [reflexivity|].
    unfold has_pipeline_id in E. apply String.eqb_neq in E. contradiction. }
  split; [reflexivity|]. split; [exact Hc|].
  split; [now apply orchestration_tick_cancelled|].
  unfold orchestration_tick. cbn [snd sched_db running_jobs].
  destruct running; [|reflexivity].
  f_equal. apply ready_job_ext.
  - destruct (start_pending_pipelines_jobs now'
                (fst (stop_pipeline now db pipeline_id))) as [H1 _].
    destruct (start_pending_pipelines_jobs now' db) as [H2 _].
    rewrite H1, H2. reflexivity.
  - destruct (start_pending_pipelines_jobs now'
                (fst (stop_pipeline now db pipeline_id))) as [_ H1].
    destruct (start_pending_pipelines_jobs now' db) as [_ H2].
    rewrite H1, H2. reflexivity.
Qed.

(* ------------------------------------------------------------------ *)
(** ** Completion check and deadlock detection *)

Lemma sum_case_when {A : Type} (f : A -> bool) (l : list A) :
  fold_right Z.add 0 (map (fun x => case_when (f x)) l)
  = Z.of_nat (List.length (filter f l)).
Proof.
  induction l as [|x l IH]; [reflexivity|].
  cbn [map fold_right filter]. rewrite IH.
  destruct (f x); cbn [case_when List.length]; lia.
Qed.

Lemma sql_sum_case_when {A : Type} (f : A -> bool) (l : list A) :
  l <> [] ->
  sql_sum (map (fun x => case_when (f x)) l)
  = Some (Z.of_nat (List.length (filter f l))).
Proof.
  intros Hne. unfold sql_sum.
  destruct l as [|x l]; [congruence|].
  rewrite <- sum_case_when. reflexivity.
Qed.

Lemma filter_length_le {A : Type} (f : A -> bool) (l : list A) :
  (List.length (filter f l) <= List.length l)%nat.
Proof.
  induction l as [|x l IH]; simpl; [lia|]. destruct (f x); simpl; lia.
Qed.

Lemma filter_length_all {A : Type} (f : A -> bool) (l : list A) :
  List.length (filter f l) = List.length l <-> forallb f l = true.
Proof.
  induction l as [|x l IH]; simpl; [tauto|].
  pose proof (filter_length_le f l) as Hle.
  destruct (f x); simpl.
  - rewrite <- IH. lia.
  - split; [lia|discriminate].
Qed.

Lemma filter_length_pos {A : Type} (f : A -> bool) (l : list A) :
  (0 < List.length (filter f l))%nat <-> existsb f l = true.
Proof.
  induction l as [|x l IH]; simpl.
  - split; [lia|discriminate].
  - destruct (f x); simpl; [split; [reflexivity|lia]|exact IH].
Qed.

Lemma in_dependency_rows (db : Store) (job_id : string)
  (r : JobDependency.row * Job.row) :
  In r (dependency_rows db job_id) <->
  In (fst r) (job_dependencies db) /\ In (snd r) (jobs db)
  /\ JobDependency.job_id (fst r) = job_id
  /\ JobDependency.depends_on_job_id (fst r) = Job.job_id (snd r).
Proof.
  unfold dependency_rows. rewrite in_flat_map. split.
  - intros [jd [Hjd Hr]].
    destruct (String.eqb (JobDependency.job_id jd) job_id) eqn:E;
      [|contradiction].
    apply in_map_iff in Hr. destruct Hr as [dep [Hr Hdep]]. subst r.
    apply filter_In in Hdep. destruct Hdep as [Hdep Hid].
    unfold has_job_id in Hid. apply String.eqb_eq in Hid, E.
    simpl. auto.
  - intros (Hjd & Hdep & Hid & Hon). exists (fst r). split; [assumption|].
    apply String.eqb_eq in Hid. rewrite Hid.
    apply in_map_iff. exists (snd r). split; [now destruct r|].
    apply filter_In. split; [assumption|].
    unfold has_job_id. now apply String.eqb_eq.
Qed.

Lemma could_allow_iff (t : dependency_type) (s : job_status) :
  could_allow t s = true <-> potentially_satisfiable t s.
Proof.
  unfold potentially_satisfiable.
  destruct t, s; cbn; split; intros H; try reflexivity; try discriminate;
    try tauto;
    repeat match goal with
           | H : _ \/ _ |- _ => destruct H
           | H : _ /\ _ |- _ => destruct H
           end; discriminate.
Qed.

Lemma pipeline_status_of_update_jobs (db : Store) (cond : Job.row -> bool)
  (f : Job.row -> Job.row) (pipeline_id : string) :
  pipeline_status_of (update_jobs cond f db) pipeline_id
  = pipeline_status_of db pipeline_id.
Proof. reflexivity. Qed.

Lemma pipeline_status_of_done (db : Store) (pipeline_id now : string)
  (s0 s : pipeline_status) :
  pipeline_status_of db pipeline_id = Some s0 ->
  pipeline_status_of
    (update_pipelines (has_pipeline_id pipeline_id) (set_pipeline_done s now) db)
    pipeline_id = Some s.
Proof.
  unfold pipeline_status_of. rewrite select_pipeline_update by reflexivity.
  destruct (select_pipeline db pipeline_id); [reflexivity|discriminate].
Qed.

Lemma deadlocked_row_pending (db : Store) (pipeline_id : string) (j : Job.row) :
  deadlocked_row db pipeline_id j = true ->
  in_pipeline pipeline_id j = true /\ Job.status j = pending.
Proof.
  unfold deadlocked_row. rewrite !andb_true_iff, is_status_true. tauto.
Qed.

(** The aggregates of the completion query, for a pipeline that has jobs. *)
Lemma gtb_length_pos {A : Type} (f : A -> bool) (l : list A) :
  (Z.of_nat (List.length (filter f l)) >? 0) = existsb f l.
Proof.
  pose proof (filter_length_pos f l) as H.
  destruct (existsb f l) eqn:E.
  - apply Z.gtb_lt. destruct H as [_ H]. specialize (H eq_refl). lia.
  - destruct (Z.gtb_spec (Z.of_nat (List.length (filter f l))) 0)
      as [Hgt|Hle]; [|reflexivity].
    assert (false = true) by (apply H; lia). discriminate.
Qed.

(** The aggregates of the completion query, for a pipeline that has jobs. *)
Lemma completion_aggregates (db : Store) (pipeline_id : string) :
  jobs_of db pipeline_id <> [] ->
  (match sql_sum (map (fun j => case_when (is_terminal (Job.status j)))
                      (jobs_of db pipeline_id)) with
   | Some d => sql_count (jobs_of db pipeline_id) =? d
   | None => false
   end) = all_jobs_terminal db pipeline_id
  /\ (exists f,
        sql_sum (map (fun j => case_when (is_status (Job.status j) failed))
                     (jobs_of db pipeline_id))
        = Some f /\ (f >? 0) = some_job_failed db pipeline_id)
  /\ (exists p,
        sql_sum (map (fun j => case_when (is_status (Job.status j) pending))
                     (jobs_of db pipeline_id))
        = Some p
        /\ (p >? 0)
           = existsb (fun j => is_status (Job.status j) pending)
                     (jobs_of db pipeline_id)).
Proof.
  unfold all_jobs_terminal, some_job_failed.
  intros Hne. set (rows := jobs_of db pipeline_id) in *.
  repeat split.
  - rewrite sql_sum_case_when by assumption. unfold sql_count.
    pose proof (filter_length_all (fun j => is_terminal (Job.status j)) rows) as H.
    destruct (forallb _ rows) eqn:E.
    + apply Z.eqb_eq. f_equal. symmetry. now apply H.
    + apply Z.eqb_neq. intros Heq. apply Nat2Z.inj in Heq.
      symmetry in Heq. apply H in Heq. discriminate.
  - eexists. split; [now apply sql_sum_case_when|]. apply gtb_length_pos.
  - eexists. split; [now apply sql_sum_case_when|]. apply gtb_length_pos.
Qed.

Lemma deadlock_count (db : Store) (pipeline_id : string) :
  (sql_count (filter (deadlocked_row db pipeline_id) (jobs db)) >? 0)
  = some_job_deadlocked db pipeline_id.
Proof. unfold some_job_deadlocked, sql_count. apply gtb_length_pos. Qed.

Lemma deadlocked_implies_pending_job (db : Store) (pipeline_id : string) :
  some_job_deadlocked db pipeline_id = true ->
  existsb (fun j => is_status (Job.status j) pending) (jobs_of db pipeline_id)
  = true.
Proof.
  unfold some_job_deadlocked. intros H. apply existsb_exists in H.
  destruct H as [j [Hin Hd]]. apply deadlocked_row_pending in Hd.
  destruct Hd as [Hp Hs]. apply existsb_exists. exists j. split.
  - unfold jobs_of. apply filter_In. auto.
  - now apply is_status_true.
Qed.

(** The outcome of the completion check in terms of the jobs. *)
Lemma check_pipeline_completion_cases (now : string) (db : Store)
  (pipeline_id : string) :
  jobs_of db pipeline_id <> [] ->
  check_pipeline_completion now db pipeline_id
  = Some
      (if all_jobs_terminal db pipeline_id then
         update_pipelines (has_pipeline_id pipeline_id)
           (set_pipeline_done
              (if some_job_failed db pipeline_id then p_failed else p_completed)
              now) db
       else if some_job_deadlocked db pipeline_id then
         update_jobs
           (fun j => in_pipeline pipeline_id j && is_status (Job.status j) pending)
           (mark_skipped now "pipeline_deadlocked")
           (update_pipelines (has_pipeline_id pipeline_id)
              (set_pipeline_done p_failed now) db)
       else db).
Proof.
  intros Hne. unfold check_pipeline_completion.
  change (filter (in_pipeline pipeline_id) (jobs db))
    with (jobs_of db pipeline_id).
  destruct (completion_aggregates db pipeline_id Hne)
    as (Hdone & (f & Hf & Hfpos) & (p & Hp & Hppos)).
  cbv zeta. rewrite Hdone, Hf, Hp, Hfpos, Hppos, deadlock_count.
  destruct (all_jobs_terminal db pipeline_id); [reflexivity|].
  destruct (some_job_deadlocked db pipeline_id) eqn:Hd.
  - now rewrite deadlocked_implies_pending_job.
  - now destruct (existsb _ (jobs_of db pipeline_id)).
Qed.

(** C2 (counterexample).  Job [a] completed and the pending job [c] waits
    for [a]'s failure.  The completion check takes the deadlock branch: the
    pipeline becomes [failed] and [c] becomes [skipped], so every job is
    terminal and none is failed, which invariant I2 excludes. *)
Lemma failed_pipeline_without_failed_job :
  exists db' p,
    check_pipeline_completion t1 store_unsatisfiable_failure_edge "P" = Some db'
    /\ select_pipeline db' "P" = Some p
    /\ Pipeline.status p = p_failed
    /\ all_jobs_terminal db' "P" = true
    /\ some_job_failed db' "P" = false
    /\ spec_I2 db' p = false.
Proof.
  eexists. eexists. split; [reflexivity|].
  split; [reflexivity|]. repeat split.
Qed.

(** C2 (amended).  For a pipeline that has at least one job, the completion
    check returns, and the status it leaves on the pipeline is: when every
    job is terminal, [failed] if some job is failed and [completed]
    otherwise (the jobs are not touched); when some job is not terminal and
    the deadlock query finds a job, [failed] whatever the jobs' statuses;
    in the remaining case the store is unchanged. *)
Theorem check_pipeline_completion_status (now : string) (db : Store)
  (pipeline_id : string) (s : pipeline_status) :
  pipeline_status_of db pipeline_id = Some s ->
  jobs_of db pipeline_id <> [] ->
  exists db',
    check_pipeline_completion now db pipeline_id = Some db'
    /\ pipeline_status_of db' pipeline_id
       = Some (if all_jobs_terminal db pipeline_id then
                 if some_job_failed db pipeline_id then p_failed
                 else p_completed
               else if some_job_deadlocked db pipeline_id then p_failed
               else s)
    /\ (all_jobs_terminal db pipeline_id = true -> jobs db' = jobs db)
    /\ (all_jobs_terminal db pipeline_id = false ->
        some_job_deadlocked db pipeline_id = false -> db' = db).
Proof.
  intros Hs Hne. eexists. split.
  - now apply check_pipeline_completion_cases.
  - destruct (all_jobs_terminal db pipeline_id).
    + split; [now apply pipeline_status_of_done with (s0 := s)|].
      split; [reflexivity|discriminate].
    + destruct (some_job_deadlocked db pipeline_id).
      * split.
        { rewrite pipeline_status_of_update_jobs.
          now apply pipeline_status_of_done with (s0 := s). }
        split; discriminate.
      * split; [assumption|]. split; [discriminate|reflexivity].
Qed.

Lemma check_pipeline_completion_status_witness :
  exists db',
    check_pipeline_completion t1 store_unsatisfiable_failure_edge "P" = Some db'
    /\ pipeline_status_of db' "P" = Some p_failed
    /\ (all_jobs_terminal store_unsatisfiable_failure_edge "P" = true ->
        jobs db' = jobs store_unsatisfiable_failure_edge)
    /\ (all_jobs_terminal store_unsatisfiable_failure_edge "P" = false ->
        some_job_deadlocked store_unsatisfiable_failure_edge "P" = false ->
        db' = store_unsatisfiable_failure_edge).
Proof.
  apply (check_pipeline_completion_status t1 store_unsatisfiable_failure_edge
           "P" p_running); [reflexivity|discriminate].
Defined.

(** C6 (counterexample).  The pending job [v] has one incoming edge, an
    always-edge from the skipped job [u].  In the specification's wording
    the edge is not potentially satisfiable and [v] is deadlocked; the
    deadlock query does not select [v], and the completion check leaves the
    pipeline running and [v] pending. *)
Lemma always_edge_on_skipped_not_deadlocked :
  spec_deadlocked store_always_on_skipped (a_job "v" "P" pending) = true
  /\ deadlocked_row store_always_on_skipped "P" (a_job "v" "P" pending) = false
  /\ check_pipeline_completion t1 store_always_on_skipped "P"
     = Some store_always_on_skipped
  /\ pipeline_status_of store_always_on_skipped "P" = Some p_running.
Proof. repeat split; reflexivity. Qed.

Lemma in_update_jobs (cond : Job.row -> bool) (f : Job.row -> Job.row)
  (db : Store) (j' : Job.row) :
  In j' (jobs (update_jobs cond f db)) <->
  exists j, In j (jobs db) /\ j' = if cond j then f j else j.
Proof.
  unfold update_jobs. simpl. rewrite in_map_iff.
  split; intros [j [H1 H2]]; exists j; split; auto.
Qed.

(** C6 (amended).  The deadlock query selects a job of the pipeline iff the
    job is pending, has at least one incoming dependency edge, and no
    incoming edge whose source job exists is potentially satisfiable, where
    an edge is potentially satisfiable iff its source is pending or running,
    or the edge is an always-edge (whatever the source's status), or it is a
    success-edge from a completed job or a failure-edge from a failed job.
    When the query selects some job, the completion check sets the pipeline
    [failed] and every pending job of the pipeline [skipped] with reason
    [pipeline_deadlocked], leaving no pending job in the pipeline. *)
Theorem deadlock_classification (now : string) (db : Store)
  (pipeline_id : string) :
  (forall j,
     deadlocked_row db pipeline_id j = true <->
     Job.pipeline_id j = pipeline_id
     /\ Job.status j = pending
     /\ (exists e, In e (job_dependencies db)
                   /\ JobDependency.job_id e = Job.job_id j)
     /\ (forall e u,
           In e (job_dependencies db) -> In u (jobs db) ->
           JobDependency.job_id e = Job.job_id j ->
           JobDependency.depends_on_job_id e = Job.job_id u ->
           ~ potentially_satisfiable (JobDependency.dependency_type e)
                                     (Job.status u)))
  /\ ((exists j, In j (jobs db) /\ deadlocked_row db pipeline_id j = true) ->
      exists db',
        check_pipeline_completion now db pipeline_id = Some db'
        /\ (forall p, In p (pipelines db') ->
              Pipeline.pipeline_id p = pipeline_id ->
              Pipeline.status p = p_failed)
        /\ (forall j, In j (jobs db) -> Job.pipeline_id j = pipeline_id ->
              Job.status j = pending ->
              exists j', In j' (jobs db')
                         /\ Job.job_id j' = Job.job_id j
                         /\ Job.status j' = skipped
                         /\ Job.termination_reason j'
                            = Some "pipeline_deadlocked")
        /\ (forall j', In j' (jobs db') -> Job.pipeline_id j' = pipeline_id ->
              Job.status j' <> pending)).
Proof.
  split.
  - intros j. unfold deadlocked_row, in_pipeline.
    rewrite !andb_true_iff, is_status_true, String.eqb_eq, negb_true_iff.
    split.
    + intros [[[Hp Hs] Hn] He]. repeat split; try assumption.
      * apply existsb_exists in He. destruct He as [e [He1 He2]].
        exists e. split; [assumption|now apply String.eqb_eq].
      * intros e u Hie Hu Hj Hon Hsat. apply could_allow_iff in Hsat.
        assert (existsb
                  (fun r => could_allow (JobDependency.dependency_type (fst r))
                                        (Job.status (snd r)))
                  (dependency_rows db (Job.job_id j)) = true) as Hx.
        { apply existsb_exists. exists (e, u). split; [|assumption].
          apply in_dependency_rows. simpl. auto. }
        congruence.
    + intros (Hp & Hs & [e [He1 He2]] & Hall). repeat split; try assumption.
      * apply not_true_is_false. intros Hx. apply existsb_exists in Hx.
        destruct Hx as [r [Hr Hc]]. apply in_dependency_rows in Hr.
        destruct Hr as (H1 & H2 & H3 & H4). apply could_allow_iff in Hc.
        exact (Hall (fst r) (snd r) H1 H2 H3 H4 Hc).
      * apply existsb_exists. exists e. split; [assumption|].
        now apply String.eqb_eq.
  - intros [j0 [Hin0 Hd0]].
    assert (some_job_deadlocked db pipeline_id = true) as Hdead.
    { apply existsb_exists. exists j0. auto. }
    pose proof (deadlocked_row_pending _ _ _ Hd0) as [Hp0 Hs0].
    assert (jobs_of db pipeline_id <> []) as Hne.
    { intros Hnil. assert (In j0 (jobs_of db pipeline_id)) as Hj
        by (apply filter_In; auto). rewrite Hnil in Hj. contradiction. }
    assert (all_jobs_terminal db pipeline_id = false) as Hnt.
    { apply not_true_is_false. intros Hall.
      unfold all_jobs_terminal in Hall. rewrite forallb_forall in Hall.
      assert (In j0 (jobs_of db pipeline_id)) as Hj by (apply filter_In; auto).
      apply Hall in Hj. rewrite Hs0 in Hj. discriminate. }
    eexists. split.
    { rewrite check_pipeline_completion_cases by assumption.
      rewrite Hnt, Hdead. reflexivity. }
    repeat split.
    + intros p Hp Hid. change (pipelines (update_jobs ?c ?f ?d))
        with (pipelines d) in Hp.
      apply in_update_pipelines in Hp. destruct Hp as [q [Hq Heq]].
      destruct (has_pipeline_id pipeline_id q) eqn:E; subst p; [reflexivity|].
      unfold has_pipeline_id in E. apply String.eqb_neq in E. contradiction.
    + intros j Hj Hid Hs.
      exists (mark_skipped now "pipeline_deadlocked" j).
      split; [|repeat split].
      apply in_update_jobs. exists j. split; [exact Hj|].
      unfold in_pipeline. apply String.eqb_eq in Hid. rewrite Hid.
      apply is_status_true in Hs. now rewrite Hs.
    + intros j' Hj' Hid Hs. apply in_update_jobs in Hj'.
      destruct Hj' as [j [Hj Heq]].
      destruct (in_pipeline pipeline_id j && is_status (Job.status j) pending)
        eqn:E; subst j'.
      * discriminate.
      * apply andb_false_iff in E. destruct E as [E|E].
        -- unfold in_pipeline in E. apply String.eqb_neq in E. contradiction.
        -- apply is_status_false in E. contradiction.
Qed.

(* ------------------------------------------------------------------ *)
(** ** Failure propagation *)

Lemma evolves_refl (db : Store) : evolves db db.
Proof.
  split; [reflexivity|].
  induction (jobs db) as [|a l IH]; constructor; [|exact IH].
  split; [reflexivity|now left].
Qed.

Lemma pending_id_true (db : Store) (job_id : string) :
  pending_id db job_id = true <->
  exists j, In j (jobs db) /\ Job.job_id j = job_id /\ Job.status j = pending.
Proof.
  unfold pending_id. rewrite existsb_exists.
  split; intros [j [Hin H]]; exists j; split; try assumption.
  - apply andb_true_iff in H. destruct H as [H1 H2].
    split; [now apply String.eqb_eq|now apply is_status_true].
  - destruct H as [H1 H2]. apply andb_true_iff.
    split; [now apply String.eqb_eq|now apply is_status_true].
Qed.

Lemma forall2_pending_back (db0 : Store) (l l' : list Job.row) (b : Job.row) :
  Forall2 (row_step db0) l l' -> In b l' -> Job.status b = pending -> In b l.
Proof.
  induction 1 as [|a b' l l' Hab _ IH]; simpl; [tauto|].
  intros [Hb|Hb] Hs.
  - subst b'. destruct Hab as [_ [Heq|[Hsk _]]]; [left; now subst|congruence].
  - right. now apply IH.
Qed.

(** Pending rows only disappear. *)
Lemma evolves_pending_id (db0 db' : Store) (job_id : string) :
  evolves db0 db' -> pending_id db' job_id = true ->
  pending_id db0 job_id = true.
Proof.
  intros [_ HF] H. apply pending_id_true in H. destruct H as [j (Hin & Hid & Hs)].
  apply pending_id_true. exists j. split; [|auto].
  eapply forall2_pending_back; eassumption.
Qed.

Lemma forall2_row_step_trans (db0 db1 : Store) (l0 l1 l2 : list Job.row) :
  (forall id, pending_id db1 id = true -> pending_id db0 id = true) ->
  Forall2 (row_step db0) l0 l1 -> Forall2 (row_step db1) l1 l2 ->
  Forall2 (row_step db0) l0 l2.
Proof.
  intros Hp H01. revert l2.
  induction H01 as [|a b l0 l1 Hab _ IH]; intros l2 H12; inversion H12; subst;
    constructor; [|now apply IH].
  destruct Hab as [Hid1 Hab]. destruct H1 as [Hid2 Hbc].
  split; [congruence|].
  destruct Hbc as [Hbc|[Hs Hpend]].
  - now subst.
  - right. split; [assumption|]. apply Hp. now rewrite <- Hid1.
Qed.

Lemma evolves_trans (db0 db1 db2 : Store) :
  evolves db0 db1 -> evolves db1 db2 -> evolves db0 db2.
Proof.
  intros H01 H12. split.
  - destruct H01 as [D1 _]. destruct H12 as [D2 _]. congruence.
  - apply (forall2_row_step_trans db0 db1 (jobs db0) (jobs db1) (jobs db2)).
    + intros id. now apply evolves_pending_id.
    + apply H01.
    + apply H12.
Qed.

(** Skipping a job whose id was pending in [db0]. *)
Lemma evolves_skip (db0 db1 : Store) (now dep_job_id : string) :
  evolves db0 db1 -> pending_id db0 dep_job_id = true ->
  evolves db0 (skip_dependency_failed now dep_job_id db1).
Proof.
  intros [HD HF] Hp. split; [exact HD|].
  unfold skip_dependency_failed, update_jobs. simpl.
  induction HF as [|a b l l' Hab _ IH]; simpl; constructor; [|exact IH].
  destruct Hab as [Hid Hab]. unfold has_job_id.
  destruct (String.eqb (Job.job_id b) dep_job_id) eqn:E.
  - split; [exact Hid|]. right. split; [reflexivity|].
    apply String.eqb_eq in E. congruence.
  - split; assumption.
Qed.

Lemma skip_not_pending (now dep_job_id : string) (db : Store) :
  pending_id (skip_dependency_failed now dep_job_id db) dep_job_id = false.
Proof.
  apply not_true_is_false. intros H. apply pending_id_true in H.
  destruct H as [j (Hin & Hid & Hs)].
  apply in_update_jobs in Hin. destruct Hin as [a [_ Heq]].
  destruct (has_job_id dep_job_id a) eqn:E; subst j.
  - discriminate.
  - unfold has_job_id in E. apply String.eqb_neq in E. contradiction.
Qed.

Lemma in_dependent_jobs (db : Store) (failed_job_id : string)
  (r : string * dependency_type) :
  In r (dependent_jobs db failed_job_id) <->
  exists jd, In jd (job_dependencies db)
             /\ JobDependency.depends_on_job_id jd = failed_job_id
             /\ r = (JobDependency.job_id jd, JobDependency.dependency_type jd)
             /\ pending_id db (JobDependency.job_id jd) = true.
Proof.
  unfold dependent_jobs. rewrite in_flat_map. split.
  - intros [jd [Hjd Hr]].
    destruct (String.eqb (JobDependency.depends_on_job_id jd) failed_job_id)
      eqn:E; [|contradiction].
    apply in_map_iff in Hr. destruct Hr as [j [Hr Hj]].
    exists jd. split; [assumption|]. split; [now apply String.eqb_eq|].
    split; [now symmetry|].
    unfold pending_id. apply existsb_exists. exists j.
    apply filter_In in Hj. exact Hj.
  - intros [jd (Hjd & Hon & Hr & Hp)]. exists jd. split; [assumption|].
    apply String.eqb_eq in Hon. rewrite Hon.
    unfold pending_id in Hp. apply existsb_exists in Hp.
    destruct Hp as [j [Hin Hj]]. apply in_map_iff. exists j.
    split; [now symmetry|]. apply filter_In. auto.
Qed.

Lemma propagate_fuel_unfold (fuel' : nat) (now : string) (db : Store)
  (failed_job_id : string) :
  propagate_fuel (S fuel') now db failed_job_id
  = propagate_loop fuel' now (dependent_jobs db failed_job_id) (Some db).
Proof. reflexivity. Qed.

Lemma propagate_loop_none (fuel' : nat) (now : string)
  (rows : list (string * dependency_type)) :
  propagate_loop fuel' now rows None = None.
Proof. induction rows as [|r rows IH]; [reflexivity|exact IH]. Qed.

Lemma propagate_loop_cons (fuel' : nat) (now : string)
  (r : string * dependency_type) (rows : list (string * dependency_type))
  (db1 : Store) :
  propagate_loop fuel' now (r :: rows) (Some db1)
  = propagate_loop fuel' now rows
      (match snd r with
       | success =>
           propagate_fuel fuel' now
             (skip_dependency_failed now (fst r) db1) (fst r)
       | _ => Some db1
       end).
Proof. reflexivity. Qed.

(** Propagation only skips rows whose id was pending when it started. *)
Lemma propagate_fuel_evolves (fuel : nat) (now : string) :
  forall db failed_job_id db',
    propagate_fuel fuel now db failed_job_id = Some db' -> evolves db db'.
Proof.
  induction fuel as [|fuel' IH]; intros db f db' H; [discriminate|].
  rewrite propagate_fuel_unfold in H.
  assert (forall rows acc,
             (forall r, In r rows -> pending_id db (fst r) = true) ->
             evolves db acc ->
             propagate_loop fuel' now rows (Some acc) = Some db' ->
             evolves db db') as Hloop.
  { induction rows as [|r rows IHr]; intros acc Hrows Hacc Hrun.
    - cbn in Hrun. now inversion Hrun; subst.
    - rewrite propagate_loop_cons in Hrun.
      assert (pending_id db (fst r) = true) as Hr by (apply Hrows; now left).
      destruct (snd r).
      + destruct (propagate_fuel fuel' now
                    (skip_dependency_failed now (fst r) acc) (fst r))
          as [acc'|] eqn:E.
        * apply (IHr acc'); [intros; apply Hrows; now right| |assumption].
          eapply evolves_trans; [|now apply (IH _ _ _ E)].
          now apply evolves_skip.
        * now rewrite propagate_loop_none in Hrun.
      + apply (IHr acc); auto. intros; apply Hrows; now right.
      + apply (IHr acc); auto. intros; apply Hrows; now right. }
  apply (Hloop (dependent_jobs db f) db); [|apply evolves_refl|assumption].
  intros r Hr. apply in_dependent_jobs in Hr.
  destruct Hr as [jd (_ & _ & Hr & Hp)]. now subst r.
Qed.

Lemma pending_rows_le (db0 : Store) (l l' : list Job.row) :
  Forall2 (row_step db0) l l' -> (pending_rows l' <= pending_rows l)%nat.
Proof.
  unfold pending_rows.
  induction 1 as [|a b l l' [_ Hab] _ IH]; simpl; [lia|].
  destruct Hab as [Heq|[Hs _]].
  - subst b. destruct (is_status (Job.status a) pending); simpl; lia.
  - rewrite Hs. simpl.
    destruct (is_status (Job.status a) pending); simpl; lia.
Qed.

Lemma pending_rows_lt (db0 : Store) (l l' : list Job.row) (d : string) :
  Forall2 (row_step db0) l l' ->
  (exists a, In a l /\ Job.job_id a = d /\ Job.status a = pending) ->
  (forall b, In b l' -> Job.job_id b = d -> Job.status b <> pending) ->
  (pending_rows l' < pending_rows l)%nat.
Proof.
  induction 1 as [|a b l l' Hab HF IH]; intros [x (Hin & Hid & Hs)] Hnone.
  - contradiction.
  - pose proof (pending_rows_le db0 l l' HF) as Hle.
    unfold pending_rows in *. simpl.
    destruct Hab as [Hidb Hab].
    destruct Hin as [Hx|Hx].
    + subst x. rewrite Hs. simpl.
      assert (Job.status b <> pending) as Hb
        by (apply Hnone; [now left|congruence]).
      apply is_status_false in Hb. rewrite Hb. lia.
    + assert (List.length (filter (fun j => is_status (Job.status j) pending) l')
              < List.length (filter (fun j => is_status (Job.status j) pending) l))%nat
        as Hlt.
      { apply IH; [now exists x|]. intros b0 Hb0. apply Hnone. now right. }
      destruct Hab as [Heq|[Hsk _]].
      * subst b. destruct (is_status (Job.status a) pending); simpl; lia.
      * rewrite Hsk. simpl.
        destruct (is_status (Job.status a) pending); simpl; lia.
Qed.

Lemma evolves_count_lt (db0 db' : Store) (d : string) :
  evolves db0 db' -> pending_id db0 d = true -> pending_id db' d = false ->
  (count_pending db' < count_pending db0)%nat.
Proof.
  intros [_ HF] Hp Hn. apply (pending_rows_lt db0 _ _ d HF).
  - now apply pending_id_true.
  - intros b Hb Hid Hs.
    assert (pending_id db' d = true) by (apply pending_id_true; eauto).
    congruence.
Qed.

(** The bounded recursion completes whenever the bound exceeds the number
    of pending rows. *)
Lemma propagate_fuel_total (now : string) (fuel : nat) :
  forall db failed_job_id,
    (count_pending db < fuel)%nat ->
    exists db', propagate_fuel fuel now db failed_job_id = Some db'.
Proof.
  induction fuel as [|fuel' IH]; intros db f Hlt; [lia|].
  rewrite propagate_fuel_unfold.
  assert (forall rows acc,
             (forall r, In r rows -> pending_id db (fst r) = true) ->
             evolves db acc ->
             exists db', propagate_loop fuel' now rows (Some acc) = Some db')
    as Hloop.
  { induction rows as [|r rows IHr]; intros acc Hrows Hacc.
    - now exists acc.
    - rewrite propagate_loop_cons.
      assert (pending_id db (fst r) = true) as Hr by (apply Hrows; now left).
      assert (forall r0, In r0 rows -> pending_id db (fst r0) = true) as Hrest
        by (intros; apply Hrows; now right).
      destruct (snd r); [|now apply IHr|now apply IHr].
      pose proof (evolves_skip db acc now (fst r) Hacc Hr) as Hskip.
      destruct (IH (skip_dependency_failed now (fst r) acc) (fst r))
        as [acc' Hacc'].
      { pose proof (evolves_count_lt db _ (fst r) Hskip Hr
                      (skip_not_pending now (fst r) acc)). lia. }
      rewrite Hacc'. apply IHr; [assumption|].
      eapply evolves_trans; [exact Hskip|].
      now apply (propagate_fuel_evolves fuel' now _ (fst r)). }
  apply Hloop; [|apply evolves_refl].
  intros r Hr. apply in_dependent_jobs in Hr.
  destruct Hr as [jd (_ & _ & Hr & Hp)]. now subst r.
Qed.

Lemma propagate_job_failure_runs (now : string) (db : Store)
  (failed_job_id : string) :
  propagate_fuel (S (count_pending db)) now db failed_job_id
  = Some (propagate_job_failure now db failed_job_id).
Proof.
  unfold propagate_job_failure.
  destruct (propagate_fuel_total now (S (count_pending db)) db failed_job_id)
    as [db' H]; [lia|]. now rewrite H.
Qed.

Lemma propagate_job_failure_evolves (now : string) (db : Store)
  (failed_job_id : string) :
  evolves db (propagate_job_failure now db failed_job_id).
Proof.
  eapply propagate_fuel_evolves. apply propagate_job_failure_runs.
Qed.

Lemma skip_pending_id (now d : string) (db : Store) (id : string) :
  pending_id (skip_dependency_failed now d db) id = true ->
  pending_id db id = true.
Proof.
  intros H. apply pending_id_true in H. destruct H as [j (Hin & Hid & Hs)].
  apply in_update_jobs in Hin. destruct Hin as [a [Ha Heq]].
  destruct (has_job_id d a); subst j; [discriminate|].
  apply pending_id_true. eauto.
Qed.

(** After the loop, no job reached through a success row is pending, and no
    pending job has appeared. *)
Lemma propagate_loop_processed (fuel' : nat) (now : string) :
  forall rows acc db',
    propagate_loop fuel' now rows (Some acc) = Some db' ->
    job_dependencies db' = job_dependencies acc
    /\ (forall id, pending_id db' id = true -> pending_id acc id = true)
    /\ (forall r, In r rows -> snd r = success ->
                  pending_id db' (fst r) = false).
Proof.
  induction rows as [|r rows IHr]; intros acc db' Hrun.
  - cbn in Hrun. inversion Hrun; subst. repeat split; auto. contradiction.
  - rewrite propagate_loop_cons in Hrun.
    destruct (snd r) eqn:Er.
    + destruct (propagate_fuel fuel' now
                  (skip_dependency_failed now (fst r) acc) (fst r))
        as [acc'|] eqn:E; [|now rewrite propagate_loop_none in Hrun].
      pose proof (propagate_fuel_evolves _ _ _ _ _ E) as Hev.
      destruct (IHr acc' db' Hrun) as (HD & Hmono & Hdone).
      split; [|split].
      * rewrite HD. now destruct Hev.
      * intros id Hid. apply (skip_pending_id now (fst r)).
        apply (evolves_pending_id _ acc'); auto.
      * intros r0 [Hr0|Hr0] Hs; [subst r0|now apply Hdone].
        apply not_true_is_false. intros Hp. apply Hmono in Hp.
        apply (evolves_pending_id _ _ _ Hev) in Hp.
        now rewrite skip_not_pending in Hp.
    + destruct (IHr acc db' Hrun) as (HD & Hmono & Hdone).
      repeat split; auto.
      intros r0 [Hr0|Hr0] Hs; [subst r0; congruence|now apply Hdone].
    + destruct (IHr acc db' Hrun) as (HD & Hmono & Hdone).
      repeat split; auto.
      intros r0 [Hr0|Hr0] Hs; [subst r0; congruence|now apply Hdone].
Qed.

Lemma propagate_loop_no_success (fuel' : nat) (now : string) (db : Store) :
  forall rows,
    (forall r, In r rows -> snd r <> success) ->
    propagate_loop fuel' now rows (Some db) = Some db.
Proof.
  induction rows as [|r rows IHr]; intros Hrows; [reflexivity|].
  rewrite propagate_loop_cons.
  assert (snd r <> success) as Hr by (apply Hrows; now left).
  destruct (snd r); [congruence| |]; apply IHr; intros; apply Hrows; now right.
Qed.

(** Once propagation from a job has run, no pending job depends on that job
    through a success-edge. *)
Lemma propagated_no_success_row (now : string) (db : Store)
  (failed_job_id : string) :
  forall r,
    In r (dependent_jobs (propagate_job_failure now db failed_job_id)
            failed_job_id) ->
    snd r <> success.
Proof.
  intros r Hr Hs.
  pose proof (propagate_job_failure_runs now db failed_job_id) as Hrun.
  rewrite propagate_fuel_unfold in Hrun.
  apply propagate_loop_processed in Hrun. destruct Hrun as (HD & Hmono & Hdone).
  apply in_dependent_jobs in Hr. destruct Hr as [jd (Hjd & Hon & Hr & Hp)].
  rewrite HD in Hjd.
  assert (In r (dependent_jobs db failed_job_id)) as Hin.
  { apply in_dependent_jobs. exists jd. auto. }
  apply Hdone in Hin; [|assumption]. subst r. simpl in Hin. congruence.
Qed.

(** C9.  Propagation from a job completes, and running it a second time
    from the same job (at any later time) leaves the store exactly as the
    first run left it: no job status changes, so the jobs skipped with
    reason [dependency_failed] are the same. *)
Theorem propagate_job_failure_idempotent (now now' : string) (db : Store)
  (failed_job_id : string) :
  propagate_fuel (S (count_pending db)) now db failed_job_id
  = Some (propagate_job_failure now db failed_job_id)
  /\ propagate_job_failure now' (propagate_job_failure now db failed_job_id)
       failed_job_id
     = propagate_job_failure now db failed_job_id.
Proof.
  split; [apply propagate_job_failure_runs|].
  set (db' := propagate_job_failure now db failed_job_id).
  unfold propagate_job_failure at 1. rewrite propagate_fuel_unfold.
  rewrite propagate_loop_no_success; [reflexivity|].
  apply propagated_no_success_row.
Qed.

(** Propagation leaves alone every job none of whose rows is pending. *)
Lemma evolves_select_job (db db' : Store) (job_id : string) :
  evolves db db' -> pending_id db job_id = false ->
  select_job db' job_id = select_job db job_id.
Proof.
  intros [_ HF] Hn. unfold select_job.
  induction HF as [|a b l l' [Hid Hab] _ IH]; [reflexivity|].
  simpl. unfold has_job_id at 1 3. rewrite Hid.
  destruct (String.eqb (Job.job_id a) job_id) eqn:E; [|exact IH].
  destruct Hab as [Heq|[_ Hp]]; [now subst|].
  apply String.eqb_eq in E. congruence.
Qed.

(* ------------------------------------------------------------------ *)
(** ** What artifact collection and the multiplier leave alone *)

Lemma stdout_final_collect_jobs (env : Env) (job_id out : string)
  (st : Store * nat) :
  jobs (fst (stdout_final_collect env job_id out st)) = jobs (fst st)
  /\ pipelines (fst (stdout_final_collect env job_id out st)) = pipelines (fst st).
Proof.
  unfold stdout_final_collect. destruct (is_empty out); split; reflexivity.
Qed.

Lemma git_diff_collect_jobs (env : Env) (job_id : string) (st : Store * nat) :
  jobs (fst (git_diff_collect env job_id st)) = jobs (fst st)
  /\ pipelines (fst (git_diff_collect env job_id st)) = pipelines (fst st).
Proof.
  unfold git_diff_collect. revert st.
  induction (git_changes env) as [|f l IH]; intros st; [split; reflexivity|].
  simpl. destruct (IH (insert_artifact
    {| Artifact.artifact_id := uuid4 env (snd st); Artifact.job_id := job_id;
       Artifact.type := "file"; Artifact.name := relative_path f;
       Artifact.description := "File modified/created by job";
       Artifact.file_path := Some (absolute_path f); Artifact.content := None;
       Artifact.size_bytes := st_size f; Artifact.created_at := now env |}
    (fst st), S (snd st))) as [H1 H2].
  split; [rewrite H1|rewrite H2]; reflexivity.
Qed.

(** Artifact collection writes to the artifacts table only. *)
Lemma collect_artifacts_jobs :
  forall (cfg : artifact_strategy_config) (env : Env) (job_id out : string)
         (st : Store * nat),
    jobs (fst (collect_artifacts cfg env job_id out st)) = jobs (fst st)
    /\ pipelines (fst (collect_artifacts cfg env job_id out st))
       = pipelines (fst st).
Proof.
  fix IH 1. intros cfg env job_id out st. destruct cfg as [| |l|t].
  - apply stdout_final_collect_jobs.
  - apply git_diff_collect_jobs.
  - simpl. revert st. induction l as [|c l IHl]; intros st.
    + split; reflexivity.
    + simpl. destruct (IHl (collect_artifacts c env job_id out st)) as [H1 H2].
      destruct (IH c env job_id out st) as [H3 H4].
      split; congruence.
  - apply stdout_final_collect_jobs.
Qed.

Lemma find_app_some {A : Type} (f : A -> bool) (l l' : list A) (x : A) :
  find f l = Some x -> find f (l ++ l') = Some x.
Proof.
  induction l as [|a l IH]; simpl; [discriminate|].
  destruct (f a); auto.
Qed.

(** The jobs written by the multiplier loop for one template job. *)
Lemma spawn_items_jobs (env : Env) (template_job : TemplateJob.row)
  (prompt_template pipeline_id stage_id original_prompt workspace_path
   source_job_id : string) :
  forall items idx st,
    let r := spawn_items env template_job prompt_template pipeline_id stage_id
               original_prompt workspace_path source_job_id idx items st in
    List.length (snd r) = List.length items
    /\ pipelines (fst (fst r)) = pipelines (fst st)
    /\ exists extra,
         jobs (fst (fst r)) = (jobs (fst st) ++ extra)%list
         /\ List.length extra = List.length items
         /\ Forall (fun j =>
                      Job.template_job_id j
                      = Some (TemplateJob.template_job_id template_job)
                      /\ Job.parent_job_id j = Some source_job_id
                      /\ Job.status j = pending)
                   extra.
Proof.
  induction items as [|item rest IH]; intros idx st; cbn zeta.
  - simpl. split; [reflexivity|]. split; [reflexivity|].
    exists []. rewrite app_nil_r. auto.
  - cbn [spawn_items]. cbv zeta. cbn [fst snd].
    match goal with
    | |- context [spawn_items _ _ _ _ _ _ _ _ ?i rest ?s] =>
        specialize (IH i s); cbv zeta in IH;
        destruct IH as (Hlen & Hpip & extra & Hjobs & Hel & Hall)
    end.
    split; [simpl; now rewrite Hlen|]. split; [now rewrite Hpip|].
    eexists (_ :: extra). split; [|split].
    + rewrite Hjobs. cbn [fst insert_job_dependency insert_job with_jobs
                            with_job_dependencies jobs].
      rewrite <- app_assoc. reflexivity.
    + simpl. now rewrite Hel.
    + constructor; [|exact Hall]. repeat split.
Qed.

Lemma spawn_multiplied_jobs_jobs (env : Env) (st : Store * nat)
  (source_job_id : string) (template_job : TemplateJob.row)
  (cfg : multiplier_config)
  (pipeline_id stage_id original_prompt workspace_path : string) :
  let r := spawn_multiplied_jobs env st source_job_id template_job cfg
             pipeline_id stage_id original_prompt workspace_path in
  pipelines (fst (fst r)) = pipelines (fst st)
  /\ exists extra,
       jobs (fst (fst r)) = (jobs (fst st) ++ extra)%list
       /\ List.length extra = List.length (snd r)
       /\ Forall (fun j =>
                    Job.template_job_id j
                    = Some (TemplateJob.template_job_id template_job)
                    /\ Job.parent_job_id j = Some source_job_id
                    /\ Job.status j = pending)
                 extra.
Proof.
  cbv zeta. unfold spawn_multiplied_jobs.
  destruct (tasks_content (fst st) source_job_id cfg) as [content|].
  2:{ split; [reflexivity|]. exists []. rewrite app_nil_r. auto. }
  destruct (parse_artifact_content env content
              (get (parse_strategy cfg) "json_array")) as [|item items].
  { split; [reflexivity|]. exists []. rewrite app_nil_r. auto. }
  match goal with
  | |- context [spawn_items ?e ?t ?p ?pi ?si ?op ?wp ?sj ?i ?its ?s] =>
      pose proof (spawn_items_jobs e t p pi si op wp sj its i s) as H;
      cbv zeta in H; destruct H as (Hlen & Hpip & extra & Hjobs & Hel & Hall)
  end.
  split; [exact Hpip|]. exists extra. rewrite Hlen. auto.
Qed.

Lemma already_spawned_pos (db : Store) (parent_job_id template_job_id : string) :
  (already_spawned db parent_job_id template_job_id >? 0) = true <->
  exists j, In j (jobs db)
            /\ Job.parent_job_id j = Some parent_job_id
            /\ Job.template_job_id j = Some template_job_id.
Proof.
  unfold already_spawned, sql_count. rewrite gtb_length_pos, existsb_exists.
  split; intros [j [Hin H]]; exists j; split; try assumption.
  - apply andb_true_iff in H. destruct H as [H1 H2]. unfold opt_eqb in *.
    destruct (Job.parent_job_id j); [|discriminate].
    destruct (Job.template_job_id j); [|discriminate].
    apply String.eqb_eq in H1, H2. now subst.
  - destruct H as [H1 H2]. rewrite H1, H2. simpl.
    now rewrite !String.eqb_refl.
Qed.

(** One turn of the loop over the multiplier template jobs: it appends jobs
    carrying the turn's template job and the completed parent, and none
    when such a job is already stored. *)
Lemma multiplier_step_jobs (env : Env)
  (completed_job_id completed_template_job_id pipeline_id original_prompt : string)
  (acc : (Store * nat) * Z) (row : TemplateJob.row * Z) :
  let acc' := multiplier_step env completed_job_id completed_template_job_id
                pipeline_id original_prompt acc row in
  pipelines (fst (fst acc')) = pipelines (fst (fst acc))
  /\ exists extra,
       jobs (fst (fst acc')) = (jobs (fst (fst acc)) ++ extra)%list
       /\ Forall (fun j =>
                    Job.template_job_id j
                    = Some (TemplateJob.template_job_id (fst row))
                    /\ Job.parent_job_id j = Some completed_job_id
                    /\ Job.status j = pending)
                 extra
       /\ ((already_spawned (fst (fst acc)) completed_job_id
              (TemplateJob.template_job_id (fst row)) >? 0) = true ->
           extra = [] /\ acc' = acc)
       /\ snd acc' = snd acc + Z.of_nat (List.length extra).
Proof.
  cbv zeta. unfold multiplier_step.
  assert (pipelines (fst (fst acc)) = pipelines (fst (fst acc))
          /\ exists extra,
               jobs (fst (fst acc)) = (jobs (fst (fst acc)) ++ extra)%list
               /\ Forall (fun j =>
                            Job.template_job_id j
                            = Some (TemplateJob.template_job_id (fst row))
                            /\ Job.parent_job_id j = Some completed_job_id
                            /\ Job.status j = pending)
                         extra
               /\ ((already_spawned (fst (fst acc)) completed_job_id
                      (TemplateJob.template_job_id (fst row)) >? 0) = true ->
                   extra = [] /\ acc = acc)
               /\ snd acc = snd acc + Z.of_nat (List.length extra)) as Hsame.
  { split; [reflexivity|]. exists []. rewrite app_nil_r. simpl.
    repeat split; auto. lia. }
  destruct (TemplateJob.job_multiplier (fst row)) as [cfg|]; [|exact Hsame].
  destruct (truthy (source_template_job_id cfg)) as [src|]; [|exact Hsame].
  destruct (negb (String.eqb src completed_template_job_id)); [exact Hsame|].
  destruct (already_spawned (fst (fst acc)) completed_job_id
              (TemplateJob.template_job_id (fst row)) >? 0) eqn:Ea;
    [exact Hsame|].
  destruct (find _ (stages (fst (fst acc)))) as [stage|]; [|exact Hsame].
  pose proof (spawn_multiplied_jobs_jobs env (fst acc) completed_job_id
                (fst row) cfg pipeline_id (Stage.stage_id stage)
                original_prompt "./") as H.
  cbv zeta in H. destruct H as (Hpip & extra & Hjobs & Hlen & Hall).
  cbn [fst snd]. split; [exact Hpip|]. exists extra.
  repeat split; try assumption; try discriminate. now rewrite Hlen.
Qed.

(** The multiplier check appends job rows and spares the pipelines. *)
Lemma check_and_spawn_appends (env : Env) (st : Store * nat)
  (completed_job_id : string) :
  let r := check_and_spawn_multiplied_jobs env st completed_job_id in
  pipelines (fst (fst r)) = pipelines (fst st)
  /\ exists extra, jobs (fst (fst r)) = (jobs (fst st) ++ extra)%list.
Proof.
  cbv zeta. unfold check_and_spawn_multiplied_jobs.
  assert (pipelines (fst st) = pipelines (fst st)
          /\ exists extra, jobs (fst st) = (jobs (fst st) ++ extra)%list)
    as Hsame by (split; [reflexivity|]; exists []; now rewrite app_nil_r).
  destruct (select_job (fst st) completed_job_id) as [cj|]; [|exact Hsame].
  destruct (match select_pipeline (fst st) (Job.pipeline_id cj) with
            | Some p => truthy (Pipeline.template_id p)
            | None => None
            end) as [template_id|]; [|exact Hsame].
  destruct (truthy (Job.template_job_id cj)) as [ct|]; [|exact Hsame].
  generalize (multiplier_template_jobs (fst st) template_id).
  intros rows.
  assert (forall acc,
             pipelines (fst (fst acc)) = pipelines (fst st) ->
             (exists extra,
                 jobs (fst (fst acc)) = (jobs (fst st) ++ extra)%list) ->
             let r := fold_left
                        (multiplier_step env completed_job_id ct
                           (Job.pipeline_id cj)
                           match select_pipeline (fst st) (Job.pipeline_id cj) with
                           | Some p => Pipeline.original_prompt p
                           | None => ""
                           end) rows acc in
             pipelines (fst (fst r)) = pipelines (fst st)
             /\ exists extra,
                  jobs (fst (fst r)) = (jobs (fst st) ++ extra)%list) as Hfold.
  { induction rows as [|row rows IH]; intros acc Hp [extra He]; cbv zeta.
    - simpl. eauto.
    - simpl. apply IH.
      + etransitivity; [apply multiplier_step_jobs|exact Hp].
      + destruct (multiplier_step_jobs env completed_job_id ct
                    (Job.pipeline_id cj)
                    match select_pipeline (fst st) (Job.pipeline_id cj) with
                    | Some p => Pipeline.original_prompt p
                    | None => ""
                    end acc row) as (_ & extra' & Hj & _).
        exists (extra ++ extra')%list. rewrite Hj, He. now rewrite app_assoc. }
  apply Hfold; [reflexivity|]. exists []. now rewrite app_nil_r.
Qed.

(** C8.  Once some job is stored whose parent is the completed job and
    whose template job is [t], the multiplier check for that completed job
    adds no job for the pair: every row it appends differs from the pair in
    its parent or in its template job. *)
Theorem multiplier_spawns_once (env : Env) (st : Store * nat)
  (completed_job_id t : string) :
  (exists j, In j (jobs (fst st))
             /\ Job.parent_job_id j = Some completed_job_id
             /\ Job.template_job_id j = Some t) ->
  exists extra,
    jobs (fst (fst (check_and_spawn_multiplied_jobs env st completed_job_id)))
    = (jobs (fst st) ++ extra)%list
    /\ Forall (fun j' => ~ (Job.parent_job_id j' = Some completed_job_id
                            /\ Job.template_job_id j' = Some t))
              extra.
Proof.
  intros [child (Hin & Hpar & Htpl)].
  unfold check_and_spawn_multiplied_jobs.
  assert (exists extra,
             jobs (fst st) = (jobs (fst st) ++ extra)%list
             /\ Forall (fun j' => ~ (Job.parent_job_id j' = Some completed_job_id
                                     /\ Job.template_job_id j' = Some t))
                       extra)
    as Hsame by (exists []; now rewrite app_nil_r).
  destruct (select_job (fst st) completed_job_id) as [cj|]; [|exact Hsame].
  destruct (match select_pipeline (fst st) (Job.pipeline_id cj) with
            | Some p => truthy (Pipeline.template_id p)
            | None => None
            end) as [template_id|]; [|exact Hsame].
  destruct (truthy (Job.template_job_id cj)) as [ct|]; [|exact Hsame].
  generalize (multiplier_template_jobs (fst st) template_id). intros rows.
  generalize (match select_pipeline (fst st) (Job.pipeline_id cj) with
              | Some p => Pipeline.original_prompt p
              | None => ""
              end). intros op.
  assert (forall acc,
             (exists extra,
                 jobs (fst (fst acc)) = (jobs (fst st) ++ extra)%list
                 /\ Forall (fun j' =>
                              ~ (Job.parent_job_id j' = Some completed_job_id
                                 /\ Job.template_job_id j' = Some t))
                           extra) ->
             exists extra,
               jobs (fst (fst (fold_left
                                 (multiplier_step env completed_job_id ct
                                    (Job.pipeline_id cj) op) rows acc)))
               = (jobs (fst st) ++ extra)%list
               /\ Forall (fun j' =>
                            ~ (Job.parent_job_id j' = Some completed_job_id
                               /\ Job.template_job_id j' = Some t))
                         extra) as Hfold.
  { induction rows as [|row rows IH]; intros acc [extra [He Hall]].
    - simpl. eauto.
    - simpl. apply IH.
      destruct (multiplier_step_jobs env completed_job_id ct
                  (Job.pipeline_id cj) op acc row)
        as (_ & extra' & Hj & Hall' & Hguard & _).
      exists (extra ++ extra')%list. split.
      + rewrite Hj, He. now rewrite app_assoc.
      + apply Forall_app. split; [exact Hall|].
        destruct (String.eqb (TemplateJob.template_job_id (fst row)) t) eqn:E.
        * apply String.eqb_eq in E.
          destruct Hguard as [Hnil _]; [|now rewrite Hnil].
          apply already_spawned_pos. exists child. rewrite E.
          split; [|auto]. rewrite He. apply in_or_app. now left.
        * apply String.eqb_neq in E.
          eapply Forall_impl; [|exact Hall']. cbv beta.
          intros j' (Ht & _ & _) [_ Ht']. congruence. }
  apply Hfold. exists []. now rewrite app_nil_r.
Qed.

(** Fan-out of the planner's list, and the second check that spawns
    nothing. *)
Example multiplier_fan_out :
  let env := scenario_env quiet_shell in
  let r := check_and_spawn_multiplied_jobs env (store_planner three_tasks, O) "p" in
  snd r = 3
  /\ map Job.prompt (jobs (fst (fst r))) = ["plan X"; "do t1"; "do t2"; "do t3"]
  /\ map Job.parent_job_id (jobs (fst (fst r)))
     = [None; Some "p"; Some "p"; Some "p"]
  /\ job_dependencies (fst (fst r))
     = [an_edge "job-0" "p" success; an_edge "job-1" "p" success;
        an_edge "job-2" "p" success]
  /\ check_and_spawn_multiplied_jobs env (fst r) "p" = (fst r, 0).
Proof. repeat split; reflexivity. Qed.

Lemma multiplier_spawns_once_witness :
  let st := fst (check_and_spawn_multiplied_jobs (scenario_env quiet_shell)
                   (store_planner three_tasks, O) "p") in
  exists extra,
    jobs (fst (fst (check_and_spawn_multiplied_jobs
                      (scenario_env quiet_shell) st "p")))
    = (jobs (fst st) ++ extra)%list
    /\ Forall (fun j' => ~ (Job.parent_job_id j' = Some "p"
                            /\ Job.template_job_id j' = Some "tj-w"))
              extra.
Proof.
  apply (multiplier_spawns_once (scenario_env quiet_shell)
           (fst (check_and_spawn_multiplied_jobs (scenario_env quiet_shell)
                   (store_planner three_tasks, O) "p")) "p" "tj-w").
  eexists. split; [right; left; reflexivity|]. split; reflexivity.
Defined.

(** C7 (counterexample).  The planner's output [oops] is not valid JSON: the
    decoder fails on it, and the multiplier spawns one child job, whose
    prompt is built from the whole output. *)
Lemma unparsable_output_spawns_a_child :
  let env := scenario_env quiet_shell in
  let r := check_and_spawn_multiplied_jobs env (store_planner "oops", O) "p" in
  json_loads env (strip "oops") = None
  /\ snd r = 1
  /\ map Job.prompt (jobs (fst (fst r))) = ["plan X"; "do oops"]
  /\ snd r <> 0.
Proof. repeat split; try reflexivity. discriminate. Qed.

Lemma truthy_some (o : option string) (s : string) :
  truthy o = Some s -> o = Some s /\ is_empty s = false.
Proof.
  unfold truthy. destruct o as [x|]; [|discriminate].
  destruct (is_empty x) eqn:E; [discriminate|].
  intros H. inversion H; subst. auto.
Qed.

Lemma tasks_content_nonempty (db : Store) (source_job_id : string)
  (cfg : multiplier_config) (content : string) :
  tasks_content db source_job_id cfg = Some content -> is_empty content = false.
Proof.
  unfold tasks_content. destruct (source_type cfg).
  - destruct (select_max _ _) as [a|]; [|discriminate].
    intros H. now apply truthy_some in H.
  - destruct (select_max _ _) as [a|]; [|discriminate].
    destruct (find _ _) as [x|]; [|discriminate].
    intros H. now apply truthy_some in H.
Qed.

(** Inside [spawn_multiplied_jobs]: when the items source holds a text
    that [json.loads] rejects, under parse strategy [json_array] (also when
    it is the default), the whole text is the single item and one child job
    is inserted with one success-edge on the source job. *)
Lemma spawn_unparsable_json (env : Env) (st : Store * nat)
  (source_job_id : string) (template_job : TemplateJob.row)
  (cfg : multiplier_config)
  (pipeline_id stage_id original_prompt workspace_path content : string) :
  tasks_content (fst st) source_job_id cfg = Some content ->
  get (parse_strategy cfg) "json_array" = "json_array" ->
  json_loads env (strip content) = None ->
  let r := spawn_multiplied_jobs env st source_job_id template_job cfg
             pipeline_id stage_id original_prompt workspace_path in
  let child :=
    multiplied_job env template_job (uuid4 env (snd st)) pipeline_id stage_id
      (item_prompt (get (prompt_template cfg) "{{item}}") content
         original_prompt O)
      workspace_path source_job_id in
  snd r = [uuid4 env (snd st)]
  /\ jobs (fst (fst r)) = (jobs (fst st) ++ [child])%list
  /\ job_dependencies (fst (fst r))
     = (job_dependencies (fst st)
        ++ [{| JobDependency.job_id := uuid4 env (snd st);
               JobDependency.depends_on_job_id := source_job_id;
               JobDependency.dependency_type := success |}])%list
  /\ Job.status child = pending
  /\ Job.parent_job_id child = Some source_job_id
  /\ snd (fst r) = S (snd st).
Proof.
  intros Hsrc Hstrategy Hfail. cbv zeta. unfold spawn_multiplied_jobs.
  rewrite Hsrc, Hstrategy. unfold parse_artifact_content.
  rewrite (tasks_content_nonempty _ _ _ _ Hsrc), Hfail. cbn.
  repeat split.
Qed.

(** C7 (amended).  The completed job comes from a template whose only
    multiplier names the job's template job as source; no child of the pair
    is stored yet and the stage of the multiplier's order exists in the
    pipeline.  When the items source is present and non-empty and
    [json.loads] rejects it, under parse strategy [json_array] (also when it
    is the default), the multiplier check treats the whole text as a single
    item: it reports 1, draws one uuid and appends exactly one job row,
    pending, with the completed job as parent, placed in that stage, whose
    prompt is the prompt template with the text for the item, the pipeline's
    prompt, and index 0, together with one success-edge on the completed
    job. *)
Theorem unparsable_json_is_one_item (env : Env) (st : Store * nat)
  (completed_job_id : string) (cj : Job.row) (p : Pipeline.row)
  (template_id ct : string) (template_job : TemplateJob.row) (order : Z)
  (cfg : multiplier_config) (stage : Stage.row) (content : string) :
  select_job (fst st) completed_job_id = Some cj ->
  select_pipeline (fst st) (Job.pipeline_id cj) = Some p ->
  Pipeline.template_id p = Some template_id ->
  is_empty template_id = false ->
  Job.template_job_id cj = Some ct ->
  is_empty ct = false ->
  multiplier_template_jobs (fst st) template_id = [(template_job, order)] ->
  TemplateJob.job_multiplier template_job = Some cfg ->
  source_template_job_id cfg = Some ct ->
  already_spawned (fst st) completed_job_id
    (TemplateJob.template_job_id template_job) = 0 ->
  find (fun s => String.eqb (Stage.pipeline_id s) (Job.pipeline_id cj)
                 && (Stage.stage_order s =? order))
       (stages (fst st)) = Some stage ->
  tasks_content (fst st) completed_job_id cfg = Some content ->
  get (parse_strategy cfg) "json_array" = "json_array" ->
  json_loads env (strip content) = None ->
  let r := check_and_spawn_multiplied_jobs env st completed_job_id in
  snd r = 1
  /\ snd (fst r) = S (snd st)
  /\ job_dependencies (fst (fst r))
     = (job_dependencies (fst st)
        ++ [{| JobDependency.job_id := uuid4 env (snd st);
               JobDependency.depends_on_job_id := completed_job_id;
               JobDependency.dependency_type := success |}])%list
  /\ exists child,
       jobs (fst (fst r)) = (jobs (fst st) ++ [child])%list
       /\ Job.job_id child = uuid4 env (snd st)
       /\ Job.prompt child
          = replace "{{index}}" "0"
              (replace "{{original_prompt}}" (Pipeline.original_prompt p)
                 (replace "{{item}}" content
                    (get (prompt_template cfg) "{{item}}")))
       /\ Job.status child = pending
       /\ Job.parent_job_id child = Some completed_job_id
       /\ Job.template_job_id child
          = Some (TemplateJob.template_job_id template_job)
       /\ Job.pipeline_id child = Job.pipeline_id cj
       /\ Job.stage_id child = Stage.stage_id stage.
Proof.
  intros Hcj Hp Htid Htne Hct Hcne Hrows Hm Hsrc Hnone Hstage Hcontent
         Hstrategy Hfail.
  destruct (spawn_unparsable_json env st completed_job_id template_job cfg
              (Job.pipeline_id cj) (Stage.stage_id stage)
              (Pipeline.original_prompt p) "./" content
              Hcontent Hstrategy Hfail)
    as (Hids & Hjobs & Hdeps & _ & _ & Hk).
  cbv zeta in Hids, Hjobs, Hdeps, Hk.
  assert (check_and_spawn_multiplied_jobs env st completed_job_id
          = (fst (spawn_multiplied_jobs env st completed_job_id template_job
                    cfg (Job.pipeline_id cj) (Stage.stage_id stage)
                    (Pipeline.original_prompt p) "./"), 1)) as Hrun.
  { unfold check_and_spawn_multiplied_jobs. cbv zeta.
    rewrite Hcj, Hp, Htid, Hct. unfold truthy. rewrite Htne, Hcne.
    rewrite Hrows. cbn [fold_left].
    unfold multiplier_step. cbv zeta. cbn [fst snd].
    rewrite Hm, Hsrc. unfold truthy. rewrite Hcne, String.eqb_refl.
    cbn [negb]. rewrite Hnone. cbn [Z.gtb Z.compare]. rewrite Hstage.
    rewrite Hids. reflexivity. }
  cbv zeta. rewrite Hrun. cbn [fst snd].
  split; [reflexivity|]. split; [exact Hk|].
  split; [exact Hdeps|]. eexists. split; [exact Hjobs|].
  repeat split.
Qed.

Lemma unparsable_json_is_one_item_witness :
  let env := scenario_env quiet_shell in
  let r := check_and_spawn_multiplied_jobs env (store_planner "oops", O) "p" in
  snd r = 1
  /\ snd (fst r) = 1%nat
  /\ job_dependencies (fst (fst r))
     = ([] ++ [an_edge "job-0" "p" success])%list
  /\ exists child,
       jobs (fst (fst r)) = ([planner_job] ++ [child])%list
       /\ Job.job_id child = "job-0"
       /\ Job.prompt child
          = replace "{{index}}" "0"
              (replace "{{original_prompt}}" "Test pipeline"
                 (replace "{{item}}" "oops" "do {{item}}"))
       /\ Job.status child = pending
       /\ Job.parent_job_id child = Some "p"
       /\ Job.template_job_id child = Some "tj-w"
       /\ Job.pipeline_id child = "P"
       /\ Job.stage_id child = "stage-2".
Proof.
  apply (unparsable_json_is_one_item (scenario_env quiet_shell)
           (store_planner "oops", O) "p" planner_job
           (a_pipeline "P" (Some "tpl") p_running) "tpl" "tj-p"
           (worker_template "tj-w" (Some worker_multiplier)) 2
           worker_multiplier
           {| Stage.stage_id := "stage-2"; Stage.pipeline_id := "P";
              Stage.stage_order := 2 |}
           "oops");
    reflexivity.
Defined.

(* ------------------------------------------------------------------ *)
(** ** Executor *)

Lemma select_job_ext (db db' : Store) (job_id : string) :
  jobs db' = jobs db -> select_job db' job_id = select_job db job_id.
Proof. unfold select_job. now intros ->. Qed.

Lemma select_job_start_job (env : Env) (db : Store) (job_id : string)
  (j : Job.row) :
  select_job db job_id = Some j ->
  exists j1,
    select_job (start_job env db job_id) job_id = Some (mark_running (now env) j1)
    /\ (j1 = j \/ exists p, j1 = Job.set_prompt p j).
Proof.
  intros Hsel. unfold start_job. rewrite select_job_update by reflexivity.
  rewrite Hsel. unfold retry_with_context.
  destruct (Job.retry_strategy j) as [cfg|];
    [|rewrite Hsel; exists j; auto].
  destruct ((effective_retry_count (Some j) >? 0) && include_context cfg);
    [|rewrite Hsel; exists j; auto].
  destruct (truthy (Job.job_output j)) as [previous_output|];
    [|rewrite Hsel; exists j; auto].
  rewrite select_job_update by reflexivity. rewrite Hsel. simpl.
  eexists. split; [reflexivity|]. right. eexists. reflexivity.
Qed.

Lemma pending_id_update (db : Store) (job_id : string)
  (f : Job.row -> Job.row) :
  (forall j, Job.status (f j) <> pending) ->
  pending_id (update_jobs (has_job_id job_id) f db) job_id = false.
Proof.
  intros Hf. apply not_true_is_false. intros H. apply pending_id_true in H.
  destruct H as [j (Hin & Hid & Hs)].
  apply in_update_jobs in Hin. destruct Hin as [a [_ Heq]].
  destruct (has_job_id job_id a) eqn:E; subst j.
  - now apply (Hf a).
  - unfold has_job_id in E. apply String.eqb_neq in E. contradiction.
Qed.

(** What follows the final write does not touch the finished job's row. *)
Lemma select_job_after_finish (env : Env) (status : job_status)
  (cfg : option artifact_strategy_config) (job_id log : string)
  (st : Store * nat) (x : Job.row) :
  select_job (fst st) job_id = Some x ->
  pending_id (fst st) job_id = false ->
  select_job (fst (after_finish env status cfg job_id log st)) job_id = Some x.
Proof.
  intros Hsel Hnp. unfold after_finish.
  set (st1 := match status, cfg with
              | completed, Some c => collect_artifacts c env job_id log st
              | _, _ => st
              end).
  assert (jobs (fst st1) = jobs (fst st)) as H1.
  { unfold st1. destruct status; try reflexivity.
    destruct cfg; [apply collect_artifacts_jobs|reflexivity]. }
  assert (select_job (fst st1) job_id = Some x) as Hsel1
    by (now rewrite (select_job_ext _ _ _ H1)).
  set (st2 := match status with
              | completed =>
                  fst (check_and_spawn_multiplied_jobs env st1 job_id)
              | _ => st1
              end).
  destruct status; try exact Hsel1.
  - subst st2.
    destruct (check_and_spawn_appends env st1 job_id) as (_ & extra & He).
    cbv zeta in He. unfold select_job. rewrite He.
    now apply find_app_some.
  - subst st2. cbn [fst].
    rewrite (evolves_select_job (fst st1)).
    + exact Hsel1.
    + apply propagate_job_failure_evolves.
    + unfold pending_id. rewrite H1. exact Hnp.
Qed.

(** C3 (failing input).  The command of the pending job [j] prints two
    lines, each ended by a newline, and exits with code 0.  The run makes the
    job [completed] with termination reason [success], but the output it
    stores is not the captured stream: every line read is right-stripped
    before the lines are joined, so the final newline is lost. *)
Theorem run_job_output_not_verbatim :
  let env := scenario_env two_line_shell in
  let r := run_job env (store_one_pending, O) "j" in
  shell env "echo test" = exited two_lines 0
  /\ option_map Job.status (select_job (fst r) "j") = Some completed
  /\ option_map Job.termination_reason (select_job (fst r) "j")
     = Some (Some "success")
  /\ option_map Job.job_output (select_job (fst r) "j")
     = Some (Some ("Job output line 1" ++ nl ++ "Job output line 2"))
  /\ option_map Job.job_output (select_job (fst r) "j")
     <> Some (Some two_lines).
Proof. repeat split; try reflexivity. discriminate. Qed.

(** C4 (failing input).  The job's retry strategy has [include_context]
    set and the context instruction [RESUME:].  Its first attempt prints
    [step1] and exits with code 1: the retry branch re-queues the job with
    retry count 1 and writes no output, so the stored output is still NULL.
    When the second attempt starts, the guard on the previous output fails
    and the stored prompt is still the original one; it does not begin with
    the context instruction.  The third attempt finds the same.  The last
    conjunct is the prompt the rewrite stores when a previous output is
    there, which no attempt ever stores before a retry. *)
Theorem second_attempt_prompt_not_augmented :
  let env := scenario_env failing_shell in
  let st1 := run_job env (store_resume 0 None, O) "r" in
  let db2 := start_job env (fst st1) "r" in
  let st2 := run_job env st1 "r" in
  let db3 := start_job env (fst st2) "r" in
  option_map Job.status (select_job (fst st1) "r") = Some pending
  /\ option_map Job.retry_count (select_job (fst st1) "r") = Some (Some 1)
  /\ option_map Job.job_output (select_job (fst st1) "r") = Some None
  /\ option_map Job.status (select_job db2 "r") = Some running
  /\ option_map Job.prompt (select_job db2 "r") = Some "do the task"
  /\ prefix ("RESUME:" ++ nl) "do the task" = false
  /\ option_map Job.status (select_job (fst st2) "r") = Some pending
  /\ option_map Job.retry_count (select_job (fst st2) "r") = Some (Some 2)
  /\ option_map Job.job_output (select_job (fst st2) "r") = Some None
  /\ option_map Job.prompt (select_job db3 "r") = Some "do the task"
  /\ option_map Job.prompt
       (select_job (start_job env (store_resume 1 (Some "step1")) "r") "r")
     = Some ("RESUME:" ++ nl ++ "=== PREVIOUS ATTEMPT OUTPUT ===" ++ nl
             ++ "step1" ++ nl ++ nl ++ "=== ORIGINAL TASK ===" ++ nl
             ++ "do the task").
Proof. repeat split; reflexivity. Qed.

(** The stored prompt of the retry-with-context scenario, when the previous
    output is present. *)
Example resumed_prompt :
  option_map Job.prompt
    (select_job (start_job (scenario_env failing_shell)
                   (store_resume 1 (Some "step1")) "r") "r")
  = Some ("RESUME:" ++ nl ++ "=== PREVIOUS ATTEMPT OUTPUT ===" ++ nl ++ "step1"
          ++ nl ++ nl ++ "=== ORIGINAL TASK ===" ++ nl ++ "do the task").
Proof. reflexivity. Qed.

(** The chain of the propagation tests: [job-2] depends on [job-1] and
    [job-3] on [job-2], both through success-edges; [job-1] has failed. *)
Example propagation_chain :
  let db := a_store [a_pipeline "P" None p_running]
              [a_job "job-1" "P" failed; a_job "job-2" "P" pending;
               a_job "job-3" "P" pending]
              [an_edge "job-2" "job-1" success; an_edge "job-3" "job-2" success] in
  map (fun j => (Job.status j, Job.termination_reason j))
      (jobs (propagate_job_failure t1 db "job-1"))
  = [(failed, None); (skipped, Some "dependency_failed");
     (skipped, Some "dependency_failed")].
Proof. reflexivity. Qed.

(** The deadlock test of the suite: [job-1] has failed, [job-2] waits for
    its success and [job-3] for [job-2]'s.  The check fails the pipeline and
    skips both pending jobs. *)
Example deadlock_with_failed_dependency :
  let db := a_store [a_pipeline "P" None p_running]
              [a_job "job-1" "P" failed; a_job "job-2" "P" pending;
               a_job "job-3" "P" pending]
              [an_edge "job-2" "job-1" success; an_edge "job-3" "job-2" success] in
  option_map
    (fun d => (pipeline_status_of d "P",
               map (fun j => (Job.status j, Job.termination_reason j)) (jobs d)))
    (check_pipeline_completion t1 db "P")
  = Some (Some p_failed,
          [(failed, None); (skipped, Some "pipeline_deadlocked");
           (skipped, Some "pipeline_deadlocked")]).
Proof. reflexivity. Qed.

(** A pipeline without job rows: the aggregates are NULL and the check
    raises. *)
Example check_pipeline_completion_no_jobs :
  check_pipeline_completion t1 (a_store [a_pipeline "P" None p_running] [] []) "P"
  = None.
Proof. reflexivity. Qed.

(* ------------------------------------------------------------------ *)
(** ** Failure propagation: what it skips and what it leaves *)

Lemma success_path_trans (deps : list JobDependency.row) (f d x : string) :
  success_path deps f d -> success_path deps d x -> success_path deps f x.
Proof.
  intros Hfd Hdx. induction Hdx as [jd Hin Hon Ht|d' jd Hp IH Hin Hon Ht].
  - subst d. now apply success_step with (d := JobDependency.depends_on_job_id jd).
  - now apply success_step with (d := d').
Qed.

Lemma mark_skipped_twice (now reason : string) (a : Job.row) :
  mark_skipped now reason (mark_skipped now reason a) = mark_skipped now reason a.
Proof. reflexivity. Qed.

Lemma skipped_row_weaken (now : string) (P Q : string -> Prop)
  (l l' : list Job.row) :
  (forall id, P id -> Q id) ->
  Forall2 (skipped_row now P) l l' -> Forall2 (skipped_row now Q) l l'.
Proof.
  intros HPQ H. induction H as [|a b l l' Hab _ IH]; constructor; [|exact IH].
  destruct Hab as [Heq|[Hm HP]]; [now left|right; auto].
Qed.

Lemma skipped_row_refl (now : string) (P : string -> Prop) (l : list Job.row) :
  Forall2 (skipped_row now P) l l.
Proof. induction l; constructor; [now left|assumption]. Qed.

Lemma skipped_row_trans (now : string) (P : string -> Prop)
  (l0 l1 l2 : list Job.row) :
  Forall2 (skipped_row now P) l0 l1 -> Forall2 (skipped_row now P) l1 l2 ->
  Forall2 (skipped_row now P) l0 l2.
Proof.
  intros H01. revert l2.
  induction H01 as [|a b l0 l1 Hab _ IH]; intros l2 H12; inversion H12; subst;
    constructor; [|now apply IH].
  destruct Hab as [->|[-> HP]]; [assumption|].
  destruct H1 as [->|[-> _]]; right; split; auto.
Qed.

Lemma skipped_row_skip (now : string) (P : string -> Prop) (d : string)
  (db : Store) :
  P d ->
  Forall2 (skipped_row now P) (jobs db)
          (jobs (skip_dependency_failed now d db)).
Proof.
  intros HP. unfold skip_dependency_failed, update_jobs. simpl.
  induction (jobs db) as [|a l IH]; simpl; constructor; [|exact IH].
  unfold has_job_id. destruct (String.eqb (Job.job_id a) d) eqn:E.
  - right. split; [reflexivity|]. apply String.eqb_eq in E. now subst d.
  - now left.
Qed.

Lemma skipped_row_pending_back (now : string) (P : string -> Prop)
  (db db' : Store) (id : string) :
  Forall2 (skipped_row now P) (jobs db) (jobs db') ->
  pending_id db' id = true -> pending_id db id = true.
Proof.
  intros HF H. apply pending_id_true in H. destruct H as [j (Hin & Hid & Hs)].
  apply pending_id_true. exists j. split; [|auto].
  revert Hin. induction HF as [|a b l l' Hab _ IH]; simpl; [tauto|].
  intros [Hb|Hb]; [|right; now apply IH].
  subst b. destruct Hab as [Heq|[Hm _]]; [left; now subst|].
  rewrite Hm in Hs. discriminate.
Qed.

Lemma no_pending_dependent_mono (db db' : Store) (x : string) :
  job_dependencies db' = job_dependencies db ->
  (forall id, pending_id db' id = true -> pending_id db id = true) ->
  no_pending_dependent db x -> no_pending_dependent db' x.
Proof.
  intros HD Hm Hn jd Hin Hon Ht. rewrite HD in Hin.
  apply not_true_is_false. intros Hp. apply Hm in Hp.
  now rewrite (Hn jd Hin Hon Ht) in Hp.
Qed.

Lemma with_jobs_with_jobs (js js' : list Job.row) (db : Store) :
  with_jobs js (with_jobs js' db) = with_jobs js db.
Proof. reflexivity. Qed.

(** Propagation writes to the jobs table only. *)
Lemma propagate_fuel_only_jobs (fuel : nat) (now : string) :
  forall db failed_job_id db',
    propagate_fuel fuel now db failed_job_id = Some db' ->
    db' = with_jobs (jobs db') db.
Proof.
  induction fuel as [|fuel' IH]; intros db f db' H; [discriminate|].
  rewrite propagate_fuel_unfold in H.
  assert (forall rows acc,
             acc = with_jobs (jobs acc) db ->
             propagate_loop fuel' now rows (Some acc) = Some db' ->
             db' = with_jobs (jobs db') db) as Hloop.
  { induction rows as [|r rows IHr]; intros acc Hacc Hrun.
    - cbn in Hrun. now inversion Hrun; subst.
    - rewrite propagate_loop_cons in Hrun.
      destruct (snd r); [|now apply (IHr acc)|now apply (IHr acc)].
      destruct (propagate_fuel fuel' now
                  (skip_dependency_failed now (fst r) acc) (fst r))
        as [acc'|] eqn:E; [|now rewrite propagate_loop_none in Hrun].
      apply (IHr acc'); [|assumption].
      apply IH in E. rewrite E at 1.
      unfold skip_dependency_failed, update_jobs.
      rewrite with_jobs_with_jobs. rewrite Hacc at 1.
      now rewrite with_jobs_with_jobs. }
  apply (Hloop (dependent_jobs db f) db); [|assumption].
  symmetry. apply with_jobs_same.
Qed.

(** What propagation does to each row, and what it leaves behind. *)
Lemma propagate_fuel_skips (fuel : nat) (now : string) :
  forall db failed_job_id db',
    propagate_fuel fuel now db failed_job_id = Some db' ->
    job_dependencies db' = job_dependencies db
    /\ Forall2
         (skipped_row now
            (fun id => pending_id db id = true
                       /\ success_path (job_dependencies db) failed_job_id id
                       /\ no_pending_dependent db' id))
         (jobs db) (jobs db')
    /\ no_pending_dependent db' failed_job_id.
Proof.
  induction fuel as [|fuel' IH]; intros db f db' H; [discriminate|].
  rewrite propagate_fuel_unfold in H.
  assert (forall rows acc,
             (forall r, In r rows ->
                        pending_id db (fst r) = true
                        /\ (snd r = success ->
                            success_path (job_dependencies db) f (fst r))) ->
             job_dependencies acc = job_dependencies db ->
             (forall id, pending_id acc id = true -> pending_id db id = true) ->
             propagate_loop fuel' now rows (Some acc) = Some db' ->
             job_dependencies db' = job_dependencies db
             /\ Forall2
                  (skipped_row now
                     (fun id => pending_id db id = true
                                /\ success_path (job_dependencies db) f id
                                /\ no_pending_dependent db' id))
                  (jobs acc) (jobs db')) as Hloop.
  { induction rows as [|r rows IHr]; intros acc Hrows HD Hmono Hrun.
    - cbn in Hrun. inversion Hrun; subst. split; [exact HD|].
      apply skipped_row_refl.
    - rewrite propagate_loop_cons in Hrun.
      assert (forall r0, In r0 rows ->
                         pending_id db (fst r0) = true
                         /\ (snd r0 = success ->
                             success_path (job_dependencies db) f (fst r0)))
        as Hrest by (intros; apply Hrows; now right).
      destruct (Hrows r (or_introl eq_refl)) as [Hpr Hsr].
      destruct (snd r) eqn:Er; [|now apply (IHr acc)|now apply (IHr acc)].
      specialize (Hsr eq_refl).
      destruct (propagate_fuel fuel' now
                  (skip_dependency_failed now (fst r) acc) (fst r))
        as [acc2|] eqn:E; [|now rewrite propagate_loop_none in Hrun].
      destruct (IH _ _ _ E) as (HD2 & F12 & Hclosed).
      change (job_dependencies (skip_dependency_failed now (fst r) acc))
        with (job_dependencies acc) in HD2, F12.
      assert (forall id, pending_id acc2 id = true -> pending_id db id = true)
        as Hmono2.
      { intros id Hid. apply Hmono. apply (skip_pending_id now (fst r)).
        eapply skipped_row_pending_back; eassumption. }
      destruct (IHr acc2 Hrest (eq_trans HD2 HD) Hmono2 Hrun) as (HDf & F2).
      split; [exact HDf|].
      assert (forall id, pending_id db' id = true -> pending_id acc2 id = true)
        as Hmono3 by (intros id; eapply skipped_row_pending_back; eassumption).
      assert (job_dependencies db' = job_dependencies acc2) as HD3
        by congruence.
      eapply skipped_row_trans; [|exact F2].
      eapply skipped_row_trans.
      + apply skipped_row_skip. split; [exact Hpr|]. split; [exact Hsr|].
        eapply no_pending_dependent_mono; eassumption.
      + eapply skipped_row_weaken; [|exact F12]. cbv beta.
        intros id (Hp1 & Hs1 & Hc1). split; [|split].
        * apply Hmono. now apply (skip_pending_id now (fst r)).
        * rewrite HD in Hs1. eapply success_path_trans; eassumption.
        * eapply no_pending_dependent_mono; eassumption. }
  assert (forall r, In r (dependent_jobs db f) ->
                    pending_id db (fst r) = true
                    /\ (snd r = success ->
                        success_path (job_dependencies db) f (fst r)))
    as Hrows.
  { intros r Hr. apply in_dependent_jobs in Hr.
    destruct Hr as [jd (Hjd & Hon & Hr & Hp)]. subst r. simpl.
    split; [assumption|]. intros Ht. now apply success_edge. }
  destruct (Hloop _ db Hrows eq_refl (fun _ h => h) H) as (HD & HF).
  split; [exact HD|]. split; [exact HF|].
  apply propagate_loop_processed in H. destruct H as (_ & Hmono & Hdone).
  intros jd Hjd Hon Ht. rewrite HD in Hjd.
  destruct (pending_id db (JobDependency.job_id jd)) eqn:Ep.
  - apply (Hdone (JobDependency.job_id jd, JobDependency.dependency_type jd));
      [|exact Ht].
    apply in_dependent_jobs. exists jd. auto.
  - apply not_true_is_false. intros Hp. apply Hmono in Hp. congruence.
Qed.

(** After propagation from a job, no pending job depends on it through a
    success-edge. *)
Lemma propagate_job_failure_closed (now : string) (db : Store)
  (failed_job_id : string) :
  no_pending_dependent (propagate_job_failure now db failed_job_id)
    failed_job_id.
Proof.
  pose proof (propagate_job_failure_runs now db failed_job_id) as Hrun.
  apply propagate_fuel_skips in Hrun. tauto.
Qed.

(** X1.  Propagation from a job changes job rows only: each row is either
    untouched or becomes the same row marked [skipped] with reason
    [dependency_failed], and it is marked only if a row with its id was
    pending and its job depends on the failed job through a chain of
    success-edges.  Pipelines, dependencies and every other table are as
    before. *)
Theorem propagate_skips_only_success_descendants (now : string) (db : Store)
  (failed_job_id : string) :
  let db' := propagate_job_failure now db failed_job_id in
  db' = with_jobs (jobs db') db
  /\ Forall2
       (fun a b =>
          b = a
          \/ (b = mark_skipped now "dependency_failed" a
              /\ Job.status b = skipped
              /\ Job.termination_reason b = Some "dependency_failed"
              /\ pending_id db (Job.job_id a) = true
              /\ success_path (job_dependencies db) failed_job_id (Job.job_id a)))
       (jobs db) (jobs db').
Proof.
  cbv zeta. pose proof (propagate_job_failure_runs now db failed_job_id) as Hrun.
  split; [now apply propagate_fuel_only_jobs in Hrun|].
  apply propagate_fuel_skips in Hrun. destruct Hrun as (_ & HF & _).
  induction HF as [|a b l l' Hab _ IH]; constructor; [|exact IH].
  destruct Hab as [Heq|[Hm (Hp & Hs & _)]]; [now left|right].
  subst b. repeat split; assumption.
Qed.

(** X2.  After propagation from a job, no pending job depends through a
    success-edge on that job, nor on any job whose row the propagation
    changed: the skip is carried all the way down. *)
Theorem propagate_leaves_no_pending_dependent (now : string) (db : Store)
  (failed_job_id : string) :
  let db' := propagate_job_failure now db failed_job_id in
  no_pending_dependent db' failed_job_id
  /\ Forall2 (fun a b => b = a \/ no_pending_dependent db' (Job.job_id a))
             (jobs db) (jobs db').
Proof.
  cbv zeta. pose proof (propagate_job_failure_runs now db failed_job_id) as Hrun.
  apply propagate_fuel_skips in Hrun. destruct Hrun as (_ & HF & Hc).
  split; [exact Hc|].
  induction HF as [|a b l l' Hab _ IH]; constructor; [|exact IH].
  destruct Hab as [Heq|[Hm (_ & _ & Hn)]]; [now left|now right].
Qed.

(* ------------------------------------------------------------------ *)
(** ** Executor: every outcome of a run *)

(** The stored row of the job after a run of [run_job]. *)
Lemma run_job_row (env : Env) (st : Store * nat) (job_id : string)
  (j : Job.row) :
  select_job (fst st) job_id = Some j ->
  exists j1,
    (j1 = j \/ exists p, j1 = Job.set_prompt p j)
    /\ select_job (fst (run_job env st job_id)) job_id
       = Some (row_after_run env (effective_retry_count (Some j))
                 (effective_max_retries (Some j))
                 (shell env (job_command (Some j) job_id)) j1).
Proof.
  intros Hsel. unfold run_job. cbv zeta. rewrite Hsel.
  destruct (select_job_start_job env (fst st) job_id j Hsel)
    as [j1 [Hstart Hj1]].
  exists j1. split; [exact Hj1|].
  unfold row_after_run.
  destruct (shell env (job_command (Some j) job_id)) as [stdout returncode|e].
  - destruct (returncode =? 0).
    + apply select_job_after_finish; cbn [fst].
      * rewrite select_job_update by reflexivity. now rewrite Hstart.
      * apply pending_id_update. discriminate.
    + destruct (effective_retry_count (Some j) <? effective_max_retries (Some j)).
      * cbn [fst]. rewrite select_job_update by reflexivity. now rewrite Hstart.
      * apply select_job_after_finish; cbn [fst].
        -- rewrite select_job_update by reflexivity. now rewrite Hstart.
        -- apply pending_id_update. discriminate.
  - cbn [fst]. rewrite (evolves_select_job
                          (update_jobs (has_job_id job_id)
                             (mark_errored (now env) e)
                             (start_job env (fst st) job_id))).
    + rewrite select_job_update by reflexivity. now rewrite Hstart.
    + apply propagate_job_failure_evolves.
    + apply pending_id_update. discriminate.
Qed.

(** X3.  When spawning or reading the subprocess raises, the run ends with
    the job [failed], its termination reason the text of the error, its
    output and retry count as they were, and the failure propagated: no
    pending job is left depending on it through a success-edge. *)
Theorem run_job_exception_fails_job (env : Env) (st : Store * nat)
  (job_id : string) (j : Job.row) (e : string) :
  select_job (fst st) job_id = Some j ->
  shell env (job_command (Some j) job_id) = raised e ->
  no_pending_dependent (fst (run_job env st job_id)) job_id
  /\ exists j',
       select_job (fst (run_job env st job_id)) job_id = Some j'
       /\ Job.status j' = failed
       /\ Job.termination_reason j' = Some e
       /\ Job.job_output j' = Job.job_output j
       /\ Job.retry_count j' = Job.retry_count j.
Proof.
  intros Hsel Hraise. split.
  - unfold run_job. cbv zeta. rewrite Hsel, Hraise. cbn [fst].
    apply propagate_job_failure_closed.
  - destruct (run_job_row env st job_id j Hsel) as [j1 [Hj1 Hrow]].
    rewrite Hraise in Hrow. eexists. split; [exact Hrow|].
    destruct Hj1 as [->|[p ->]]; repeat split.
Qed.

Lemma run_job_exception_fails_job_witness :
  no_pending_dependent
    (fst (run_job (scenario_env always_raises) (store_chain, O) "job-1"))
    "job-1"
  /\ exists j',
       select_job
         (fst (run_job (scenario_env always_raises) (store_chain, O) "job-1"))
         "job-1" = Some j'
       /\ Job.status j' = failed
       /\ Job.termination_reason j'
          = Some "[Errno 2] No such file or directory"
       /\ Job.job_output j' = Job.job_output (a_job "job-1" "P" pending)
       /\ Job.retry_count j' = Job.retry_count (a_job "job-1" "P" pending).
Proof.
  apply (run_job_exception_fails_job (scenario_env always_raises)
           (store_chain, O) "job-1" (a_job "job-1" "P" pending)
           "[Errno 2] No such file or directory"); reflexivity.
Defined.

Lemma update_jobs_none (db : Store) (job_id : string) (f : Job.row -> Job.row) :
  select_job db job_id = None -> update_jobs (has_job_id job_id) f db = db.
Proof.
  intros H. unfold update_jobs, select_job in *.
  rewrite map_update_none by assumption. apply with_jobs_same.
Qed.

(** X4.  A run for a job id that is not stored, whose default harness
    command exits with any code, leaves the store and the uuid counter as
    they were: every write of the run is keyed by the job id, and the
    multiplier check returns at once. *)
Theorem run_job_unknown_job_is_noop (env : Env) (st : Store * nat)
  (job_id stdout : string) (returncode : Z) :
  select_job (fst st) job_id = None ->
  shell env ("python agents/harness.py " ++ job_id) = exited stdout returncode ->
  run_job env st job_id = st.
Proof.
  intros Hsel Hshell. unfold run_job, start_job. cbv zeta.
  rewrite Hsel. cbn [retry_with_context job_command]. rewrite Hshell.
  rewrite (update_jobs_none _ _ (mark_running (now env)) Hsel).
  destruct (returncode =? 0).
  - rewrite (update_jobs_none _ _ _ Hsel). unfold after_finish.
    unfold check_and_spawn_multiplied_jobs. cbn [fst]. rewrite Hsel.
    now destruct st.
  - cbn [effective_retry_count effective_max_retries].
    change (0 <? 100) with true. cbv iota.
    rewrite (update_jobs_none _ _ _ Hsel). now destruct st.
Qed.

Lemma run_job_unknown_job_is_noop_witness :
  run_job (scenario_env failing_shell) (store_chain, O) "job-9"
  = (store_chain, O).
Proof.
  apply (run_job_unknown_job_is_noop (scenario_env failing_shell)
           (store_chain, O) "job-9" ("step1" ++ nl) 1); reflexivity.
Defined.

(** X5.  A run never takes the retry count past the maximum: if the retry
    count of the job (a NULL count read as 0) is at most its maximum (a NULL
    maximum read as 100) before the run, it still is afterwards, whatever
    the subprocess does; the maximum is not changed and the count grows by
    at most one. *)
Theorem run_job_keeps_retry_bound (env : Env) (st : Store * nat)
  (job_id : string) (j : Job.row) :
  select_job (fst st) job_id = Some j ->
  get (Job.retry_count j) 0 <= get (Job.max_retries j) 100 ->
  exists j',
    select_job (fst (run_job env st job_id)) job_id = Some j'
    /\ get (Job.retry_count j') 0 <= get (Job.max_retries j') 100
    /\ Job.max_retries j' = Job.max_retries j
    /\ get (Job.retry_count j) 0 <= get (Job.retry_count j') 0
       <= get (Job.retry_count j) 0 + 1.
Proof.
  intros Hsel Hle.
  change (get (Job.retry_count j) 0) with (effective_retry_count (Some j)) in *.
  change (get (Job.max_retries j) 100) with (effective_max_retries (Some j)) in *.
  destruct (run_job_row env st job_id j Hsel) as [j1 [Hj1 Hrow]].
  eexists. split; [exact Hrow|].
  unfold row_after_run.
  assert (Job.retry_count j1 = Job.retry_count j
          /\ Job.max_retries j1 = Job.max_retries j) as [Hrc Hmr]
    by (destruct Hj1 as [->|[p ->]]; split; reflexivity).
  destruct (shell env (job_command (Some j) job_id)) as [stdout returncode|e].
  - destruct (returncode =? 0).
    + cbn. rewrite Hrc, Hmr. cbn in Hle. repeat split; try assumption; lia.
    + destruct (effective_retry_count (Some j) <? effective_max_retries (Some j))
        eqn:El.
      * apply Z.ltb_lt in El. cbn. rewrite Hmr. cbn in El.
        repeat split; try lia.
      * cbn. rewrite Hrc, Hmr. cbn in Hle. repeat split; try assumption; lia.
  - cbn. rewrite Hrc, Hmr. cbn in Hle. repeat split; try assumption; lia.
Qed.

Lemma run_job_keeps_retry_bound_witness :
  exists j',
    select_job (fst (run_job (scenario_env failing_shell)
                       (store_resume 1 None, O) "r")) "r" = Some j'
    /\ get (Job.retry_count j') 0 <= get (Job.max_retries j') 100
    /\ Job.max_retries j' = Some 2
    /\ 1 <= get (Job.retry_count j') 0 <= 1 + 1.
Proof.
  apply (run_job_keeps_retry_bound (scenario_env failing_shell)
           (store_resume 1 None, O) "r" (resume_job 1 None));
    [reflexivity|simpl; lia].
Defined.

(** X6.  A job whose command exits with the same non-zero code on every
    attempt is re-queued until its retries are used up and then fails for
    good: starting with [n] retries left (a NULL count read as 0, a NULL
    maximum as 100), the run number [n+1] leaves it [failed] with reason
    [exit_code_<code>_after_<max_retries+1>_attempts], its retry count at
    the maximum, and as output the lines of the last attempt, each
    right-stripped, joined by newlines. *)
Theorem retries_end_in_failure (env : Env) (job_id stdout : string)
  (returncode : Z) :
  forall (n : nat) (st : Store * nat) (j : Job.row),
    select_job (fst st) job_id = Some j ->
    shell env (job_command (Some j) job_id) = exited stdout returncode ->
    returncode <> 0 ->
    get (Job.max_retries j) 100 - get (Job.retry_count j) 0 = Z.of_nat n ->
    exists j',
      select_job (fst (run_attempts env (S n) st job_id)) job_id = Some j'
      /\ Job.status j' = failed
      /\ Job.termination_reason j'
         = Some ("exit_code_" ++ py_str_int returncode ++ "_after_"
                 ++ py_str_int (get (Job.max_retries j) 100 + 1)
                 ++ "_attempts")
      /\ Job.job_output j' = Some (join nl (map rstrip (readlines stdout)))
      /\ get (Job.retry_count j') 0 = get (Job.max_retries j) 100.
Proof.
  induction n as [|n IH]; intros st j Hsel Hshell Hcode Hleft;
    change (get (Job.retry_count j) 0) with (effective_retry_count (Some j)) in *;
    change (get (Job.max_retries j) 100) with (effective_max_retries (Some j)) in *;
    change (join nl (map rstrip (readlines stdout))) with (log_output stdout).
  - destruct (run_job_row env st job_id j Hsel) as [j1 [Hj1 Hrow]].
    rewrite Hshell in Hrow. unfold row_after_run in Hrow.
    apply Z.eqb_neq in Hcode. rewrite Hcode in Hrow.
    assert ((effective_retry_count (Some j) <? effective_max_retries (Some j))
            = false) as Hge by (apply Z.ltb_ge; lia).
    rewrite Hge in Hrow.
    assert (effective_retry_count (Some j) = effective_max_retries (Some j))
      as Heq by lia.
    eexists. split; [exact Hrow|]. rewrite <- Heq.
    destruct Hj1 as [->|[p ->]]; repeat split.
  - destruct (run_job_row env st job_id j Hsel) as [j1 [Hj1 Hrow]].
    rewrite Hshell in Hrow. unfold row_after_run in Hrow.
    pose proof Hcode as Hcode'. apply Z.eqb_neq in Hcode'.
    rewrite Hcode' in Hrow.
    assert ((effective_retry_count (Some j) <? effective_max_retries (Some j))
            = true) as Hlt by (apply Z.ltb_lt; lia).
    rewrite Hlt in Hrow.
    set (j2 := mark_retry (now env) (effective_retry_count (Some j) + 1)
                 (mark_running (now env) j1)) in Hrow.
    assert (job_command (Some j2) job_id = job_command (Some j) job_id) as Hcmd
      by (subst j2; destruct Hj1 as [->|[p ->]]; reflexivity).
    assert (effective_max_retries (Some j2) = effective_max_retries (Some j))
      as Hmr by (subst j2; destruct Hj1 as [->|[p ->]]; reflexivity).
    assert (effective_retry_count (Some j2) = effective_retry_count (Some j) + 1)
      as Hrc by reflexivity.
    specialize (IH (run_job env st job_id) j2 Hrow).
    change (get (Job.retry_count j2) 0)
      with (effective_retry_count (Some j2)) in IH.
    change (get (Job.max_retries j2) 100)
      with (effective_max_retries (Some j2)) in IH.
    change (join nl (map rstrip (readlines stdout)))
      with (log_output stdout) in IH.
    rewrite Hcmd, Hmr, Hrc in IH.
    apply IH; [assumption|assumption|lia].
Qed.

Lemma retries_end_in_failure_witness :
  exists j',
    select_job (fst (run_attempts (scenario_env failing_shell) 3
                       (store_resume 0 None, O) "r")) "r" = Some j'
    /\ Job.status j' = failed
    /\ Job.termination_reason j' = Some "exit_code_1_after_3_attempts"
    /\ Job.job_output j' = Some "step1"
    /\ get (Job.retry_count j') 0 = 2.
Proof.
  apply (retries_end_in_failure (scenario_env failing_shell) "r"
           ("step1" ++ nl) 1 2 (store_resume 0 None, O) (resume_job 0 None));
    [reflexivity|reflexivity|lia|reflexivity].
Defined.

(* ------------------------------------------------------------------ *)
(** ** Scheduler: dispatch and pipeline statuses *)

Lemma find_first {A : Type} (f : A -> bool) (l : list A) (x : A) :
  find f l = Some x ->
  exists before after,
    l = (before ++ x :: after)%list /\ f x = true
    /\ forall y, In y before -> f y = false.
Proof.
  induction l as [|a l IH]; simpl; [discriminate|].
  destruct (f a) eqn:E.
  - intros H. inversion H; subst. exists [], l. simpl. repeat split; tauto.
  - intros H. destruct (IH H) as (before & after & Hl & Hx & Hb).
    exists (a :: before), after. subst l. simpl. repeat split; auto.
    intros y [Hy|Hy]; [now subst|now apply Hb].
Qed.

Lemma find_none_iff {A : Type} (f : A -> bool) (l : list A) :
  find f l = None <-> forall x, In x l -> f x = false.
Proof.
  split.
  - intros H x Hx. now apply (find_none f l H).
  - induction l as [|a l IH]; simpl; [reflexivity|]. intros H.
    rewrite (H a (or_introl eq_refl)). apply IH. intros x Hx. apply H. now right.
Qed.

Lemma ready_cond_ext (db db' : Store) (j : Job.row) :
  jobs db' = jobs db -> job_dependencies db' = job_dependencies db ->
  ready_cond db' j = ready_cond db j.
Proof.
  intros Hj Hd. unfold ready_cond, dependency_rows. now rewrite Hj, Hd.
Qed.

Lemma tick_spawned (now : string) (s : scheduler) :
  snd (orchestration_tick now s)
  = match running_jobs s with
    | [] => option_map Job.job_id (find (ready_cond (sched_db s))
                                        (jobs (sched_db s)))
    | _ :: _ => None
    end.
Proof.
  unfold orchestration_tick. cbn [snd].
  destruct (running_jobs s); [|reflexivity].
  destruct (start_pending_pipelines_jobs now (sched_db s)) as [Hj Hd].
  now rewrite (ready_job_ext (sched_db s) _ Hj Hd).
Qed.

(** X7.  A scheduler iteration dispatches a job only when no executor is
    running, and the job it dispatches is the first row of the jobs table
    that is pending with every joined dependency completed: no earlier row
    qualifies.  The job is then the only entry of [running_jobs]. *)
Theorem tick_dispatches_first_ready_job (now : string) (s : scheduler)
  (job_id : string) :
  snd (orchestration_tick now s) = Some job_id ->
  running_jobs s = []
  /\ running_jobs (fst (orchestration_tick now s)) = [job_id]
  /\ exists before j after,
       jobs (sched_db s) = (before ++ j :: after)%list
       /\ Job.job_id j = job_id
       /\ Job.status j = pending
       /\ (forall r, In r (dependency_rows (sched_db s) job_id) ->
                     Job.status (snd r) = completed)
       /\ (forall j0, In j0 before ->
             ~ (Job.status j0 = pending
                /\ forall r, In r (dependency_rows (sched_db s) (Job.job_id j0)) ->
                             Job.status (snd r) = completed)).
Proof.
  intros H. pose proof H as H'. rewrite tick_spawned in H'.
  destruct (running_jobs s) eqn:Er; [|discriminate].
  split; [reflexivity|]. split.
  { unfold orchestration_tick in *. cbn [fst snd running_jobs] in *.
    rewrite Er in *. now rewrite H. }
  destruct (find (ready_cond (sched_db s)) (jobs (sched_db s))) as [j|] eqn:Ef;
    [|discriminate].
  cbn in H'. inversion H'; subst job_id.
  destruct (find_first _ _ _ Ef) as (before & after & Hl & Hj & Hb).
  exists before, j, after. apply ready_cond_iff in Hj. destruct Hj as [Hp Hd].
  repeat split; try assumption.
  intros j0 Hj0 Hready. apply ready_cond_iff in Hready.
  rewrite (Hb j0 Hj0) in Hready. discriminate.
Qed.

Lemma tick_dispatches_first_ready_job_witness :
  running_jobs {| sched_db := store_chain; running_jobs := [] |} = []
  /\ running_jobs
       (fst (orchestration_tick t1
               {| sched_db := store_chain; running_jobs := [] |}))
     = ["job-1"]
  /\ exists before j after,
       jobs store_chain = (before ++ j :: after)%list
       /\ Job.job_id j = "job-1"
       /\ Job.status j = pending
       /\ (forall r, In r (dependency_rows store_chain "job-1") ->
                     Job.status (snd r) = completed)
       /\ (forall j0, In j0 before ->
             ~ (Job.status j0 = pending
                /\ forall r, In r (dependency_rows store_chain (Job.job_id j0)) ->
                             Job.status (snd r) = completed)).
Proof.
  apply (tick_dispatches_first_ready_job t1
           {| sched_db := store_chain; running_jobs := [] |} "job-1").
  reflexivity.
Defined.

(** X8.  A scheduler iteration dispatches nothing exactly when an executor
    is already registered in [running_jobs], or no job row is pending with
    every joined dependency completed. *)
Theorem tick_idle_iff (now : string) (s : scheduler) :
  snd (orchestration_tick now s) = None <->
  running_jobs s <> []
  \/ forall j, In j (jobs (sched_db s)) ->
               ~ (Job.status j = pending
                  /\ forall r, In r (dependency_rows (sched_db s) (Job.job_id j)) ->
                               Job.status (snd r) = completed).
Proof.
  rewrite tick_spawned. destruct (running_jobs s) as [|x l].
  - split.
    + intros H. right. intros j Hj Hready. apply ready_cond_iff in Hready.
      destruct (find _ _) eqn:Ef; [discriminate|].
      rewrite (proj1 (find_none_iff _ _) Ef j Hj) in Hready. discriminate.
    + intros [H|H]; [congruence|].
      assert (find (ready_cond (sched_db s)) (jobs (sched_db s)) = None) as Hn.
      { apply find_none_iff. intros j Hj. apply not_true_is_false.
        intros Hr. apply ready_cond_iff in Hr. exact (H j Hj Hr). }
      now rewrite Hn.
  - split; [intros _; left; discriminate|reflexivity].
Qed.

Lemma pipeline_step_refl (active : string -> Prop) (l : list Pipeline.row) :
  Forall2 (pipeline_step active) l l.
Proof. induction l; constructor; [now left|assumption]. Qed.

Lemma pipeline_step_weaken (P Q : string -> Prop) (l l' : list Pipeline.row) :
  (forall id, P id -> Q id) ->
  Forall2 (pipeline_step P) l l' -> Forall2 (pipeline_step Q) l l'.
Proof.
  intros HPQ H. induction H as [|a b l l' Hab _ IH]; constructor; [|exact IH].
  destruct Hab as [Heq|(Ha & Hid & Hs)]; [now left|right; auto].
Qed.

Lemma pipeline_step_trans (active : string -> Prop)
  (l0 l1 l2 : list Pipeline.row) :
  Forall2 (pipeline_step active) l0 l1 -> Forall2 (pipeline_step active) l1 l2 ->
  Forall2 (pipeline_step active) l0 l2.
Proof.
  intros H01. revert l2.
  induction H01 as [|a b l0 l1 Hab _ IH]; intros l2 H12; inversion H12; subst;
    constructor; [|now apply IH].
  destruct H1 as [->|(Ha & Hid & Hs)]; [assumption|].
  right. destruct Hab as [->|(Ha' & Hid' & _)]; [auto|].
  rewrite Hid' in *. auto.
Qed.

Lemma pipeline_step_update (id : string) (f : Pipeline.row -> Pipeline.row)
  (db : Store) :
  (forall p, Pipeline.pipeline_id (f p) = Pipeline.pipeline_id p) ->
  (forall p, Pipeline.status (f p) <> p_pending) ->
  Forall2 (pipeline_step (eq id)) (pipelines db)
          (pipelines (update_pipelines (has_pipeline_id id) f db)).
Proof.
  intros Hid Hs. unfold update_pipelines. simpl.
  induction (pipelines db) as [|p l IH]; simpl; constructor; [|exact IH].
  unfold has_pipeline_id. destruct (String.eqb (Pipeline.pipeline_id p) id) eqn:E.
  - right. apply String.eqb_eq in E. auto.
  - now left.
Qed.

(** The completion check rewrites only rows of the checked pipeline, and
    never to [pending]. *)
Lemma check_pipeline_completion_step (now : string) (db db' : Store)
  (id : string) :
  check_pipeline_completion now db id = Some db' ->
  Forall2 (pipeline_step (eq id)) (pipelines db) (pipelines db').
Proof.
  unfold check_pipeline_completion.
  destruct (match sql_sum _ with Some d => _ | None => false end).
  - destruct (sql_sum _) as [f|]; [|discriminate].
    intros H. inversion H; subst.
    apply pipeline_step_update; [reflexivity|].
    intros p. cbn. destruct (f >? 0); discriminate.
  - destruct (sql_sum _) as [p|]; [|discriminate].
    destruct (p >? 0);
      [|intros H; inversion H; subst; apply pipeline_step_refl].
    destruct (sql_count _ >? 0); intros H; inversion H; subst;
      [|apply pipeline_step_refl].
    change (pipelines (update_jobs ?c ?g ?d)) with (pipelines d).
    apply pipeline_step_update; [reflexivity|discriminate].
Qed.

Lemma check_running_pipelines_step (now : string) :
  forall ids db,
    Forall2 (pipeline_step (fun id => In id ids)) (pipelines db)
            (pipelines (check_running_pipelines now ids db)).
Proof.
  induction ids as [|id ids IH]; intros db; [apply pipeline_step_refl|].
  simpl. destruct (check_pipeline_completion now db id) as [db'|] eqn:E;
    [|apply pipeline_step_refl].
  eapply pipeline_step_trans.
  - eapply pipeline_step_weaken; [|apply (check_pipeline_completion_step _ _ _ _ E)].
    intros x Hx. now left.
  - eapply pipeline_step_weaken; [|apply IH]. intros x Hx. now right.
Qed.

Lemma start_pending_pipelines_step (now : string) :
  forall ids db,
    Forall2 (pipeline_step (fun id => In id ids)) (pipelines db)
            (pipelines
               (fold_left
                  (fun d pipeline_id =>
                     update_pipelines (has_pipeline_id pipeline_id)
                       (set_pipeline_status p_running now) d)
                  ids db)).
Proof.
  induction ids as [|id ids IH]; intros db; [apply pipeline_step_refl|].
  simpl. eapply pipeline_step_trans.
  - eapply pipeline_step_weaken;
      [|apply (pipeline_step_update id (set_pipeline_status p_running now) db);
        [reflexivity|discriminate]].
    intros x Hx. now left.
  - eapply pipeline_step_weaken; [|apply IH]. intros x Hx. now right.
Qed.

Lemma in_pipeline_ids_with (db : Store) (s : pipeline_status) (id : string) :
  In id (pipeline_ids_with s db) <->
  exists q, In q (pipelines db) /\ Pipeline.pipeline_id q = id
            /\ Pipeline.status q = s.
Proof.
  unfold pipeline_ids_with. rewrite in_map_iff. split.
  - intros [q [Hid Hq]]. apply filter_In in Hq. destruct Hq as [Hq Hs].
    apply is_pstatus_true in Hs. eauto.
  - intros [q (Hq & Hid & Hs)]. exists q. split; [assumption|].
    apply filter_In. split; [assumption|now apply is_pstatus_true].
Qed.

Lemma forall2_pipeline_in (active : string -> Prop) (l l' : list Pipeline.row)
  (p' : Pipeline.row) :
  Forall2 (pipeline_step active) l l' -> In p' l' ->
  exists p, In p l /\ pipeline_step active p p'.
Proof.
  induction 1 as [|a b l l' Hab _ IH]; simpl; [tauto|].
  intros [Hb|Hb]; [subst; eauto|].
  destruct (IH Hb) as [p [Hp Hs]]. eauto.
Qed.

(** A scheduler iteration rewrites only pipeline rows whose id belongs to a
    pipeline that was pending or running when it began. *)
Lemma orchestration_tick_step (now : string) (s : scheduler) :
  Forall2 (pipeline_step (active_pipeline (sched_db s)))
          (pipelines (sched_db s))
          (pipelines (sched_db (fst (orchestration_tick now s)))).
Proof.
  unfold orchestration_tick. cbn [fst sched_db].
  pose proof (start_pending_pipelines_step now
                (pipeline_ids_with p_pending (sched_db s)) (sched_db s)) as H1.
  fold (start_pending_pipelines now (sched_db s)) in H1.
  assert (Forall2 (pipeline_step (active_pipeline (sched_db s)))
                  (pipelines (sched_db s))
                  (pipelines (start_pending_pipelines now (sched_db s)))) as H1'.
  { eapply pipeline_step_weaken; [|exact H1]. intros id Hid.
    apply in_pipeline_ids_with in Hid. destruct Hid as [q (Hq & Hi & Hs)].
    exists q. auto. }
  eapply pipeline_step_trans; [exact H1'|].
  eapply pipeline_step_weaken; [|apply check_running_pipelines_step].
  intros id Hid. apply in_pipeline_ids_with in Hid.
  destruct Hid as [q (Hq & Hi & Hs)].
  destruct (forall2_pipeline_in _ _ _ _ H1' Hq) as [p [Hp Hstep]].
  destruct Hstep as [->|(Ha & Hi' & _)].
  - exists p. auto.
  - now rewrite <- Hi, Hi'.
Qed.

Lemma forall2_pipeline_in_left (active : string -> Prop)
  (l l' : list Pipeline.row) (p : Pipeline.row) :
  Forall2 (pipeline_step active) l l' -> In p l ->
  exists p', In p' l' /\ pipeline_step active p p'.
Proof.
  induction 1 as [|a b l l' Hab _ IH]; simpl; [tauto|].
  intros [Ha|Ha]; [subst; eauto|].
  destruct (IH Ha) as [p' [Hp Hs]]. eauto.
Qed.

(** X9.  Once no row of a pipeline is pending or running (the pipeline is
    completed, failed or cancelled), a scheduler iteration leaves its rows
    exactly as they are, timestamps included: the scheduler promotes only
    pending pipelines and finalizes only running ones. *)
Theorem tick_leaves_finished_pipeline (now : string) (s : scheduler)
  (pipeline_id : string) (p : Pipeline.row) :
  (forall q, In q (pipelines (sched_db s)) ->
             Pipeline.pipeline_id q = pipeline_id ->
             Pipeline.status q <> p_pending /\ Pipeline.status q <> p_running) ->
  Pipeline.pipeline_id p = pipeline_id ->
  (In p (pipelines (sched_db (fst (orchestration_tick now s))))
   <-> In p (pipelines (sched_db s))).
Proof.
  intros Hfin Hid.
  pose proof (orchestration_tick_step now s) as HF.
  assert (forall a b, In a (pipelines (sched_db s)) ->
                      pipeline_step (active_pipeline (sched_db s)) a b ->
                      Pipeline.pipeline_id a = pipeline_id
                      \/ Pipeline.pipeline_id b = pipeline_id -> b = a) as Hsame.
  { intros a b Ha [Heq|(Hact & Hi & _)] Hpid; [assumption|].
    exfalso. destruct Hact as [q (Hq & Hqi & Hqs)].
    assert (Pipeline.pipeline_id q = pipeline_id) as Hq' by
        (destruct Hpid; congruence).
    destruct (Hfin q Hq Hq') as [H1 H2]. destruct Hqs; contradiction. }
  split; intros Hin.
  - destruct (forall2_pipeline_in _ _ _ _ HF Hin) as [a [Ha Hstep]].
    rewrite (Hsame a p Ha Hstep (or_intror Hid)). exact Ha.
  - destruct (forall2_pipeline_in_left _ _ _ _ HF Hin) as [b [Hb Hstep]].
    now rewrite <- (Hsame p b Hin Hstep (or_introl Hid)).
Qed.

Lemma tick_leaves_finished_pipeline_witness :
  In (set_pipeline_status p_cancelled t0 (a_pipeline "P" None p_running))
     (pipelines
        (sched_db
           (fst (orchestration_tick t1
                   {| sched_db := fst (stop_pipeline t0 store_chain "P");
                      running_jobs := [] |}))))
  <-> In (set_pipeline_status p_cancelled t0 (a_pipeline "P" None p_running))
         (pipelines (fst (stop_pipeline t0 store_chain "P"))).
Proof.
  apply (tick_leaves_finished_pipeline t1
           {| sched_db := fst (stop_pipeline t0 store_chain "P");
              running_jobs := [] |} "P"
           (set_pipeline_status p_cancelled t0 (a_pipeline "P" None p_running)));
    [|reflexivity].
  simpl. intros q [Hq|[]] _. subst q. simpl. split; discriminate.
Defined.


Lemma start_pending_pipelines_none_pending (now : string) :
  forall ids db,
    (forall p, In p (pipelines db) -> Pipeline.status p = p_pending ->
               In (Pipeline.pipeline_id p) ids) ->
    forall p,
      In p (pipelines
              (fold_left
                 (fun d pipeline_id =>
                    update_pipelines (has_pipeline_id pipeline_id)
                      (set_pipeline_status p_running now) d)
                 ids db)) ->
      Pipeline.status p <> p_pending.
Proof.
  induction ids as [|id ids IH]; intros db Hids p Hp.
  - simpl in Hp. intros Hs. exact (Hids p Hp Hs).
  - simpl in Hp. revert p Hp. apply IH. intros p Hp Hs.
    apply in_update_pipelines in Hp. destruct Hp as [q [Hq Heq]].
    destruct (has_pipeline_id id q) eqn:E; subst p; [discriminate|].
    destruct (Hids q Hq Hs) as [Hi|Hi]; [|exact Hi].
    unfold has_pipeline_id in E. apply String.eqb_neq in E. congruence.
Qed.

(** X10.  After a scheduler iteration no pipeline is pending: every pending
    pipeline has been promoted, and the completion check never writes
    [pending]. *)
Theorem tick_promotes_every_pending_pipeline (now : string) (s : scheduler)
  (p : Pipeline.row) :
  In p (pipelines (sched_db (fst (orchestration_tick now s)))) ->
  Pipeline.status p <> p_pending.
Proof.
  unfold orchestration_tick. cbn [fst sched_db]. intros Hp.
  pose proof (check_running_pipelines_step now
                (pipeline_ids_with p_running
                   (start_pending_pipelines now (sched_db s)))
                (start_pending_pipelines now (sched_db s))) as HF.
  destruct (forall2_pipeline_in _ _ _ _ HF Hp) as [a [Ha Hstep]].
  destruct Hstep as [->|(_ & _ & Hs)]; [|exact Hs].
  apply (start_pending_pipelines_none_pending now
           (pipeline_ids_with p_pending (sched_db s)) (sched_db s));
    [|exact Ha].
  intros q Hq Hs. apply in_pipeline_ids_with. eauto.
Qed.

Lemma tick_promotes_every_pending_pipeline_witness :
  Pipeline.status (set_pipeline_status p_running t1 (a_pipeline "P" None p_pending))
  <> p_pending.
Proof.
  apply (tick_promotes_every_pending_pipeline t1
           {| sched_db := a_store [a_pipeline "P" None p_pending]
                            [a_job "j" "P" pending] [];
              running_jobs := [] |}).
  simpl. left. reflexivity.
Defined.

(** X11.  The completion check of a pipeline without any job row raises
    (its aggregates are NULL), and since the exception leaves the loop over
    the running pipelines, the pipelines listed after it are not checked in
    that iteration: the loop returns the store unchanged. *)
Theorem empty_pipeline_stalls_checks (now : string) (db : Store)
  (pipeline_id : string) (rest : list string) :
  jobs_of db pipeline_id = [] ->
  check_pipeline_completion now db pipeline_id = None
  /\ check_running_pipelines now (pipeline_id :: rest) db = db.
Proof.
  intros Hnone.
  assert (check_pipeline_completion now db pipeline_id = None) as Hraise.
  { unfold check_pipeline_completion.
    change (filter (in_pipeline pipeline_id) (jobs db))
      with (jobs_of db pipeline_id).
    now rewrite Hnone. }
  split; [exact Hraise|]. simpl. now rewrite Hraise.
Qed.

Lemma empty_pipeline_stalls_checks_witness :
  check_pipeline_completion t1 store_empty_pipeline "E" = None
  /\ check_running_pipelines t1 ["E"; "P"] store_empty_pipeline
     = store_empty_pipeline.
Proof.
  apply (empty_pipeline_stalls_checks t1 store_empty_pipeline "E" ["P"]).
  reflexivity.
Defined.

(* ------------------------------------------------------------------ *)
(** ** Multiplier: parsing and spawning *)

Lemma rstrip_idempotent (s : string) : rstrip (rstrip s) = rstrip s.
Proof.
  induction s as [|c r IH]; [reflexivity|].
  simpl. destruct (isspace c && is_empty (rstrip r)) eqn:E; [reflexivity|].
  simpl. now rewrite IH, E.
Qed.

Lemma lstrip_head (s : string) :
  lstrip s = EmptyString
  \/ exists c r, lstrip s = String c r /\ isspace c = false.
Proof.
  induction s as [|c r IH]; [now left|].
  simpl. destruct (isspace c) eqn:E; [exact IH|].
  right. exists c, r. auto.
Qed.

Lemma rstrip_cons_nonspace (c : ascii) (r : string) :
  isspace c = false -> rstrip (String c r) = String c (rstrip r).
Proof. intros H. cbn [rstrip]. now rewrite H. Qed.

Lemma lstrip_cons_nonspace (c : ascii) (r : string) :
  isspace c = false -> lstrip (String c r) = String c r.
Proof. intros H. cbn [lstrip]. now rewrite H. Qed.

(** Stripping is idempotent. *)
Lemma strip_idempotent (s : string) : strip (strip s) = strip s.
Proof.
  unfold strip. destruct (lstrip_head s) as [H|[c [r [H Hc]]]]; rewrite H.
  - reflexivity.
  - rewrite (rstrip_cons_nonspace c r Hc).
    rewrite (lstrip_cons_nonspace c _ Hc).
    rewrite (rstrip_cons_nonspace c _ Hc).
    now rewrite rstrip_idempotent.
Qed.

(** X12.  [parse_artifact_content] returns no item for an empty content,
    whatever the strategy; under [line_delimited] and [comma_separated]
    every item it returns is non-empty and carries no leading or trailing
    whitespace; under an unknown strategy the whole content is the single
    item. *)
Theorem parse_artifact_content_items (env : Env) (content strategy : string) :
  parse_artifact_content env "" strategy = []
  /\ (strategy = "line_delimited" \/ strategy = "comma_separated" ->
      forall item, In item (parse_artifact_content env content strategy) ->
                   item <> "" /\ strip item = item)
  /\ (content <> "" -> strategy <> "json_array" ->
      strategy <> "line_delimited" -> strategy <> "comma_separated" ->
      parse_artifact_content env content strategy = [content]).
Proof.
  split; [reflexivity|]. split.
  - intros Hs item Hin. unfold parse_artifact_content in Hin.
    destruct (is_empty content); [contradiction|].
    assert (forall sep,
               In item (filter (fun s => negb (is_empty s))
                               (map strip (split sep content))) ->
               item <> "" /\ strip item = item) as Hitem.
    { intros sep H. apply filter_In in H. destruct H as [H Hne].
      apply in_map_iff in H. destruct H as [x [Hx _]]. subst item.
      split; [|apply strip_idempotent].
      intros Heq. rewrite Heq in Hne. discriminate. }
    destruct Hs as [->| ->]; cbn in Hin; now apply Hitem in Hin.
  - intros Hc H1 H2 H3. unfold parse_artifact_content.
    destruct content; [congruence|]. cbn [is_empty].
    apply String.eqb_neq in H1, H2, H3. now rewrite H1, H2, H3.
Qed.

Lemma parse_artifact_content_items_witness :
  parse_artifact_content (scenario_env quiet_shell) "" "comma_separated" = []
  /\ ("comma_separated" = "line_delimited"
      \/ "comma_separated" = "comma_separated" ->
      forall item,
        In item (parse_artifact_content (scenario_env quiet_shell)
                   " a, b ,,c " "comma_separated") ->
        item <> "" /\ strip item = item)
  /\ (" a, b ,,c " <> "" -> "comma_separated" <> "json_array" ->
      "comma_separated" <> "line_delimited" ->
      "comma_separated" <> "comma_separated" ->
      parse_artifact_content (scenario_env quiet_shell) " a, b ,,c "
        "comma_separated" = [" a, b ,,c "]).
Proof.
  exact (parse_artifact_content_items (scenario_env quiet_shell)
           " a, b ,,c " "comma_separated").
Defined.

Example parse_comma_separated :
  parse_artifact_content (scenario_env quiet_shell) " a, b ,,c "
    "comma_separated" = ["a"; "b"; "c"].
Proof. reflexivity. Qed.




Lemma filter_all_false {A : Type} (f : A -> bool) (l : list A) :
  (forall x, In x l -> f x = false) -> filter f l = [].
Proof.
  induction l as [|a l IH]; intros H; [reflexivity|].
  simpl. rewrite (H a (or_introl eq_refl)). apply IH.
  intros x Hx. apply H. now right.
Qed.

Lemma tasks_content_none (db : Store) (source_job_id : string)
  (cfg : multiplier_config) :
  (forall a, In a (artifacts db) -> Artifact.job_id a <> source_job_id) ->
  (forall a, In a (action_history db) ->
             ActionHistory.job_id a <> source_job_id) ->
  tasks_content db source_job_id cfg = None.
Proof.
  intros Hart Hact. unfold tasks_content. destruct (source_type cfg).
  - rewrite filter_all_false; [reflexivity|].
    intros a Ha. apply andb_false_iff. left. apply String.eqb_neq. now apply Hart.
  - rewrite filter_all_false; [reflexivity|].
    intros a Ha. apply String.eqb_neq. now apply Hact.
Qed.

(** X14.  For a completed job that has neither an artifact nor an action
    history row, the multiplier check spawns nothing: it returns 0 and
    leaves the store and the uuid counter as they were, whatever
    multipliers the template declares. *)
Theorem multiplier_needs_a_source (env : Env) (st : Store * nat)
  (completed_job_id : string) :
  (forall a, In a (artifacts (fst st)) ->
             Artifact.job_id a <> completed_job_id) ->
  (forall a, In a (action_history (fst st)) ->
             ActionHistory.job_id a <> completed_job_id) ->
  check_and_spawn_multiplied_jobs env st completed_job_id = (st, 0).
Proof.
  intros Hart Hact. unfold check_and_spawn_multiplied_jobs.
  destruct (select_job (fst st) completed_job_id) as [cj|]; [|reflexivity].
  destruct (match select_pipeline (fst st) (Job.pipeline_id cj) with
            | Some p => truthy (Pipeline.template_id p)
            | None => None
            end) as [template_id|]; [|reflexivity].
  destruct (truthy (Job.template_job_id cj)) as [ct|]; [|reflexivity].
  generalize (multiplier_template_jobs (fst st) template_id). intros rows.
  induction rows as [|row rows IH]; [reflexivity|].
  simpl. rewrite <- IH at 2. f_equal.
  unfold multiplier_step. cbn [fst snd].
  destruct (TemplateJob.job_multiplier (fst row)) as [cfg|]; [|reflexivity].
  destruct (truthy (source_template_job_id cfg)) as [src|]; [|reflexivity].
  destruct (negb (String.eqb src ct)); [reflexivity|].
  destruct (already_spawned (fst st) completed_job_id
              (TemplateJob.template_job_id (fst row)) >? 0); [reflexivity|].
  destruct (find _ (stages (fst st))) as [stage|]; [|reflexivity].
  unfold spawn_multiplied_jobs.
  rewrite (tasks_content_none _ _ cfg Hart Hact). reflexivity.
Qed.

Lemma multiplier_needs_a_source_witness :
  check_and_spawn_multiplied_jobs (scenario_env quiet_shell)
    (with_artifacts [] (store_planner three_tasks), O) "p"
  = ((with_artifacts [] (store_planner three_tasks), O), 0).
Proof.
  apply (multiplier_needs_a_source (scenario_env quiet_shell)
           (with_artifacts [] (store_planner three_tasks), O) "p");
    simpl; intros a [].
Defined.

(* ------------------------------------------------------------------ *)
(** ** Artifact collection *)

(** X15.  What the [stdout_final] collector stores is what the multiplier
    reads back: after collecting a non-empty final output for a job that
    had no artifact named [final_output.txt], the multiplier's artifact
    source for that job (with the default or that artifact name) is the
    final output. *)
Theorem stdout_final_feeds_multiplier (env : Env) (job_id final_output : string)
  (st : Store * nat) (cfg : multiplier_config) :
  final_output <> "" ->
  (forall a, In a (artifacts (fst st)) ->
             Artifact.job_id a = job_id -> Artifact.name a <> "final_output.txt") ->
  source_type cfg = source_artifact ->
  get (artifact_name cfg) "final_output.txt" = "final_output.txt" ->
  tasks_content
    (fst (collect_artifacts cfg_stdout_final env job_id final_output st))
    job_id cfg
  = Some final_output.
Proof.
  intros Hne Hfresh Hsrc Hname. cbn [collect_artifacts].
  unfold stdout_final_collect.
  destruct final_output as [|c r]; [congruence|]. cbn [is_empty fst].
  unfold tasks_content. rewrite Hsrc, Hname.
  cbn [insert_artifact with_artifacts artifacts].
  rewrite filter_app. rewrite (filter_all_false _ (artifacts (fst st))).
  - cbn. now rewrite String.eqb_refl.
  - intros a Ha. apply andb_false_iff.
    destruct (String.eqb (Artifact.job_id a) job_id) eqn:E; [right|now left].
    apply String.eqb_eq in E. apply String.eqb_neq. now apply Hfresh.
Qed.

Lemma stdout_final_feeds_multiplier_witness :
  tasks_content
    (fst (collect_artifacts cfg_stdout_final (scenario_env quiet_shell)
            "job-1" three_tasks (store_chain, O)))
    "job-1" worker_multiplier
  = Some three_tasks.
Proof.
  apply (stdout_final_feeds_multiplier (scenario_env quiet_shell) "job-1"
           three_tasks (store_chain, O) worker_multiplier);
    [discriminate|simpl; intros a []|reflexivity|reflexivity].
Defined.

Lemma stdout_final_collect_appends (env : Env) (job_id out : string)
  (st : Store * nat) :
  exists extra,
    fst (stdout_final_collect env job_id out st)
    = with_artifacts (artifacts (fst st) ++ extra) (fst st)
    /\ snd (stdout_final_collect env job_id out st)
       = (snd st + List.length extra)%nat
    /\ Forall (fun a => Artifact.job_id a = job_id) extra
    /\ (out = "" -> extra = []).
Proof.
  unfold stdout_final_collect. destruct out as [|c r].
  - exists []. cbn. rewrite app_nil_r. repeat split; auto.
    + now destruct st as [[] ?].
  - eexists [_]. cbn [is_empty fst snd]. repeat split.
    + cbn. lia.
    + repeat constructor.
    + discriminate.
Qed.

Lemma with_artifacts_app (l1 l2 : list Artifact.row) (db : Store) :
  with_artifacts (artifacts (with_artifacts (artifacts db ++ l1) db) ++ l2)
    (with_artifacts (artifacts db ++ l1) db)
  = with_artifacts (artifacts db ++ (l1 ++ l2)) db.
Proof. cbn. now rewrite app_assoc. Qed.

Lemma git_diff_collect_appends (env : Env) (job_id : string) (st : Store * nat) :
  exists extra,
    fst (git_diff_collect env job_id st)
    = with_artifacts (artifacts (fst st) ++ extra) (fst st)
    /\ snd (git_diff_collect env job_id st) = (snd st + List.length extra)%nat
    /\ Forall (fun a => Artifact.job_id a = job_id) extra.
Proof.
  unfold git_diff_collect. revert st.
  induction (git_changes env) as [|f l IH]; intros st.
  - exists []. cbn. rewrite app_nil_r. repeat split; auto.
    now destruct st as [[] ?].
  - cbn [fold_left].
    match goal with
    | |- context [fold_left _ l ?s] =>
        destruct (IH s) as (extra & Hdb & Hk & Hall)
    end.
    eexists (_ :: extra). split; [|split].
    + rewrite Hdb. cbn. now rewrite <- app_assoc.
    + rewrite Hk. cbn. lia.
    + constructor; [reflexivity|exact Hall].
Qed.

(** X16.  Artifact collection, for every strategy configuration (nested
    composites included), only appends rows to the artifacts table: the
    rest of the store is untouched, every appended artifact belongs to the
    job, and as many uuids are drawn as artifacts are appended. *)
Theorem collect_artifacts_appends :
  forall (cfg : artifact_strategy_config) (env : Env) (job_id out : string)
         (st : Store * nat),
  exists extra,
    fst (collect_artifacts cfg env job_id out st)
    = with_artifacts (artifacts (fst st) ++ extra) (fst st)
    /\ snd (collect_artifacts cfg env job_id out st)
       = (snd st + List.length extra)%nat
    /\ Forall (fun a => Artifact.job_id a = job_id) extra.
Proof.
  fix IH 1. intros cfg env job_id out st. destruct cfg as [| |l|t].
  - clear IH. destruct (stdout_final_collect_appends env job_id out st)
      as (extra & H1 & H2 & H3 & _).
    exists extra. split; [exact H1|]. split; [exact H2|exact H3].
  - clear IH. apply git_diff_collect_appends.
  - cbn [collect_artifacts]. revert st.
    induction l as [|c l IHl]; intros st.
    + exists []. cbn. rewrite app_nil_r.
      split; [destruct st as [[] ?]; reflexivity|].
      split; [lia|constructor].
    + cbn [fold_left].
      destruct (IH c env job_id out st) as (e1 & Hd1 & Hk1 & Ha1).
      destruct (IHl (collect_artifacts c env job_id out st))
        as (e2 & Hd2 & Hk2 & Ha2).
      exists (e1 ++ e2)%list. split; [|split].
      * rewrite Hd2, Hd1. apply with_artifacts_app.
      * rewrite Hk2, Hk1, length_app. lia.
      * apply Forall_app. split; assumption.
  - clear IH. destruct (stdout_final_collect_appends env job_id out st)
      as (extra & H1 & H2 & H3 & _).
    exists extra. split; [exact H1|]. split; [exact H2|exact H3].
Qed.

(* ------------------------------------------------------------------ *)
(** ** Template instantiation *)

Example instantiate_linear :
  let r := instantiate_template (scenario_env quiet_shell) (empty_store, O)
             (Some linear_template) "tpl" "X" "/workspace" [] [] in
  snd r = Some "job-0"
  /\ map (fun j => (Job.job_id j, Job.stage_id j, Job.prompt j, Job.command j,
                    Job.status j))
         (jobs (fst (fst r)))
     = [("job-2", "job-1", "Do: X", Some "echo job-2", pending);
        ("job-4", "job-3", "Do: X", Some "echo job-4", pending)]
  /\ job_dependencies (fst (fst r)) = [an_edge "job-4" "job-2" success]
  /\ map Pipeline.status (pipelines (fst (fst r))) = [p_pending].
Proof. repeat split; reflexivity. Qed.

Example instantiate_excluding_a :
  let r := instantiate_template (scenario_env quiet_shell) (empty_store, O)
             (Some linear_template) "tpl" "X" "/workspace" [] ["a"] in
  map Job.template_job_id (jobs (fst (fst r))) = [Some "b"]
  /\ job_dependencies (fst (fst r)) = [].
Proof. repeat split; reflexivity. Qed.

(** The loop over one stage's jobs: the rows it appends, the uuids it
    draws, and the assignments it adds to [job_map]. *)
Lemma instantiate_jobs_spec (env : Env)
  (pipeline_id stage_id original_prompt workspace_path : string)
  (excluded_job_ids : list string) :
  forall js acc,
    let r := instantiate_jobs env pipeline_id stage_id original_prompt
               workspace_path excluded_job_ids js acc in
    let kept :=
      filter (fun j => negb (mem (LoadedJob.template_job_id j) excluded_job_ids))
             js in
    fst (fst r) = with_jobs (jobs (fst (fst r))) (fst (fst acc))
    /\ snd (fst r) = (snd (fst acc) + List.length kept)%nat
    /\ exists new_jobs,
         jobs (fst (fst r)) = (jobs (fst (fst acc)) ++ new_jobs)%list
         /\ Forall2 (instance_of pipeline_id original_prompt) kept new_jobs
         /\ forall k v,
              In (k, v) (snd r) ->
              In (k, v) (snd acc)
              \/ (mem k excluded_job_ids = false
                  /\ exists j, In j new_jobs /\ Job.job_id j = v
                               /\ Job.template_job_id j = Some k).
Proof.
  induction js as [|job rest IH]; intros acc; cbv zeta.
  - cbn. split; [now destruct acc as [[[] ?] ?]|]. split; [lia|].
    exists []. rewrite app_nil_r. repeat split; [constructor|auto].
  - cbn [instantiate_jobs filter].
    destruct (mem (LoadedJob.template_job_id job) excluded_job_ids) eqn:Em;
      cbn [negb]; [apply IH|].
    match goal with
    | |- context [instantiate_jobs _ _ _ _ _ _ rest ?a] =>
        specialize (IH a); cbv zeta in IH; cbn [fst snd] in IH;
        destruct IH as (Hdb & Hk & nj & Hjobs & Hinst & Hmap)
    end.
    split; [rewrite Hdb at 1; reflexivity|].
    split; [rewrite Hk; cbn; lia|].
    eexists (_ :: nj). split; [|split].
    + rewrite Hjobs. cbn [insert_job with_jobs jobs].
      rewrite <- app_assoc. reflexivity.
    + constructor; [repeat split|exact Hinst].
    + intros k v Hin. destruct (Hmap k v Hin) as [[Heq|Hacc]|(Hm & j & Hj & H1 & H2)].
      * inversion Heq; subst. right. split; [exact Em|].
        eexists. split; [now left|]. split; reflexivity.
      * now left.
      * right. split; [exact Hm|]. exists j. split; [now right|auto].
Qed.

Lemma with_jobs_with_stages (js : list Job.row) (ss : list Stage.row)
  (db : Store) :
  with_jobs js (with_stages ss db) = with_stages ss (with_jobs js db).
Proof. reflexivity. Qed.

(** The loop over the stages. *)
Lemma instantiate_stages_spec (env : Env)
  (pipeline_id original_prompt workspace_path : string)
  (excluded_stage_ids excluded_job_ids : list string) :
  forall ss acc,
    let r := instantiate_stages env pipeline_id original_prompt workspace_path
               excluded_stage_ids excluded_job_ids ss acc in
    let kept :=
      flat_map
        (fun s =>
           filter (fun j => negb (mem (LoadedJob.template_job_id j)
                                    excluded_job_ids))
                  (LoadedStage.jobs s))
        (filter (fun s => negb (mem (LoadedStage.template_stage_id s)
                                  excluded_stage_ids)) ss) in
    pipelines (fst (fst r)) = pipelines (fst (fst acc))
    /\ job_dependencies (fst (fst r)) = job_dependencies (fst (fst acc))
    /\ exists new_jobs,
         jobs (fst (fst r)) = (jobs (fst (fst acc)) ++ new_jobs)%list
         /\ Forall2 (instance_of pipeline_id original_prompt) kept new_jobs
         /\ forall k v,
              In (k, v) (snd r) ->
              In (k, v) (snd acc)
              \/ (mem k excluded_job_ids = false
                  /\ exists j, In j new_jobs /\ Job.job_id j = v
                               /\ Job.template_job_id j = Some k).
Proof.
  induction ss as [|stage rest IH]; intros acc; cbv zeta.
  - cbn. split; [reflexivity|]. split; [reflexivity|].
    exists []. rewrite app_nil_r. repeat split; [constructor|auto].
  - cbn [instantiate_stages filter].
    destruct (mem (LoadedStage.template_stage_id stage) excluded_stage_ids);
      cbn [negb]; [apply IH|].
    cbn [flat_map].
    match goal with
    | |- context [instantiate_jobs ?e ?p ?s ?o ?w ?x ?js ?a] =>
        pose proof (instantiate_jobs_spec e p s o w x js a) as Hj;
        cbv zeta in Hj; cbn [fst snd] in Hj;
        destruct Hj as (Hdb & _ & nj1 & Hjobs1 & Hinst1 & Hmap1);
        specialize (IH (instantiate_jobs e p s o w x js a))
    end.
    cbv zeta in IH. destruct IH as (Hp & Hd & nj2 & Hjobs2 & Hinst2 & Hmap2).
    split; [rewrite Hp, Hdb; reflexivity|].
    split; [rewrite Hd, Hdb; reflexivity|].
    exists (nj1 ++ nj2)%list. split; [|split].
    + rewrite Hjobs2, Hjobs1. cbn [with_stages jobs]. now rewrite app_assoc.
    + now apply Forall2_app.
    + intros k v Hin. destruct (Hmap2 k v Hin) as [H|(Hm & j & Hj & H1 & H2)].
      * destruct (Hmap1 k v H) as [H'|(Hm & j & Hj & H1 & H2)]; [now left|].
        right. split; [exact Hm|]. exists j. split; [|auto].
        apply in_or_app. now left.
      * right. split; [exact Hm|]. exists j. split; [|auto].
        apply in_or_app. now right.
Qed.

Lemma dict_get_in (d : list (string * string)) (k v : string) :
  dict_get d k = Some v -> In (k, v) d.
Proof.
  unfold dict_get. destruct (find _ d) as [[k' v']|] eqn:E; [|discriminate].
  apply find_some in E. destruct E as [Hin Hk]. apply String.eqb_eq in Hk.
  cbn in *. intros H. inversion H; subst. exact Hin.
Qed.

Lemma instantiate_dependencies_cons (excluded_job_ids : list string)
  (job_map : list (string * string)) (dep : LoadedDependency.t)
  (rest : list LoadedDependency.t) (db : Store) :
  instantiate_dependencies excluded_job_ids job_map (dep :: rest) db
  = instantiate_dependencies excluded_job_ids job_map rest
      (if mem (LoadedDependency.template_job_id dep) excluded_job_ids then db
       else if mem (LoadedDependency.depends_on_template_job_id dep)
                 excluded_job_ids then db
       else
         match truthy (dict_get job_map (LoadedDependency.template_job_id dep)),
               truthy (dict_get job_map
                         (LoadedDependency.depends_on_template_job_id dep)) with
         | Some job_id, Some depends_on_job_id =>
             insert_job_dependency
               {| JobDependency.job_id := job_id;
                  JobDependency.depends_on_job_id := depends_on_job_id;
                  JobDependency.dependency_type :=
                    LoadedDependency.dependency_type dep |} db
         | _, _ => db
         end).
Proof. reflexivity. Qed.

(** The loop over the template's dependency rows. *)
Lemma instantiate_dependencies_spec (excluded_job_ids : list string)
  (job_map : list (string * string)) :
  forall deps db,
    let db' := instantiate_dependencies excluded_job_ids job_map deps db in
    db' = with_job_dependencies (job_dependencies db') db
    /\ exists new_deps,
         job_dependencies db' = (job_dependencies db ++ new_deps)%list
         /\ forall e, In e new_deps ->
                      edge_origin excluded_job_ids job_map deps e.
Proof.
  induction deps as [|dep rest IH]; intros db; cbv zeta.
  - cbn. split; [now destruct db|]. exists []. rewrite app_nil_r.
    split; [reflexivity|]. intros e [].
  - rewrite instantiate_dependencies_cons.
    assert (let db' := instantiate_dependencies excluded_job_ids job_map rest db in
            db' = with_job_dependencies (job_dependencies db') db
            /\ exists new_deps,
                 job_dependencies db' = (job_dependencies db ++ new_deps)%list
                 /\ forall e, In e new_deps ->
                              edge_origin excluded_job_ids job_map (dep :: rest) e)
      as Hskip.
    { cbv zeta. destruct (IH db) as (Hdb & nd & Hd & He).
      split; [exact Hdb|]. exists nd. split; [exact Hd|].
      intros e Hin. destruct (He e Hin) as [dep0 (H0 & H)]. exists dep0.
      split; [now right|exact H]. }
    destruct (mem (LoadedDependency.template_job_id dep) excluded_job_ids)
      eqn:E1; [exact Hskip|].
    destruct (mem (LoadedDependency.depends_on_template_job_id dep)
                excluded_job_ids) eqn:E2; [exact Hskip|].
    destruct (truthy (dict_get job_map (LoadedDependency.template_job_id dep)))
      as [job_id|] eqn:G1; [|exact Hskip].
    destruct (truthy (dict_get job_map
                        (LoadedDependency.depends_on_template_job_id dep)))
      as [depends_on|] eqn:G2; [|exact Hskip].
    clear Hskip.
    match goal with
    | |- context [instantiate_dependencies _ _ rest ?d] =>
        destruct (IH d) as (Hdb & nd & Hd & He)
    end.
    split; [rewrite Hdb at 1; reflexivity|].
    eexists (_ :: nd). split.
    + rewrite Hd. cbn [insert_job_dependency with_job_dependencies
                         job_dependencies].
      rewrite <- app_assoc. reflexivity.
    + intros e [Heq|Hin].
      * subst e. exists dep. cbn.
        apply truthy_some in G1, G2. destruct G1 as [G1 _], G2 as [G2 _].
        apply dict_get_in in G1, G2. repeat split; auto.
      * destruct (He e Hin) as [dep0 (H0 & H)]. exists dep0.
        split; [now right|exact H].
Qed.

Lemma instantiate_template_pipelines (env : Env) (st : Store * nat)
  (t : loaded_template) (template_id original_prompt workspace_path : string)
  (excluded_stage_ids excluded_job_ids : list string) :
  let r := instantiate_template env st (Some t) template_id original_prompt
             workspace_path excluded_stage_ids excluded_job_ids in
  snd r = Some (uuid4 env (snd st))
  /\ pipelines (fst (fst r))
     = (pipelines (fst st)
        ++ [new_pipeline env (uuid4 env (snd st)) template_id original_prompt])%list.
Proof.
  cbv zeta. unfold instantiate_template. cbn [fst snd].
  split; [reflexivity|].
  match goal with
  | |- context [instantiate_stages ?e ?p ?o ?w ?xs ?xj ?ss ?a] =>
      pose proof (instantiate_stages_spec e p o w xs xj ss a) as Hs;
      cbv zeta in Hs; cbn [fst snd] in Hs;
      destruct Hs as (Hp & _);
      pose proof (instantiate_dependencies_spec xj
                    (snd (instantiate_stages e p o w xs xj ss a))
                    (template_dependencies_of t)
                    (fst (fst (instantiate_stages e p o w xs xj ss a)))) as Hdeps;
      cbv zeta in Hdeps; destruct Hdeps as (Hdb & _)
  end.
  rewrite Hdb. cbn [with_job_dependencies pipelines]. rewrite Hp. reflexivity.
Qed.

(** X17.  Instantiating a template that was found returns a fresh pipeline
    id, appends one [pending] pipeline row carrying the template id and the
    prompt, and appends exactly one job row per template job kept by the
    exclusions, in template order: each is pending, belongs to the new
    pipeline, has the template's prompt with the placeholder replaced by
    the prompt as both prompt and original prompt, and points back to its
    template job.  Excluded stages and jobs give no row. *)
Theorem instantiate_template_jobs (env : Env) (st : Store * nat)
  (t : loaded_template) (template_id original_prompt workspace_path : string)
  (excluded_stage_ids excluded_job_ids : list string) :
  let r := instantiate_template env st (Some t) template_id original_prompt
             workspace_path excluded_stage_ids excluded_job_ids in
  snd r = Some (uuid4 env (snd st))
  /\ pipelines (fst (fst r))
     = (pipelines (fst st)
        ++ [new_pipeline env (uuid4 env (snd st)) template_id original_prompt])%list
  /\ exists new_jobs,
       jobs (fst (fst r)) = (jobs (fst st) ++ new_jobs)%list
       /\ Forall2 (instance_of (uuid4 env (snd st)) original_prompt)
                  (kept_jobs excluded_stage_ids excluded_job_ids t) new_jobs.
Proof.
  cbv zeta. unfold instantiate_template. cbn [fst snd].
  split; [reflexivity|].
  match goal with
  | |- context [instantiate_stages ?e ?p ?o ?w ?xs ?xj ?ss ?a] =>
      pose proof (instantiate_stages_spec e p o w xs xj ss a) as Hs;
      cbv zeta in Hs; cbn [fst snd] in Hs;
      destruct Hs as (Hp & Hd & nj & Hjobs & Hinst & _);
      pose proof (instantiate_dependencies_spec xj
                    (snd (instantiate_stages e p o w xs xj ss a))
                    (template_dependencies_of t)
                    (fst (fst (instantiate_stages e p o w xs xj ss a)))) as Hdeps;
      cbv zeta in Hdeps; destruct Hdeps as (Hdb & _)
  end.
  split.
  - rewrite Hdb. cbn [with_job_dependencies pipelines]. rewrite Hp. reflexivity.
  - exists nj. split; [|exact Hinst].
    rewrite Hdb. cbn [with_job_dependencies jobs]. rewrite Hjobs. reflexivity.
Qed.

(** X18.  Every dependency edge written by an instantiation comes from a
    dependency row of the template none of whose ends is excluded, keeps
    its type, and joins two job rows created by this same instantiation:
    the instances of the row's two template jobs.  No edge reaches outside
    the new pipeline. *)
Theorem instantiate_template_edges (env : Env) (st : Store * nat)
  (t : loaded_template) (template_id original_prompt workspace_path : string)
  (excluded_stage_ids excluded_job_ids : list string) :
  let r := instantiate_template env st (Some t) template_id original_prompt
             workspace_path excluded_stage_ids excluded_job_ids in
  exists new_jobs new_deps,
    jobs (fst (fst r)) = (jobs (fst st) ++ new_jobs)%list
    /\ job_dependencies (fst (fst r))
       = (job_dependencies (fst st) ++ new_deps)%list
    /\ forall e,
         In e new_deps ->
         exists dep j1 j2,
           In dep (template_dependencies_of t)
           /\ mem (LoadedDependency.template_job_id dep) excluded_job_ids = false
           /\ mem (LoadedDependency.depends_on_template_job_id dep)
                  excluded_job_ids = false
           /\ JobDependency.dependency_type e
              = LoadedDependency.dependency_type dep
           /\ In j1 new_jobs /\ In j2 new_jobs
           /\ Job.job_id j1 = JobDependency.job_id e
           /\ Job.template_job_id j1
              = Some (LoadedDependency.template_job_id dep)
           /\ Job.job_id j2 = JobDependency.depends_on_job_id e
           /\ Job.template_job_id j2
              = Some (LoadedDependency.depends_on_template_job_id dep)
           /\ Job.pipeline_id j1 = uuid4 env (snd st)
           /\ Job.pipeline_id j2 = uuid4 env (snd st).
Proof.
  cbv zeta. unfold instantiate_template. cbn [fst snd].
  match goal with
  | |- context [instantiate_stages ?e ?p ?o ?w ?xs ?xj ?ss ?a] =>
      pose proof (instantiate_stages_spec e p o w xs xj ss a) as Hs;
      cbv zeta in Hs; cbn [fst snd] in Hs;
      destruct Hs as (Hp & Hd & nj & Hjobs & Hinst & Hmap);
      pose proof (instantiate_dependencies_spec xj
                    (snd (instantiate_stages e p o w xs xj ss a))
                    (template_dependencies_of t)
                    (fst (fst (instantiate_stages e p o w xs xj ss a)))) as Hdeps;
      cbv zeta in Hdeps; destruct Hdeps as (Hdb & nd & Hnd & Hedge)
  end.
  assert (forall j, In j nj -> Job.pipeline_id j = uuid4 env (snd st)) as Hpid.
  { clear - Hinst. induction Hinst as [|a b l l' Hab _ IH]; [intros j []|].
    intros j [Hj|Hj]; [subst; apply Hab|now apply IH]. }
  exists nj, nd. split; [|split].
  - rewrite Hdb. cbn [with_job_dependencies jobs]. rewrite Hjobs. reflexivity.
  - rewrite Hnd, Hd. reflexivity.
  - intros e He. destruct (Hedge e He) as (dep & Hdep & X1 & X2 & M1 & M2 & Ht).
    destruct (Hmap _ _ M1) as [[]|(_ & j1 & Hj1 & Hi1 & Ht1)].
    destruct (Hmap _ _ M2) as [[]|(_ & j2 & Hj2 & Hi2 & Ht2)].
    exists dep, j1, j2. repeat split; auto.
Qed.

Lemma slice_to_length (n : nat) (s : string) :
  (String.length (slice_to n s) <= n)%nat.
Proof.
  unfold slice_to. revert s. induction n as [|n IH]; intros s.
  - destruct s; cbn; lia.
  - destruct s as [|c r]; cbn; [lia|]. specialize (IH r). lia.
Qed.

Lemma find_app_none {A : Type} (f : A -> bool) (l l' : list A) :
  find f l = None -> find f (l ++ l') = find f l'.
Proof.
  induction l as [|a l IH]; simpl; [reflexivity|].
  destruct (f a); [discriminate|exact IH].
Qed.

(** X19.  Creating a pipeline from a template that was found, when the
    drawn pipeline id is not yet stored, answers with that id, the template
    id, the prompt, a name that is the first 50 characters of the prompt,
    and status [pending], which is also the stored status of the new
    pipeline.  When the template is not found it answers with the error and
    leaves the store as it was. *)
Theorem create_pipeline_response (env : Env) (st : Store * nat)
  (t : loaded_template) (template_id prompt workspace_path : string) :
  select_pipeline (fst st) (uuid4 env (snd st)) = None ->
  create_pipeline env st None template_id prompt workspace_path = (st, None)
  /\ exists resp,
       snd (create_pipeline env st (Some t) template_id prompt workspace_path)
       = Some resp
       /\ created_pipeline_id resp = uuid4 env (snd st)
       /\ created_template_id resp = template_id
       /\ created_prompt resp = prompt
       /\ created_status resp = p_pending
       /\ created_name resp = slice_to 50 prompt
       /\ (String.length (created_name resp) <= 50)%nat
       /\ pipeline_status_of
            (fst (fst (create_pipeline env st (Some t) template_id prompt
                         workspace_path)))
            (uuid4 env (snd st))
          = Some p_pending.
Proof.
  intros Hfresh. split; [reflexivity|].
  pose proof (instantiate_template_pipelines env st t template_id prompt
                workspace_path [] []) as H.
  cbv zeta in H. destruct H as (Hid & Hp).
  assert (select_pipeline
            (fst (fst (instantiate_template env st (Some t) template_id prompt
                         workspace_path [] [])))
            (uuid4 env (snd st))
          = Some (new_pipeline env (uuid4 env (snd st)) template_id prompt))
    as Hsel.
  { unfold select_pipeline in *. rewrite Hp.
    rewrite find_app_none by assumption. cbn.
    unfold has_pipeline_id. cbn. now rewrite String.eqb_refl. }
  assert (create_pipeline env st (Some t) template_id prompt workspace_path
          = (fst (instantiate_template env st (Some t) template_id prompt
                    workspace_path [] []),
             Some {| created_pipeline_id := uuid4 env (snd st);
                     created_template_id := template_id;
                     created_name := slice_to 50 prompt;
                     created_prompt := prompt;
                     created_status := p_pending |})) as Hcreate.
  { unfold create_pipeline. cbv zeta. rewrite Hid. cbv iota beta.
    rewrite Hsel. reflexivity. }
  rewrite Hcreate. cbn [fst snd].
  eexists. split; [reflexivity|]. cbn [created_pipeline_id created_template_id
    created_name created_prompt created_status].
  repeat split; [apply slice_to_length|].
  unfold pipeline_status_of. now rewrite Hsel.
Qed.

Lemma create_pipeline_response_witness :
  create_pipeline (scenario_env quiet_shell) (empty_store, O) None "tpl" "X"
    "/workspace" = ((empty_store, O), None)
  /\ exists resp,
       snd (create_pipeline (scenario_env quiet_shell) (empty_store, O)
              (Some linear_template) "tpl" "X" "/workspace")
       = Some resp
       /\ created_pipeline_id resp = "job-0"
       /\ created_template_id resp = "tpl"
       /\ created_prompt resp = "X"
       /\ created_status resp = p_pending
       /\ created_name resp = slice_to 50 "X"
       /\ (String.length (created_name resp) <= 50)%nat
       /\ pipeline_status_of
            (fst (fst (create_pipeline (scenario_env quiet_shell)
                         (empty_store, O) (Some linear_template) "tpl" "X"
                         "/workspace")))
            "job-0"
          = Some p_pending.
Proof.
  apply (create_pipeline_response (scenario_env quiet_shell) (empty_store, O)
           linear_template "tpl" "X" "/workspace").
  reflexivity.
Defined.

(* ------------------------------------------------------------------ *)
(** ** Listings *)

Lemma in_insert_by {A : Type} (le : A -> A -> bool) (x y : A) (l : list A) :
  In y (insert_by le x l) <-> y = x \/ In y l.
Proof.
  induction l as [|a l IH]; simpl; [intuition|].
  destruct (le x a); simpl; [intuition|]. rewrite IH. intuition.
Qed.

Lemma in_order_by {A : Type} (le : A -> A -> bool) (y : A) (l : list A) :
  In y (order_by le l) <-> In y l.
Proof.
  unfold order_by. induction l as [|a l IH]; simpl; [tauto|].
  rewrite in_insert_by, IH. intuition.
Qed.

Lemma length_insert_by {A : Type} (le : A -> A -> bool) (x : A) (l : list A) :
  List.length (insert_by le x l) = S (List.length l).
Proof.
  induction l as [|a l IH]; simpl; [reflexivity|].
  destruct (le x a); simpl; [reflexivity|now rewrite IH].
Qed.

Lemma length_order_by {A : Type} (le : A -> A -> bool) (l : list A) :
  List.length (order_by le l) = List.length l.
Proof.
  unfold order_by. induction l as [|a l IH]; simpl; [reflexivity|].
  now rewrite length_insert_by, IH.
Qed.

Lemma is_sorted_cons {A : Type} (le : A -> A -> bool) (x : A) (l : list A) :
  is_sorted le (x :: l) = true <->
  (match l with [] => True | y :: _ => le x y = true end)
  /\ is_sorted le l = true.
Proof.
  destruct l as [|y r]; cbn [is_sorted]; [tauto|].
  rewrite andb_true_iff. tauto.
Qed.

Lemma insert_by_sorted {A : Type} (le : A -> A -> bool) (x : A) (l : list A) :
  (forall a b, le a b = true \/ le b a = true) ->
  is_sorted le l = true -> is_sorted le (insert_by le x l) = true.
Proof.
  intros Htot. induction l as [|a l IH]; intros Hs; [reflexivity|].
  cbn [insert_by]. destruct (le x a) eqn:E.
  - apply is_sorted_cons. auto.
  - apply is_sorted_cons in Hs. destruct Hs as [Hhd Hs].
    apply is_sorted_cons. split; [|now apply IH].
    destruct l as [|b r]; cbn [insert_by].
    + destruct (Htot x a); congruence.
    + destruct (le x b); [destruct (Htot x a); congruence|exact Hhd].
Qed.

Lemma order_by_sorted {A : Type} (le : A -> A -> bool) (l : list A) :
  (forall a b, le a b = true \/ le b a = true) ->
  is_sorted le (order_by le l) = true.
Proof.
  intros Htot. unfold order_by. induction l as [|a l IH]; [reflexivity|].
  simpl. now apply insert_by_sorted.
Qed.

Lemma firstn_sorted {A : Type} (le : A -> A -> bool) (n : nat) (l : list A) :
  is_sorted le l = true -> is_sorted le (firstn n l) = true.
Proof.
  revert l. induction n as [|n IH]; intros l Hs; [reflexivity|].
  destruct l as [|x r]; [reflexivity|].
  apply is_sorted_cons in Hs. destruct Hs as [Hhd Hs].
  cbn [firstn]. apply is_sorted_cons. split; [|now apply IH].
  destruct r as [|y r']; [now destruct n|].
  destruct n; [exact I|exact Hhd].
Qed.

Lemma in_firstn {A : Type} (n : nat) (l : list A) (x : A) :
  In x (firstn n l) -> In x l.
Proof.
  revert l. induction n as [|n IH]; intros l H; [contradiction|].
  destruct l as [|a r]; [contradiction|].
  cbn in H. destruct H as [H|H]; [now left|right; now apply IH].
Qed.

Lemma map_sorted {A B : Type} (le : B -> B -> bool) (f : A -> B) (l : list A) :
  is_sorted (fun a b => le (f a) (f b)) l = true ->
  is_sorted le (map f l) = true.
Proof.
  induction l as [|x r IH]; [reflexivity|].
  intros Hs. apply is_sorted_cons in Hs. destruct Hs as [Hhd Hs].
  cbn [map]. apply is_sorted_cons. split; [|now apply IH].
  destruct r; [exact I|exact Hhd].
Qed.

Lemma null_leb_total (a b : option string) :
  null_leb a b = true \/ null_leb b a = true.
Proof.
  destruct a as [x|], b as [y|]; cbn; auto. apply String.leb_total.
Qed.

(** X20.  After the stop operation a pipeline is no longer among the
    running pipelines a client is shown.  Every listed entry is pending or
    running, is the view of a stored pipeline, and its name is a prefix of
    at most 50 characters of the prompt. *)
Theorem stopped_pipeline_not_listed_running (now : string) (db : Store)
  (pipeline_id : string) (v : pipeline_view) :
  In v (get_running_pipelines (fst (stop_pipeline now db pipeline_id))) ->
  view_id v <> pipeline_id
  /\ (view_pipeline_status v = p_pending \/ view_pipeline_status v = p_running)
  /\ (String.length (view_pipeline_name v) <= 50)%nat
  /\ view_pipeline_name v = slice_to 50 (view_description v)
  /\ exists p, In p (pipelines db) /\ view_id v = Pipeline.pipeline_id p
               /\ view_description v = Pipeline.original_prompt p.
Proof.
  unfold get_running_pipelines. intros Hin. apply in_map_iff in Hin.
  destruct Hin as [p [Hv Hp]]. apply filter_In in Hp. destruct Hp as [Hp Hs].
  unfold stop_pipeline, service_stop_pipeline in Hp. cbn [fst] in Hp.
  apply in_update_pipelines in Hp. destruct Hp as [q [Hq Heq]].
  subst v. cbn [pipeline_view_of view_id view_pipeline_status
                 view_pipeline_name view_description].
  destruct (has_pipeline_id pipeline_id q) eqn:E.
  - subst p. cbn in Hs. discriminate.
  - subst p. unfold has_pipeline_id in E. apply String.eqb_neq in E.
    split; [exact E|]. split.
    + apply orb_true_iff in Hs. destruct Hs as [Hs|Hs];
        apply is_pstatus_true in Hs; auto.
    + split; [apply slice_to_length|]. split; [reflexivity|]. eauto.
Qed.

Lemma stopped_pipeline_not_listed_running_witness :
  view_id (pipeline_view_of (fst (stop_pipeline t1 store_three_pipelines "A"))
             (a_pipeline "P" None p_running)) <> "A"
  /\ (view_pipeline_status
        (pipeline_view_of (fst (stop_pipeline t1 store_three_pipelines "A"))
           (a_pipeline "P" None p_running)) = p_pending
      \/ view_pipeline_status
           (pipeline_view_of (fst (stop_pipeline t1 store_three_pipelines "A"))
              (a_pipeline "P" None p_running)) = p_running)
  /\ (String.length
        (view_pipeline_name
           (pipeline_view_of (fst (stop_pipeline t1 store_three_pipelines "A"))
              (a_pipeline "P" None p_running))) <= 50)%nat
  /\ view_pipeline_name
       (pipeline_view_of (fst (stop_pipeline t1 store_three_pipelines "A"))
          (a_pipeline "P" None p_running))
     = slice_to 50
         (view_description
            (pipeline_view_of (fst (stop_pipeline t1 store_three_pipelines "A"))
               (a_pipeline "P" None p_running)))
  /\ exists p, In p (pipelines store_three_pipelines)
               /\ view_id
                    (pipeline_view_of
                       (fst (stop_pipeline t1 store_three_pipelines "A"))
                       (a_pipeline "P" None p_running))
                  = Pipeline.pipeline_id p
               /\ view_description
                    (pipeline_view_of
                       (fst (stop_pipeline t1 store_three_pipelines "A"))
                       (a_pipeline "P" None p_running))
                  = Pipeline.original_prompt p.
Proof.
  apply (stopped_pipeline_not_listed_running t1 store_three_pipelines "A"
           (pipeline_view_of (fst (stop_pipeline t1 store_three_pipelines "A"))
              (a_pipeline "P" None p_running))).
  simpl. left. reflexivity.
Defined.

(** X21.  The recent listing holds only completed, failed or cancelled
    pipelines, latest completion first with the pipelines that carry no
    completion time last; with a non-negative limit it has at most that
    many entries, and with a negative limit it holds every such pipeline. *)
Theorem get_recent_pipelines_listing (db : Store) (limit : Z) :
  (forall v, In v (get_recent_pipelines db limit) ->
             view_pipeline_status v = p_completed
             \/ view_pipeline_status v = p_failed
             \/ view_pipeline_status v = p_cancelled)
  /\ is_sorted (fun v w => null_leb (view_completed_at w) (view_completed_at v))
               (get_recent_pipelines db limit) = true
  /\ (0 <= limit ->
      Z.of_nat (List.length (get_recent_pipelines db limit)) <= limit)
  /\ (limit < 0 ->
      forall p, In p (pipelines db) ->
                Pipeline.status p = p_completed \/ Pipeline.status p = p_failed
                \/ Pipeline.status p = p_cancelled ->
                In (pipeline_view_of db p) (get_recent_pipelines db limit)).
Proof.
  unfold get_recent_pipelines.
  set (le := fun a b => null_leb (Pipeline.completed_at b)
                                 (Pipeline.completed_at a)).
  set (sel := fun p => is_pstatus (Pipeline.status p) p_completed
                       || is_pstatus (Pipeline.status p) p_failed
                       || is_pstatus (Pipeline.status p) p_cancelled).
  assert (forall p, sel p = true <->
                    Pipeline.status p = p_completed
                    \/ Pipeline.status p = p_failed
                    \/ Pipeline.status p = p_cancelled) as Hsel.
  { intros p. unfold sel. rewrite !orb_true_iff, !is_pstatus_true. tauto. }
  assert (is_sorted le (order_by le (filter sel (pipelines db))) = true) as Hsorted.
  { apply order_by_sorted. intros a b. unfold le. apply null_leb_total. }
  repeat split.
  - intros v Hv. apply in_map_iff in Hv. destruct Hv as [p [Hv Hp]]. subst v.
    cbn [pipeline_view_of view_pipeline_status]. apply Hsel.
    assert (In p (order_by le (filter sel (pipelines db)))) as Hin.
    { unfold sql_limit in Hp. destruct (limit <? 0); [exact Hp|].
      eapply in_firstn; eassumption. }
    apply in_order_by in Hin. apply filter_In in Hin. tauto.
  - apply map_sorted. cbn [pipeline_view_of view_completed_at].
    unfold sql_limit. destruct (limit <? 0); [exact Hsorted|].
    now apply firstn_sorted.
  - intros Hl. rewrite length_map. unfold sql_limit.
    destruct (limit <? 0) eqn:E; [apply Z.ltb_lt in E; lia|].
    pose proof (firstn_le_length (Z.to_nat limit)
                  (order_by le (filter sel (pipelines db)))). lia.
  - intros Hl p Hp Hs. apply in_map. unfold sql_limit.
    apply Z.ltb_lt in Hl. rewrite Hl.
    apply in_order_by. apply filter_In. split; [exact Hp|now apply Hsel].
Qed.

Lemma get_recent_pipelines_listing_witness :
  0 <= 1
  /\ Z.of_nat (List.length (get_recent_pipelines store_three_pipelines 1)) <= 1.
Proof.
  split; [lia|].
  destruct (get_recent_pipelines_listing store_three_pipelines 1)
    as (_ & _ & H & _).
  apply H. lia.
Defined.

Example recent_latest_first :
  map view_id (get_recent_pipelines store_three_pipelines 10) = ["B"; "A"]
  /\ map view_id (get_recent_pipelines store_three_pipelines 1) = ["B"]
  /\ map view_id
       (get_recent_pipelines (fst (stop_pipeline t1 store_three_pipelines "P"))
          (-1))
     = ["B"; "A"; "P"]
  /\ map view_id (get_running_pipelines store_three_pipelines) = ["P"].
Proof. repeat split; reflexivity. Qed.

(** X22.  [get_pipeline] answers nothing exactly when no pipeline row has
    the id.  Otherwise it answers with a stored pipeline of that id and
    with its jobs in stage order: a job is listed (with the order of its
    stage) iff it is stored under the pipeline and a stage row carries its
    stage id, so a job whose stage row is missing is left out. *)
Theorem get_pipeline_jobs (db : Store) (pipeline_id : string) :
  (get_pipeline db pipeline_id = None <->
   forall p, In p (pipelines db) -> Pipeline.pipeline_id p <> pipeline_id)
  /\ forall p js,
       get_pipeline db pipeline_id = Some (p, js) ->
       In p (pipelines db)
       /\ Pipeline.pipeline_id p = pipeline_id
       /\ is_sorted (fun a b => snd a <=? snd b) js = true
       /\ forall j o,
            In (j, o) js <->
            In j (jobs db) /\ Job.pipeline_id j = pipeline_id
            /\ exists s, In s (stages db)
                         /\ Stage.stage_id s = Job.stage_id j
                         /\ Stage.stage_order s = o.
Proof.
  unfold get_pipeline, select_pipeline. split.
  - destruct (find (has_pipeline_id pipeline_id) (pipelines db)) as [p|] eqn:E.
    + split; [discriminate|]. intros H. apply find_some in E.
      destruct E as [Hin Hid]. unfold has_pipeline_id in Hid.
      apply String.eqb_eq in Hid. now apply H in Hin.
    + split; [|reflexivity]. intros _ p Hp Hid.
      apply (find_none _ _ E) in Hp. unfold has_pipeline_id in Hp.
      apply String.eqb_neq in Hp. contradiction.
  - intros p js H.
    destruct (find (has_pipeline_id pipeline_id) (pipelines db)) as [q|] eqn:E;
      [|discriminate].
    inversion H; subst q js. clear H. apply find_some in E.
    destruct E as [Hin Hid]. unfold has_pipeline_id in Hid.
    apply String.eqb_eq in Hid.
    split; [exact Hin|]. split; [exact Hid|]. split.
    + apply order_by_sorted. intros a b.
      destruct (Z.leb_spec (snd a) (snd b)); [now left|right].
      apply Z.leb_le. lia.
    + intros j o. rewrite in_order_by, in_flat_map. split.
      * intros [j' [Hj' Hrow]].
        destruct (String.eqb (Job.pipeline_id j') pipeline_id) eqn:Ep;
          [|contradiction].
        apply in_map_iff in Hrow. destruct Hrow as [s [Heq Hs]].
        inversion Heq; subst j' o. apply filter_In in Hs.
        destruct Hs as [Hs Hsid]. apply String.eqb_eq in Ep, Hsid.
        split; [exact Hj'|]. split; [exact Ep|]. exists s. auto.
      * intros (Hj & Hp & s & Hs & Hsid & Ho). exists j. split; [exact Hj|].
        apply String.eqb_eq in Hp. rewrite Hp. apply in_map_iff.
        exists s. split; [now rewrite Ho|]. apply filter_In.
        split; [exact Hs|]. apply String.eqb_eq. now symmetry.
Qed.

Lemma get_pipeline_jobs_witness :
  exists p js,
    get_pipeline store_orphan_job "P" = Some (p, js)
    /\ Pipeline.pipeline_id p = "P"
    /\ is_sorted (fun a b => snd a <=? snd b) js = true.
Proof.
  eexists _, _. split; [reflexivity|].
  destruct (get_pipeline_jobs store_orphan_job "P") as [_ H].
  destruct (H _ _ eq_refl) as (_ & Hid & Hs & _).
  split; [exact Hid|exact Hs].
Defined.

Example get_pipeline_drops_orphan :
  option_map (fun r => map (fun jo => Job.job_id (fst jo)) (snd r))
             (get_pipeline store_orphan_job "P") = Some ["a"]
  /\ get_pipeline store_orphan_job "Q" = None.
Proof. repeat split; reflexivity. Qed.

Lemma deadlock_step_refl (now pipeline_id : string) (l : list Job.row) :
  Forall2 (deadlock_step now pipeline_id) l l.
Proof. induction l; constructor; [now left|assumption]. Qed.

Lemma finalize_step_refl (now pipeline_id : string) (l : list Pipeline.row) :
  Forall2 (finalize_step now pipeline_id) l l.
Proof. induction l; constructor; [now left|assumption]. Qed.

Lemma finalize_step_update (now pipeline_id : string) (s : pipeline_status)
  (db : Store) :
  s = p_completed \/ s = p_failed ->
  Forall2 (finalize_step now pipeline_id) (pipelines db)
          (pipelines (update_pipelines (has_pipeline_id pipeline_id)
                        (set_pipeline_done s now) db)).
Proof.
  intros Hs. unfold update_pipelines. simpl.
  induction (pipelines db) as [|p l IH]; simpl; constructor; [|exact IH].
  unfold has_pipeline_id.
  destruct (String.eqb (Pipeline.pipeline_id p) pipeline_id) eqn:E.
  - right. apply String.eqb_eq in E. split; [exact E|].
    destruct Hs as [-> | ->]; auto.
  - now left.
Qed.

(** X23.  The completion check of a pipeline touches nothing outside that
    pipeline: a job row is either untouched or was a pending row of the
    pipeline and is now skipped for deadlock; a pipeline row is either
    untouched or is a row of that pipeline, finalized as completed or
    failed; dependencies and every other table stay as they were. *)
Theorem check_pipeline_completion_frame (now : string) (db db' : Store)
  (pipeline_id : string) :
  check_pipeline_completion now db pipeline_id = Some db' ->
  Forall2 (deadlock_step now pipeline_id) (jobs db) (jobs db')
  /\ Forall2 (finalize_step now pipeline_id) (pipelines db) (pipelines db')
  /\ db' = with_pipelines (pipelines db') (with_jobs (jobs db') db).
Proof.
  unfold check_pipeline_completion.
  destruct (match sql_sum _ with Some d => _ | None => false end).
  - destruct (sql_sum _) as [f|]; [|discriminate].
    intros H. inversion H; subst. clear H. split; [|split].
    + apply deadlock_step_refl.
    + apply finalize_step_update. destruct (f >? 0); auto.
    + now destruct db.
  - destruct (sql_sum _) as [p|]; [|discriminate].
    assert (Forall2 (deadlock_step now pipeline_id) (jobs db) (jobs db)
            /\ Forall2 (finalize_step now pipeline_id) (pipelines db)
                       (pipelines db)
            /\ db = with_pipelines (pipelines db) (with_jobs (jobs db) db))
      as Hsame.
    { split; [apply deadlock_step_refl|]. split; [apply finalize_step_refl|].
      now destruct db. }
    destruct (p >? 0); [|intros H; inversion H; subst; exact Hsame].
    destruct (sql_count _ >? 0); intros H; inversion H; subst;
      [|exact Hsame].
    clear H Hsame. split; [|split].
    + unfold update_jobs. cbn [jobs with_jobs update_pipelines with_pipelines].
      induction (jobs db) as [|a l IH]; simpl; constructor; [|exact IH].
      destruct (in_pipeline pipeline_id a && is_status (Job.status a) pending)
        eqn:E; [|now left].
      right. apply andb_true_iff in E. destruct E as [E1 E2].
      unfold in_pipeline in E1. apply String.eqb_eq in E1.
      apply is_status_true in E2. auto.
    + change (pipelines (update_jobs ?c ?g ?d)) with (pipelines d).
      apply finalize_step_update. auto.
    + now destruct db.
Qed.

Lemma check_pipeline_completion_frame_witness :
  exists db',
    check_pipeline_completion t1 store_unsatisfiable_failure_edge "P" = Some db'
    /\ Forall2 (deadlock_step t1 "P") (jobs store_unsatisfiable_failure_edge)
               (jobs db')
    /\ Forall2 (finalize_step t1 "P")
               (pipelines store_unsatisfiable_failure_edge) (pipelines db')
    /\ db' = with_pipelines (pipelines db')
               (with_jobs (jobs db') store_unsatisfiable_failure_edge).
Proof.
  eexists. split; [reflexivity|].
  apply (check_pipeline_completion_frame t1 store_unsatisfiable_failure_edge _ "P").
  reflexivity.
Defined.

(* ------------------------------------------------------------------ *)
(** ** Executor: what a run leaves alone *)

(** Every job row the multiplier check appends is a pending child of the
    completed job. *)
Lemma check_and_spawn_children (env : Env) (st : Store * nat)
  (completed_job_id : string) :
  exists extra,
    jobs (fst (fst (check_and_spawn_multiplied_jobs env st completed_job_id)))
    = (jobs (fst st) ++ extra)%list
    /\ Forall (fun j => Job.parent_job_id j = Some completed_job_id
                        /\ Job.status j = pending)
              extra.
Proof.
  unfold check_and_spawn_multiplied_jobs.
  assert (exists extra,
             jobs (fst st) = (jobs (fst st) ++ extra)%list
             /\ Forall (fun j => Job.parent_job_id j = Some completed_job_id
                                 /\ Job.status j = pending) extra)
    as Hsame by (exists []; now rewrite app_nil_r).
  destruct (select_job (fst st) completed_job_id) as [cj|]; [|exact Hsame].
  destruct (match select_pipeline (fst st) (Job.pipeline_id cj) with
            | Some p => truthy (Pipeline.template_id p)
            | None => None
            end) as [template_id|]; [|exact Hsame].
  destruct (truthy (Job.template_job_id cj)) as [ct|]; [|exact Hsame].
  generalize (multiplier_template_jobs (fst st) template_id). intros rows.
  generalize (match select_pipeline (fst st) (Job.pipeline_id cj) with
              | Some p => Pipeline.original_prompt p
              | None => ""
              end). intros op.
  assert (forall acc,
             (exists extra,
                 jobs (fst (fst acc)) = (jobs (fst st) ++ extra)%list
                 /\ Forall (fun j => Job.parent_job_id j = Some completed_job_id
                                     /\ Job.status j = pending) extra) ->
             exists extra,
               jobs (fst (fst (fold_left
                                 (multiplier_step env completed_job_id ct
                                    (Job.pipeline_id cj) op) rows acc)))
               = (jobs (fst st) ++ extra)%list
               /\ Forall (fun j => Job.parent_job_id j = Some completed_job_id
                                   /\ Job.status j = pending) extra) as Hfold.
  { induction rows as [|row rows IH]; intros acc [extra [He Hall]].
    - simpl. eauto.
    - simpl. apply IH.
      destruct (multiplier_step_jobs env completed_job_id ct
                  (Job.pipeline_id cj) op acc row)
        as (_ & extra' & Hj & Hall' & _).
      exists (extra ++ extra')%list. split.
      + rewrite Hj, He. now rewrite app_assoc.
      + apply Forall_app. split; [exact Hall|].
        eapply Forall_impl; [|exact Hall']. cbv beta. tauto. }
  apply Hfold. exists []. now rewrite app_nil_r.
Qed.

Lemma run_step_refl (now job_id : string) (deps : list JobDependency.row)
  (l : list Job.row) :
  Forall2 (run_step now job_id deps) l l.
Proof. induction l; constructor; [right; now left|assumption]. Qed.

Lemma run_step_trans (now job_id : string) (deps : list JobDependency.row)
  (l0 l1 l2 : list Job.row) :
  Forall2 (run_step now job_id deps) l0 l1 ->
  Forall2 (run_step now job_id deps) l1 l2 ->
  Forall2 (run_step now job_id deps) l0 l2.
Proof.
  intros H01. revert l2.
  induction H01 as [|a b l0 l1 Hab _ IH]; intros l2 H12; inversion H12; subst;
    constructor; [|now apply IH].
  destruct Hab as [Ha|[->|[-> Hp]]]; [now left|assumption|].
  destruct H1 as [Hb|[->|[-> _]]].
  - left. exact Hb.
  - right. right. auto.
  - right. right. auto.
Qed.

Lemma run_step_update (now job_id : string) (deps : list JobDependency.row)
  (f : Job.row -> Job.row) (db : Store) :
  Forall2 (run_step now job_id deps) (jobs db)
          (jobs (update_jobs (has_job_id job_id) f db)).
Proof.
  unfold update_jobs. simpl.
  induction (jobs db) as [|a l IH]; simpl; constructor; [|exact IH].
  unfold has_job_id. destruct (String.eqb (Job.job_id a) job_id) eqn:E.
  - left. now apply String.eqb_eq.
  - right. now left.
Qed.

Lemma run_step_skipped (now job_id : string) (deps : list JobDependency.row)
  (P : string -> Prop) (l l' : list Job.row) :
  (forall id, P id -> success_path deps job_id id) ->
  Forall2 (skipped_row now P) l l' ->
  Forall2 (run_step now job_id deps) l l'.
Proof.
  intros HP HF. induction HF as [|a b l l' Hab _ IH]; constructor; [|exact IH].
  destruct Hab as [->|[-> Hp]]; [right; now left|right; right; auto].
Qed.

Lemma run_step_propagate (now job_id : string) (db : Store) :
  Forall2 (run_step now job_id (job_dependencies db)) (jobs db)
          (jobs (propagate_job_failure now db job_id))
  /\ pipelines (propagate_job_failure now db job_id) = pipelines db
  /\ job_dependencies (propagate_job_failure now db job_id)
     = job_dependencies db.
Proof.
  pose proof (propagate_job_failure_runs now db job_id) as Hrun.
  pose proof (propagate_fuel_only_jobs _ _ _ _ _ Hrun) as Honly.
  apply propagate_fuel_skips in Hrun. destruct Hrun as (HD & HF & _).
  split; [|split; [rewrite Honly; reflexivity|exact HD]].
  eapply run_step_skipped; [|exact HF]. cbv beta. tauto.
Qed.

Lemma start_job_frame (env : Env) (db : Store) (job_id : string) :
  Forall2 (run_step (now env) job_id (job_dependencies db)) (jobs db)
          (jobs (start_job env db job_id))
  /\ pipelines (start_job env db job_id) = pipelines db
  /\ job_dependencies (start_job env db job_id) = job_dependencies db.
Proof.
  unfold start_job.
  assert (Forall2 (run_step (now env) job_id (job_dependencies db)) (jobs db)
                  (jobs (retry_with_context (select_job db job_id) job_id db))
          /\ pipelines (retry_with_context (select_job db job_id) job_id db)
             = pipelines db
          /\ job_dependencies (retry_with_context (select_job db job_id) job_id db)
             = job_dependencies db) as (H1 & H2 & H3).
  { unfold retry_with_context.
    assert (Forall2 (run_step (now env) job_id (job_dependencies db))
                    (jobs db) (jobs db)
            /\ pipelines db = pipelines db
            /\ job_dependencies db = job_dependencies db) as Hsame
      by (split; [apply run_step_refl|auto]).
    destruct (select_job db job_id) as [j|]; [|exact Hsame].
    destruct (Job.retry_strategy j) as [cfg|]; [|exact Hsame].
    destruct ((effective_retry_count (Some j) >? 0) && include_context cfg);
      [|exact Hsame].
    destruct (truthy (Job.job_output j)); [|exact Hsame].
    split; [apply run_step_update|auto]. }
  split; [|split; [exact H2|exact H3]].
  eapply run_step_trans; [exact H1|]. apply run_step_update.
Qed.

Lemma after_finish_frame (env : Env) (status : job_status)
  (cfg : option artifact_strategy_config) (job_id log : string)
  (st : Store * nat) :
  exists updated extra,
    jobs (fst (after_finish env status cfg job_id log st))
    = (updated ++ extra)%list
    /\ Forall2 (run_step (now env) job_id (job_dependencies (fst st)))
               (jobs (fst st)) updated
    /\ Forall (fun j => Job.parent_job_id j = Some job_id
                        /\ Job.status j = pending) extra
    /\ pipelines (fst (after_finish env status cfg job_id log st))
       = pipelines (fst st).
Proof.
  assert (exists updated extra,
             jobs (fst st) = (updated ++ extra)%list
             /\ Forall2 (run_step (now env) job_id (job_dependencies (fst st)))
                        (jobs (fst st)) updated
             /\ Forall (fun j => Job.parent_job_id j = Some job_id
                                 /\ Job.status j = pending) extra
             /\ pipelines (fst st) = pipelines (fst st)) as Hsame.
  { exists (jobs (fst st)), []. rewrite app_nil_r.
    split; [reflexivity|]. split; [apply run_step_refl|].
    split; [constructor|reflexivity]. }
  unfold after_finish. cbv zeta.
  destruct status; try exact Hsame.
  - set (st1 := match cfg with
                | Some c => collect_artifacts c env job_id log st
                | None => st
                end).
    assert (jobs (fst st1) = jobs (fst st)
            /\ pipelines (fst st1) = pipelines (fst st)) as (Hj1 & Hp1).
    { unfold st1. destruct cfg as [c|]; [|split; reflexivity].
      apply collect_artifacts_jobs. }
    destruct (check_and_spawn_children env st1 job_id) as (extra & He & Hall).
    destruct (check_and_spawn_appends env st1 job_id) as (Hp & _).
    cbv zeta in Hp.
    exists (jobs (fst st)), extra.
    split; [rewrite He, Hj1; reflexivity|].
    split; [apply run_step_refl|]. split; [exact Hall|].
    rewrite Hp. exact Hp1.
  - cbn [fst snd].
    destruct (run_step_propagate (now env) job_id (fst st)) as (HF & Hp & _).
    exists (jobs (propagate_job_failure (now env) (fst st) job_id)), [].
    rewrite app_nil_r. split; [reflexivity|].
    split; [exact HF|]. split; [constructor|exact Hp].
Qed.

(** X24.  A run of the executor for a job leaves the rest of the jobs table
    alone: each stored row is kept in place and is either a row of the job
    itself, or untouched, or a job depending on it through a chain of
    success-edges that the propagation marked skipped; the rows the run
    appends are pending children of the job, spawned by the multiplier.
    The pipelines table is not written. *)
Theorem run_job_frame (env : Env) (st : Store * nat) (job_id : string) :
  exists updated extra,
    jobs (fst (run_job env st job_id)) = (updated ++ extra)%list
    /\ Forall2 (run_step (now env) job_id (job_dependencies (fst st)))
               (jobs (fst st)) updated
    /\ Forall (fun j => Job.parent_job_id j = Some job_id
                        /\ Job.status j = pending) extra
    /\ pipelines (fst (run_job env st job_id)) = pipelines (fst st).
Proof.
  unfold run_job. cbv zeta.
  destruct (start_job_frame env (fst st) job_id) as (HF2 & Hp2 & Hd2).
  set (db2 := start_job env (fst st) job_id) in *.
  assert (forall f,
             exists updated extra,
               jobs (update_jobs (has_job_id job_id) f db2)
               = (updated ++ extra)%list
               /\ Forall2 (run_step (now env) job_id (job_dependencies (fst st)))
                          (jobs (fst st)) updated
               /\ Forall (fun j => Job.parent_job_id j = Some job_id
                                   /\ Job.status j = pending) extra
               /\ pipelines (update_jobs (has_job_id job_id) f db2)
                  = pipelines (fst st)) as Hupd.
  { intros f. exists (jobs (update_jobs (has_job_id job_id) f db2)), [].
    rewrite app_nil_r. split; [reflexivity|]. split; [|split].
    - eapply run_step_trans; [exact HF2|]. apply run_step_update.
    - constructor.
    - exact Hp2. }
  assert (forall status cfg log f,
             exists updated extra,
               jobs (fst (after_finish env status cfg job_id log
                            (update_jobs (has_job_id job_id) f db2, snd st)))
               = (updated ++ extra)%list
               /\ Forall2 (run_step (now env) job_id (job_dependencies (fst st)))
                          (jobs (fst st)) updated
               /\ Forall (fun j => Job.parent_job_id j = Some job_id
                                   /\ Job.status j = pending) extra
               /\ pipelines (fst (after_finish env status cfg job_id log
                                    (update_jobs (has_job_id job_id) f db2,
                                     snd st)))
                  = pipelines (fst st)) as Hfin.
  { intros status cfg log f.
    destruct (after_finish_frame env status cfg job_id log
                (update_jobs (has_job_id job_id) f db2, snd st))
      as (updated & extra & Hj & HF & Hall & Hp).
    cbn [fst] in HF, Hp.
    change (job_dependencies (update_jobs (has_job_id job_id) f db2))
      with (job_dependencies db2) in HF.
    rewrite Hd2 in HF.
    exists updated, extra. split; [exact Hj|]. split; [|split].
    - eapply run_step_trans; [exact HF2|].
      eapply run_step_trans; [apply (run_step_update _ _ _ f)|exact HF].
    - exact Hall.
    - rewrite Hp. exact Hp2. }
  destruct (shell env _) as [stdout returncode|e].
  - destruct (returncode =? 0); [apply Hfin|].
    destruct (_ <? _); [cbn [fst]; apply Hupd|apply Hfin].
  - cbn [fst].
    destruct (run_step_propagate (now env) job_id
                (update_jobs (has_job_id job_id) (mark_errored (now env) e) db2))
      as (HF & Hp & _).
    change (job_dependencies (update_jobs (has_job_id job_id)
                                (mark_errored (now env) e) db2))
      with (job_dependencies db2) in HF.
    rewrite Hd2 in HF.
    eexists _, []. rewrite app_nil_r. split; [reflexivity|]. split; [|split].
    + eapply run_step_trans; [exact HF2|].
      eapply run_step_trans; [apply (run_step_update _ _ _ (mark_errored (now env) e))|exact HF].
    + constructor.
    + rewrite Hp. exact Hp2.
Qed.

(* ------------------------------------------------------------------ *)
(** ** Scheduler: what an iteration does to the jobs table *)

Lemma tick_step_refl (now : string) (active : string -> Prop)
  (l : list Job.row) :
  Forall2 (tick_step now active) l l.
Proof. induction l; constructor; [now left|assumption]. Qed.

Lemma tick_step_weaken (now : string) (P Q : string -> Prop)
  (l l' : list Job.row) :
  (forall id, P id -> Q id) ->
  Forall2 (tick_step now P) l l' -> Forall2 (tick_step now Q) l l'.
Proof.
  intros HPQ H. induction H as [|a b l l' Hab _ IH]; constructor; [|exact IH].
  destruct Hab as [Heq|(Ha & Hs & Hm)]; [now left|right; auto].
Qed.

Lemma tick_step_trans (now : string) (active : string -> Prop)
  (l0 l1 l2 : list Job.row) :
  Forall2 (tick_step now active) l0 l1 ->
  Forall2 (tick_step now active) l1 l2 ->
  Forall2 (tick_step now active) l0 l2.
Proof.
  intros H01. revert l2.
  induction H01 as [|a b l0 l1 Hab _ IH]; intros l2 H12; inversion H12; subst;
    constructor; [|now apply IH].
  destruct Hab as [->|(Ha & Hs & ->)]; [assumption|].
  destruct H1 as [->|(_ & Hs' & _)]; [right; auto|].
  destruct a; discriminate.
Qed.

Lemma check_pipeline_completion_jobs (now : string) (db db' : Store)
  (pipeline_id : string) :
  check_pipeline_completion now db pipeline_id = Some db' ->
  Forall2 (tick_step now (fun id => id = pipeline_id)) (jobs db) (jobs db')
  /\ job_dependencies db' = job_dependencies db
  /\ artifacts db' = artifacts db.
Proof.
  unfold check_pipeline_completion.
  destruct (match sql_sum _ with Some d => _ | None => false end).
  - destruct (sql_sum _) as [f|]; [|discriminate].
    intros H. inversion H; subst. clear H.
    split; [apply tick_step_refl|split; reflexivity].
  - destruct (sql_sum _) as [p|]; [|discriminate].
    assert (Forall2 (tick_step now (fun id => id = pipeline_id))
                    (jobs db) (jobs db)
            /\ job_dependencies db = job_dependencies db
            /\ artifacts db = artifacts db) as Hsame
      by (split; [apply tick_step_refl|split; reflexivity]).
    destruct (p >? 0); [|intros H; inversion H; subst; exact Hsame].
    destruct (sql_count _ >? 0); intros H; inversion H; subst;
      [|exact Hsame].
    clear H Hsame. split; [|split; reflexivity].
    unfold update_jobs. cbn [jobs with_jobs update_pipelines with_pipelines].
    induction (jobs db) as [|a l IH]; simpl; constructor; [|exact IH].
    destruct (in_pipeline pipeline_id a && is_status (Job.status a) pending)
      eqn:E; [|now left].
    right. apply andb_true_iff in E. destruct E as [E1 E2].
    unfold in_pipeline in E1. apply String.eqb_eq in E1.
    apply is_status_true in E2. auto.
Qed.

Lemma check_running_pipelines_jobs (now : string) :
  forall ids db,
    Forall2 (tick_step now (fun id => In id ids)) (jobs db)
            (jobs (check_running_pipelines now ids db))
    /\ job_dependencies (check_running_pipelines now ids db)
       = job_dependencies db
    /\ artifacts (check_running_pipelines now ids db) = artifacts db.
Proof.
  induction ids as [|id ids IH]; intros db;
    [split; [apply tick_step_refl|split; reflexivity]|].
  simpl. destruct (check_pipeline_completion now db id) as [db'|] eqn:E;
    [|split; [apply tick_step_refl|split; reflexivity]].
  destruct (check_pipeline_completion_jobs _ _ _ _ E) as (H1 & H2 & H3).
  destruct (IH db') as (H1' & H2' & H3').
  split; [|split; congruence].
  eapply tick_step_trans.
  - eapply tick_step_weaken; [|exact H1]. intros x ->. now left.
  - eapply tick_step_weaken; [|exact H1']. intros x Hx. now right.
Qed.

(** X25.  A scheduler iteration writes the jobs table only to skip deadlocked
    work: every job row is kept in place and is either untouched or was a
    pending row of a pipeline that was pending or running when the iteration
    began, now skipped with reason pipeline_deadlocked.  In particular the
    iteration itself never marks a job running, completed or failed, and it
    leaves the dependency edges and the artifacts as they were. *)
Theorem tick_only_skips_deadlocked (now : string) (s : scheduler) :
  Forall2 (tick_step now (active_pipeline (sched_db s)))
          (jobs (sched_db s))
          (jobs (sched_db (fst (orchestration_tick now s))))
  /\ job_dependencies (sched_db (fst (orchestration_tick now s)))
     = job_dependencies (sched_db s)
  /\ artifacts (sched_db (fst (orchestration_tick now s)))
     = artifacts (sched_db s).
Proof.
  unfold orchestration_tick. cbn [fst sched_db].
  destruct (start_pending_pipelines_jobs now (sched_db s)) as [Hj Hd].
  assert (artifacts (start_pending_pipelines now (sched_db s))
          = artifacts (sched_db s)) as Ha.
  { unfold start_pending_pipelines.
    generalize (pipeline_ids_with p_pending (sched_db s)). intros ids.
    generalize (sched_db s). induction ids as [|id ids IH]; intros db;
      [reflexivity|].
    simpl. now rewrite IH. }
  destruct (check_running_pipelines_jobs now
              (pipeline_ids_with p_running
                 (start_pending_pipelines now (sched_db s)))
              (start_pending_pipelines now (sched_db s))) as (H1 & H2 & H3).
  split; [|split; congruence].
  rewrite Hj in H1. eapply tick_step_weaken; [|exact H1].
  intros id Hid. apply in_pipeline_ids_with in Hid.
  destruct Hid as [q (Hq & Hi & Hs)].
  pose proof (start_pending_pipelines_step now
                (pipeline_ids_with p_pending (sched_db s)) (sched_db s)) as Hst.
  fold (start_pending_pipelines now (sched_db s)) in Hst.
  destruct (forall2_pipeline_in _ _ _ _ Hst Hq) as [p [Hp Hstep]].
  destruct Hstep as [->|(Hact & Hi' & _)].
  - exists p. auto.
  - apply in_pipeline_ids_with in Hact. destruct Hact as [r (Hr & Hri & Hrs)].
    exists r. split; [exact Hr|]. split; [congruence|]. left. exact Hrs.
Qed.

(* ------------------------------------------------------------------ *)
(** ** Executor: the three outcomes of a subprocess that exits *)

(** X26.  For a run of a stored job whose subprocess exits: with exit code 0
    the job becomes [completed] with termination reason [success]; with a
    non-zero code and the retry count (NULL read as 0) below the maximum
    (NULL read as 100) the job is [pending] again with the count raised by
    one, and termination reason, output and completion time are not
    written; with a non-zero code and the retries used up the job becomes
    [failed] with reason [exit_code_<code>_after_<retry_count+1>_attempts].
    In both final cases the stored output is the stream's lines, each
    right-stripped, joined by newlines, and the retry count is unchanged. *)
Theorem run_job_exit_outcome (env : Env) (st : Store * nat) (job_id : string)
  (j : Job.row) (stdout : string) (returncode : Z) :
  select_job (fst st) job_id = Some j ->
  shell env (job_command (Some j) job_id) = exited stdout returncode ->
  exists j',
    select_job (fst (run_job env st job_id)) job_id = Some j'
    /\ (returncode = 0 ->
        Job.status j' = completed
        /\ Job.termination_reason j' = Some "success"
        /\ Job.job_output j' = Some (join nl (map rstrip (readlines stdout)))
        /\ Job.retry_count j' = Job.retry_count j)
    /\ (returncode <> 0 ->
        get (Job.retry_count j) 0 < get (Job.max_retries j) 100 ->
        Job.status j' = pending
        /\ Job.retry_count j' = Some (get (Job.retry_count j) 0 + 1)
        /\ Job.termination_reason j' = Job.termination_reason j
        /\ Job.job_output j' = Job.job_output j
        /\ Job.completed_at j' = Job.completed_at j)
    /\ (returncode <> 0 ->
        get (Job.max_retries j) 100 <= get (Job.retry_count j) 0 ->
        Job.status j' = failed
        /\ Job.termination_reason j'
           = Some ("exit_code_" ++ py_str_int returncode ++ "_after_"
                   ++ py_str_int (get (Job.retry_count j) 0 + 1)
                   ++ "_attempts")
        /\ Job.job_output j' = Some (join nl (map rstrip (readlines stdout)))
        /\ Job.retry_count j' = Job.retry_count j).
Proof.
  intros Hsel Hshell.
  change (get (Job.retry_count j) 0) with (effective_retry_count (Some j)).
  change (get (Job.max_retries j) 100) with (effective_max_retries (Some j)).
  destruct (run_job_row env st job_id j Hsel) as [j1 [Hj1 Hrow]].
  rewrite Hshell in Hrow. unfold row_after_run in Hrow.
  eexists. split; [exact Hrow|].
  destruct (returncode =? 0) eqn:Ez.
  - apply Z.eqb_eq in Ez.
    split; [intros _; destruct Hj1 as [->|[p ->]]; repeat split|].
    split; intros Hn; contradiction.
  - apply Z.eqb_neq in Ez.
    destruct (effective_retry_count (Some j) <? effective_max_retries (Some j))
      eqn:El.
    + apply Z.ltb_lt in El. split; [intros Hz; contradiction|].
      split; [|intros _ Hge; lia].
      intros _ _. destruct Hj1 as [->|[p ->]]; repeat split.
    + apply Z.ltb_ge in El. split; [intros Hz; contradiction|].
      split; [intros _ Hlt; lia|].
      intros _ _. destruct Hj1 as [->|[p ->]]; repeat split.
Qed.

Lemma run_job_exit_outcome_witness :
  (exists j',
      select_job (fst (run_job (scenario_env two_line_shell)
                         (store_one_pending, O) "j")) "j" = Some j'
      /\ Job.status j' = completed
      /\ Job.termination_reason j' = Some "success"
      /\ Job.job_output j'
         = Some ("Job output line 1" ++ nl ++ "Job output line 2")
      /\ Job.retry_count j' = Some 0)
  /\ (exists j',
         select_job (fst (run_job (scenario_env failing_shell)
                            (store_resume 0 None, O) "r")) "r" = Some j'
         /\ Job.status j' = pending
         /\ Job.retry_count j' = Some 1
         /\ Job.termination_reason j' = None
         /\ Job.job_output j' = None
         /\ Job.completed_at j' = None)
  /\ (exists j',
         select_job (fst (run_job (scenario_env failing_shell)
                            (store_resume 2 None, O) "r")) "r" = Some j'
         /\ Job.status j' = failed
         /\ Job.termination_reason j' = Some "exit_code_1_after_3_attempts"
         /\ Job.job_output j' = Some "step1"
         /\ Job.retry_count j' = Some 2).
Proof.
  split; [|split].
  - destruct (run_job_exit_outcome (scenario_env two_line_shell)
                (store_one_pending, O) "j" (a_job "j" "P" pending)
                two_lines 0 eq_refl eq_refl) as [j' (Hsel & H0 & _)].
    exists j'. split; [exact Hsel|]. apply H0. reflexivity.
  - destruct (run_job_exit_outcome (scenario_env failing_shell)
                (store_resume 0 None, O) "r" (resume_job 0 None)
                ("step1" ++ nl) 1 eq_refl eq_refl) as [j' (Hsel & _ & Hlt & _)].
    exists j'. split; [exact Hsel|]. apply Hlt; [lia|simpl; lia].
  - destruct (run_job_exit_outcome (scenario_env failing_shell)
                (store_resume 2 None, O) "r" (resume_job 2 None)
                ("step1" ++ nl) 1 eq_refl eq_refl) as [j' (Hsel & _ & _ & Hge)].
    exists j'. split; [exact Hsel|]. apply Hge; [lia|simpl; lia].
Defined.
